(* ===== verification/_CoqProject ===== *)
-Q . S2P
Prelude.v
JsNumber.v
Entities.v
Store.v
Urgency.v
Compliance.v
Checker.v
Statistics.v
Reports.v
ReportsPage.v
Documents.v
Tracker.v
Effects.v
Routes.v
Views.v
