(* ===== verification/Prelude.v ===== *)
(** * A verification development of the Automated Bid & Proposal Tracker

    The repository is a React front end ([src/frontend/src]) over a REST
    record store.  Its business logic is scattered through the page
    components; this library models that logic as executable Rocq
    definitions and proves what makes it correct.

    ** The program and how its parts interact

    - [App.js] routes six pages under [Layout.jsx]: [Dashboard],
      [BidTracker], [OpportunityDetail], [ComplianceChecker],
      [DocumentManager], [Reports].  Every page fetches its data from the
      record store (axios, [Promise.all]) into React state and derives
      everything it shows from that state.
    - The entities (opportunity, compliance item, document, activity) are
      the JSON records of the store; their enumerated fields are the
      option lists of the forms ([BidTracker.jsx], [ComplianceChecker.jsx],
      [DocumentManager.jsx]).
    - Deadline urgency is computed in three places with three different
      predicates: [getDeadlineClass] of [BidTracker.jsx] (row tint),
      the [urgentOpportunities] filter and the recent-card tint of
      [Dashboard.jsx], and the [urgentOpportunities] filter of
      [Reports.jsx].
    - The compliance rate of one opportunity is
      [calculateComplianceRate] of [ComplianceChecker.jsx]; the colour
      bucket (>= 80 high, >= 60 medium) is repeated in four pages.
    - Document versions are assigned by [handleSubmit] of
      [DocumentManager.jsx] from the documents the page has loaded, and an
      activity is logged after the upload.
    - Portfolio statistics ([/api/statistics]) are computed by the backend,
      which is not in this repository: that one component is modelled from
      the specification (section 4.4) and marked so in the manifest.
    - [Reports.jsx] renders the statistics and the opportunity list into a
      paginated PDF ([generatePDFReport]) and a two-sheet workbook
      ([exportToExcel]).

    ** Files

    - [Prelude]: this file.  The scope [abpts_scope], JavaScript value
      conventions shared by every page (truthiness defaults [x || d],
      [Math.round] on exact rationals, counting with [filter]), the
      hint database [abpts] and the generic lemmas on lists, counts and
      rounding the components share.
    - [JsNumber]: ECMAScript's [parseInt] (white space, sign, [0x]
      prefix, longest digit prefix, NaN as [None]), with the lemma that it
      reads back a decimal writing.
    - [Entities]: the records and enumerations, with decidable equality
      and the string encodings the pages compare against.
    - [Store]: the REST record store every page calls (not in the
      repository, modelled from the specification, sections 3 and 6):
      collections as lists in insertion order, creation under a fresh
      identifier, deletion by identifier without cascade, children listed
      by opportunity, update (PUT) of opportunities, compliance items and
      documents; activities, immutable audit entries, are only created
      and listed.  The pages' handlers take the store and return it.
      [store_ids_ok] states that the identifiers of each keyed
      collection are unique, and every operation keeps it.
    - [Urgency]: the four urgency computations (row tint, dashboard alert,
      dashboard card tint, reports count) and how they relate (C1-C6).
    - [Compliance]: [calculateComplianceRate] as the page computes it,
      in binary64, the same [Math.round((a / b) * 100)] for the reports'
      status bars ([percent_of]), the pending count and the colour
      bucket; the exact round-half-up reading of the specification is
      kept as the reference it is compared with (C7-C10).
    - [Checker]: the compliance checker page, its state and every handler
      ([loadData], [handleSubmit], [handleDelete], [resetForm], the
      dialog and each of its inputs, with the browser's validation of
      the [required] inputs before [onSubmit]) as a step function over
      page and store, in Module
      [ComplianceChecker] (C12, C23-C27).
    - [Statistics]: the statistics summary, the [StatisticsService]
      class stating what the backend promises the pages, the specification
      model [summarize] as an instance, and the dashboard's load, cards
      and [statusData] (its charts are commented out) and the report
      status bars, whose widths are computed in binary64, proved against
      the class (C11).
    - [Reports]: [generatePDFReport] as the list of jsPDF calls with the
      vertical cursor threaded through, every drawn line's baseline
      ([baselines], jsPDF's line height for a wrapped text included), and
      [exportToExcel] with [json_to_sheet] (C13-C15).
    - [Documents]: the document manager page, version labels, the
      dialog's inputs and [required] validation, the unawaited reload as
      a separate event, grouping by category, in
      Module [DocumentManager] (C16-C18).
    - [ReportsPage]: the rest of the reports page: its load, metric
      cards, urgent action items (with the filter's and the rows' separate
      instants), compliance analysis and recommendations (C34-C35).
    - [Tracker]: the bid tracker page, in Module [BidTracker]: search and
      status filter, the create/edit dialog with the compliance input's
      [parseInt(...) || 0] and the browser's [required]/[min]/[max]
      validation before [onSubmit], submit, edit and delete (C19-C22,
      C33).
    - [Routes]: the route table of [App.js] with React Router's matching,
      the sidebar of [Layout.jsx], the [OpportunityDetail] page, and the
      one-click relation [nav] made of every link and navigate button;
      reachability is stdpp's [rtc] of it.  The tracker's rows after its
      own writes: a row stays listed after its DELETE until a reload
      succeeds (C28-C31).
    - [Effects]: every [useEffect] of the pages with its dependency array,
      and React's re-run rule (an effect runs again when a dependency
      differs by [Object.is]; a state change renders again) as [commit]
      and [settle] with fuel.  The tracker's view adds the array
      references, so [filterOpportunities] returning [opportunities]
      itself is kept; the pages loaded per route parameter record the
      loads started, pending and shown (C36-C38).
    - [Views]: what the pages render, as values: the tracker's table
      rows (key, [data-testid], cells, badge and compliance classes, view
      target), the compliance checker's screen and matrix (icon, badge,
      notes), the document manager's screen, category cards and summary
      cards, the detail page's header, details and activity log, and the
      dashboard's loading screen, urgent alert, cards and recent list
      (C32, C39-C40).

    ** What the theorems show

    - Functional behaviour of every classifier and aggregator on every
      branch, invalid dates included (Urgency, Compliance, Tracker).
    - Navigation: every route path is matched back to its page, every
      opportunity's pages are reachable from the dashboard, and a row the
      tracker lists opens its opportunity unless the page deleted it
      since its last successful load.
    - Invariants of the pages over arbitrary event sequences, by induction
      on the run or on an inductive step relation: version labels stay
      sequential while the page is in sync ([Documents.synced_steps]),
      editing implies an open dialog, the compliance page never writes
      opportunities, and the records the tracker writes keep the entity's
      constraints (percentage in 0..100, valid deadline).
    - Error paths: each handler's failure branch leaves the store as it was
      and shows its toast; partial failures are exposed (a document stored
      while the page reports failure).
    - Termination of React's effect loop on the tracker page: two passes
      after every event reach a render where no effect runs, and the
      result refines the event model of [Tracker] with
      [filteredOpportunities] equal to its filter; the route pages start a
      load exactly when their identifier changes.
    - Rendering: over any run from a store with unique identifiers, the
      tracker's table, the compliance matrix and the document list have
      distinct React keys and [data-testid]s; the document manager shows
      every document exactly once, under its category; the dashboard's
      alert appears exactly when its urgent card is not zero.
    - Refinement against an interface: the readers of the statistics are
      correct for any [StatisticsService], and [summarize] is one.
    - Layout safety of the PDF (every line of every text call on the
      page) and the shape of both workbook sheets.
    - Places where the code departs from the specification are stated
      as theorems: binary64 rounding (23 of 40 shows 57),
      Submitted counted as urgent in the reports, stale version labels,
      orphans created by the compliance page, [parseInt] cutting [1e2] to
      1, "-1h remaining" in the reports' urgent list, a late response
      for a previous route identifier overwriting the current page, the
      "Latest Upload" card showing the oldest document, a deleted row
      kept in the tracker's table and opening "Opportunity not found".

    ** Bounds and what is not modelled

    - Nothing about binary64 division is assumed: the facts about the
      rates (bounds, 0 and 100, monotonicity, the comparison with the
      exact rate) are proved by evaluating every pair of counts up to 200
      in the kernel ([facts_checked_200]), so the theorems on the
      compliance rate and the status bars hold for checklists and
      portfolios of at most 200 (199 where one more item is added, or
      where 199 of 200 already rounds to 100).  A checklist of an RFP is
      far shorter.
    - The PDF safety theorem assumes at most 20 entries in the status
      breakdown, which the section does not paginate (the statistics
      interface guarantees at most six), and that each recommendation
      wraps to at most two lines: the code tests for a new page only
      before a recommendation, and jsPDF draws the lines of one call
      1.15 x 11 pt = 4.46 mm apart, so a third line from the cursor 270
      reaches 278.9 mm.  Positions are counted in 1/72000 mm, where that
      line height is exact.
    - The effect loop is given two passes of fuel after each event:
      [settle_two] shows that two are enough whenever no effect writes a
      dependency of an effect, which holds of every page, and one is not
      ([settle_one_pass_mount]).
    - Not modelled: React rendering and styling beyond the values and
      classes the pages compute, [toLocaleDateString] and jsPDF's
      [splitTextToSize] (section parameters of [Reports]), the percent
      decoding of route parameters (the store's identifiers need none),
      the URL check of the portal link input, the static guide text of the
      reports page, the [active] class of the sidebar's [NavLink]s (its
      rule for [/] changed between React Router 6 releases, and the
      repository pins no version: it has no [package.json]), the bar and
      pie charts of the dashboard (commented out in the source), and the
      backend beyond the record store of the specification.  [toLowerCase] and [parseInt]'s white space are modelled on
      ASCII characters, and [parseInt] exactly (a number input never holds
      the twenty digits where it rounds).
    - The pages' handlers are grouped in one Module per page, named after
      the component of [src/] ([BidTracker], [ComplianceChecker],
      [DocumentManager], [ReportsPage]), since the pages reuse handler
      names.

    ** Modelling conventions

    - A JavaScript number that the code only adds and compares is an
      exact rational ([Q]) or an integer ([Z]), which is exact for the
      values involved; a division whose double rounding can change a
      visible result ([Math.round((a / b) * 100)]) is computed with the
      kernel's binary64 floats ([PrimFloat]), NaN being [None] (see
      [Compliance]).
    - A [Date] is its time value in milliseconds, [option Z], [None]
      standing for an Invalid Date whose time value is NaN: every
      comparison with NaN is false, as in JavaScript.
    - [Array.prototype.filter] with a boolean callback is [List.filter],
      [.length] of it is [length], [.slice(0, k)] is [take k].
*)

From stdpp Require Import base list strings.
From Stdlib Require Import ZArith QArith Qround DecimalString DecimalNat.

Declare Scope abpts_scope.
Delimit Scope abpts_scope with abpts.

(** ** JavaScript truthiness defaults *)

(** [s || d] on a string field that may be [null]/[undefined] ([None]) or
    the empty string, both falsy. *)
Definition js_or_str (o : option string) (d : string) : string :=
  match o with
  | None => d
  | Some s => if String.eqb s "" then d else s
  end.

(** [x || d] on a number that may be missing ([None]); [0] is falsy. *)
Definition js_or_num (o : option Z) (d : Z) : Z :=
  match o with
  | None => d
  | Some z => if Z.eqb z 0 then d else z
  end.

Notation "o '||s' d" := (js_or_str o d) (at level 50) : abpts_scope.
Notation "o '||n' d" := (js_or_num o d) (at level 50) : abpts_scope.

(** ** [Math.round] on exact rationals: round half up, [floor (x + 1/2)]. *)
Definition js_round (q : Q) : Z := Qfloor (q + (1 # 2)).

(** A natural number printed by a template literal, [`${n}`], and read
    back. *)
Definition show_nat (n : nat) : string := NilEmpty.string_of_uint (Nat.to_uint n).

Definition parse_nat (s : string) : option nat :=
  option_map Nat.of_uint (NilEmpty.uint_of_string s).

(** Counting the elements that satisfy a boolean callback:
    [xs.filter(p).length]. *)
Definition count_if {A} (p : A -> bool) (l : list A) : nat :=
  length (List.filter p l).

Create HintDb abpts.
Create Rewrite HintDb abpts_rw.

(** ** Generic lemmas on counting *)

Section Counting.
Context {A : Type}.
Implicit Types (p q : A -> bool) (l : list A).

Lemma count_if_nil p : count_if p [] = 0%nat.
Proof. reflexivity. Qed.

Lemma count_if_cons p x l :
    count_if p (x :: l) = ((if p x then 1 else 0) + count_if p l)%nat.
Proof. unfold count_if; simpl; destruct (p x); reflexivity. Qed.

Lemma count_if_app p l1 l2 :
    count_if p (l1 ++ l2) = (count_if p l1 + count_if p l2)%nat.
Proof. unfold count_if. rewrite List.filter_app, length_app. reflexivity. Qed.

Lemma count_if_le p l : (count_if p l <= length l)%nat.
Proof.
    induction l as [|x l IH]; [rewrite count_if_nil; simpl; lia|].
    rewrite count_if_cons; simpl; destruct (p x); lia.
Qed.

Lemma count_if_ext p q l :
    (forall x, In x l -> p x = q x) -> count_if p l = count_if q l.
Proof.
    intros H. induction l as [|x l IH]; [reflexivity|].
    rewrite !count_if_cons, H by (left; reflexivity).
    rewrite IH; [reflexivity|]. intros y Hy; apply H; right; exact Hy.
Qed.

  (** Splitting a count by a second predicate. *)
Lemma count_if_split p q l :
    count_if p l
    = (count_if (fun x => p x && q x) l + count_if (fun x => p x && negb (q x)) l)%nat.
Proof.
    induction l as [|x l IH]; [reflexivity|].
    rewrite !count_if_cons, IH. destruct (p x), (q x); simpl; lia.
Qed.

Lemma count_if_filter p q l :
    count_if p (List.filter q l) = count_if (fun x => q x && p x) l.
Proof.
    induction l as [|x l IH]; [reflexivity|].
    simpl List.filter. rewrite (count_if_cons (fun y => q y && p y)).
    destruct (q x); simpl; rewrite ?count_if_cons, IH; reflexivity.
Qed.

Lemma count_if_false p l :
    (forall x, In x l -> p x = false) -> count_if p l = 0%nat.
Proof.
    intros H. rewrite (count_if_ext p (fun _ => false)) by exact H.
    induction l; [reflexivity|]. rewrite count_if_cons; simpl.
    apply IHl; intros; apply H; right; assumption.
Qed.

Lemma filter_take_prefix p l k :
    take k (List.filter p l) `prefix_of` List.filter p l.
Proof. apply prefix_take. Qed.

Lemma list_filter_sublist p l : List.filter p l `sublist_of` l.
Proof.
  induction l as [|x l IH]; simpl; [constructor|].
  destruct (p x); [apply sublist_skip|apply sublist_cons]; exact IH.
Qed.

Lemma sublist_map {B} (f : A -> B) l1 l2 : l1 `sublist_of` l2 -> map f l1 `sublist_of` map f l2.
Proof. induction 1; simpl; constructor; assumption. Qed.

Lemma NoDup_map_filter {B} (f : A -> B) p l : NoDup (map f l) -> NoDup (map f (List.filter p l)).
Proof. intros H. eapply sublist_NoDup; [exact H|]. apply sublist_map, list_filter_sublist. Qed.

Lemma NoDup_map_inj {B} (f : A -> B) l : (forall x y, f x = f y -> x = y) -> NoDup l -> NoDup (map f l).
Proof.
  intros Hf. induction 1 as [|x l Hx _ IH]; simpl; constructor; [|exact IH].
  intros (y & Hy & Hin)%list_elem_of_In%in_map_iff. apply Hf in Hy. subst y.
  apply Hx, list_elem_of_In, Hin.
Qed.

Lemma Forall_list_filter (P : A -> Prop) p l : Forall P l -> Forall P (List.filter p l).
Proof.
  induction 1 as [|x l Hx _ IH]; simpl; [constructor|].
  destruct (p x); [constructor|]; assumption.
Qed.

Lemma In_take (x : A) n l : In x (take n l) -> In x l.
Proof. intros H. rewrite <- (take_drop n l). apply in_or_app. left. exact H. Qed.

Lemma list_filter_comm (p q : A -> bool) l :
  List.filter p (List.filter q l) = List.filter q (List.filter p l).
Proof.
  induction l as [|x l IH]; simpl; [reflexivity|].
  destruct (q x) eqn:Eq, (p x) eqn:Ep; simpl; rewrite ?Eq, ?Ep, IH; reflexivity.
Qed.

Lemma count_if_all p l : count_if p l = length l <-> Forall (fun x => p x = true) l.
Proof.
  induction l as [|x l IH]; simpl; [split; [constructor|reflexivity]|].
  rewrite count_if_cons. pose proof (count_if_le p l) as Hle.
  destruct (p x) eqn:E; split.
  - intros Hc. constructor; [exact E|apply IH; lia].
  - intros Hf. inversion Hf; subst. rewrite (proj2 IH); [reflexivity|assumption].
  - intros Hc. lia.
  - intros Hf. inversion Hf; congruence.
Qed.
Lemma count_if_zero p l : count_if p l = 0%nat <-> Forall (fun x => p x = false) l.
Proof.
  induction l as [|x l IH]; simpl; [split; [constructor|reflexivity]|].
  rewrite count_if_cons. destruct (p x) eqn:E; split.
  - lia.
  - intros Hf. inversion Hf; congruence.
  - intros Hc. constructor; [exact E|apply IH; exact Hc].
  - intros Hf. inversion Hf; subst. apply IH. assumption.
Qed.
End Counting.

#[export] Hint Rewrite @count_if_nil @count_if_cons @count_if_app : abpts_rw.
#[export] Hint Resolve count_if_le : abpts.

(** ** Decimal numerals *)

Lemma string_app_assoc (a b c : string) : (a +:+ b) +:+ c = a +:+ (b +:+ c).
Proof. induction a as [|x a IH]; [reflexivity|]. exact (f_equal (String x) IH). Qed.

Lemma string_app_nil_r (a : string) : a +:+ "" = a.
Proof. induction a as [|x a IH]; [reflexivity|]. exact (f_equal (String x) IH). Qed.

Lemma string_app_inj_l (p a b : string) : p +:+ a = p +:+ b -> a = b.
Proof. induction p as [|x p IH]; [auto|]. intros H. injection H. exact IH. Qed.

Lemma parse_show_nat n : parse_nat (show_nat n) = Some n.
Proof.
  unfold parse_nat, show_nat. rewrite NilEmpty.usu. simpl.
  rewrite DecimalNat.Unsigned.of_to. reflexivity.
Qed.

Lemma show_nat_inj n m : show_nat n = show_nat m -> n = m.
Proof.
  intros H. apply (f_equal parse_nat) in H. rewrite !parse_show_nat in H. congruence.
Qed.

#[export] Hint Rewrite parse_show_nat : abpts_rw.

(** ** Rounding *)

Local Open Scope Z_scope.

(** [Math.round(a / b * 100)] on exact rationals is an integer division. *)
Lemma js_round_percent (a : Z) (b : positive) :
  js_round (inject_Z a / inject_Z (Zpos b) * inject_Z 100) = (200 * a + Zpos b) / (2 * Zpos b).
Proof.
  unfold js_round.
  assert (Heq : inject_Z a / inject_Z (Zpos b) * inject_Z 100 + (1 # 2)
                == (200 * a + Zpos b) # (2 * b)).
  { unfold Qeq, Qdiv, Qmult, Qplus, Qinv, inject_Z; simpl. lia. }
  rewrite Heq. reflexivity.
Qed.

(** The integer form of a rounded percentage lies between 0 and 100. *)
Lemma round_percent_bounds (a b : Z) :
  0 < b -> 0 <= a <= b -> 0 <= (200 * a + b) / (2 * b) <= 100.
Proof.
  intros Hb Ha. split.
  - apply Z.div_pos; lia.
  - enough ((200 * a + b) / (2 * b) < 101) by lia.
    apply Z.div_lt_upper_bound; lia.
Qed.

Lemma round_percent_mono (a a' b : Z) :
  0 < b -> a <= a' -> (200 * a + b) / (2 * b) <= (200 * a' + b) / (2 * b).
Proof. intros Hb Ha. apply Z.div_le_mono; lia. Qed.

(** Floor division is monotone in the quotient: [a/b <= a'/b'] in the
    rationals gives it for the floors. *)
Lemma div_le_cross (a b a' b' : Z) :
  0 < b -> 0 < b' -> a * b' <= a' * b -> a / b <= a' / b'.
Proof.
  intros Hb Hb' H.
  apply Z.div_le_lower_bound; [exact Hb'|].
  pose proof (Z.mul_div_le a b Hb) as Hd.
  assert (b * (a / b) * b' <= a' * b) by nia.
  nia.
Qed.

#[export] Hint Resolve round_percent_bounds round_percent_mono div_le_cross : abpts.

(** [solve_js] unfolds the truthiness helpers and finishes by computation
    or arithmetic. *)
Ltac solve_js :=
  unfold js_or_str, js_or_num in *;
  repeat match goal with
         | |- context [String.eqb ?a ?b] => destruct (String.eqb_spec a b)
         | |- context [Z.eqb ?a ?b] => destruct (Z.eqb_spec a b)
         end;
  subst; try reflexivity; try congruence; try lia.
