(* ===== verification/JsNumber.v ===== *)
(** * JsNumber: [parseInt] on the strings of a form input

    ECMAScript's [parseInt(string)] (no radix), as the tracker form applies
    it to the compliance input ([BidTracker.jsx] line 270): leading white
    space is skipped, one sign is read, a [0x] or [0X] prefix selects
    radix 16 and radix 10 is used otherwise, and the longest prefix of
    digits of that radix is read; no digit at all gives NaN, here [None].
    White space is the ASCII part of the specification's set (tab, line
    feed, vertical tab, form feed, carriage return, space).  The value is
    exact: a number input never holds the twenty digits beyond which
    [parseInt] may round. *)

From stdpp Require Import base list strings.
From Stdlib Require Import ZArith Ascii DecimalString DecimalNat.
From S2P Require Import Prelude.

Local Open Scope Z_scope.

Definition js_space (c : ascii) : bool :=
  let n := nat_of_ascii c in (n =? 32)%nat || ((9 <=? n)%nat && (n <=? 13)%nat).

Fixpoint trim_start (s : string) : string :=
  match s with
  | String c rest => if js_space c then trim_start rest else s
  | EmptyString => EmptyString
  end.

(** The value of a digit in any radix up to 36. *)
Definition digit_val (c : ascii) : option Z :=
  let n := Z.of_nat (nat_of_ascii c) in
  if (48 <=? n) && (n <=? 57) then Some (n - 48)
  else if (97 <=? n) && (n <=? 122) then Some (n - 87)
  else if (65 <=? n) && (n <=? 90) then Some (n - 55)
  else None.

(** The longest prefix of digits of [radix], read into [acc]; [seen] tells
    whether a digit was read. *)
Fixpoint digits_prefix (radix : Z) (s : string) (acc : Z) (seen : bool) : option Z :=
  match s with
  | EmptyString => if seen then Some acc else None
  | String c rest =>
      match digit_val c with
      | Some d => if d <? radix then digits_prefix radix rest (acc * radix + d) true
                  else if seen then Some acc else None
      | None => if seen then Some acc else None
      end
  end.

Definition parse_sign (s : string) : Z * string :=
  match s with
  | String c rest =>
      if Ascii.eqb c "-"%char then (-1, rest)
      else if Ascii.eqb c "+"%char then (1, rest)
      else (1, s)
  | EmptyString => (1, s)
  end.

Definition parse_radix (s : string) : Z * string :=
  match s with
  | String c0 (String x rest) =>
      if Ascii.eqb c0 "0"%char && (Ascii.eqb x "x"%char || Ascii.eqb x "X"%char)
      then (16, rest) else (10, s)
  | _ => (10, s)
  end.

(** [parseInt(s)]; [None] is NaN. *)
Definition parseInt (s : string) : option Z :=
  let '(sign, s2) := parse_sign (trim_start s) in
  let '(radix, s3) := parse_radix s2 in
  option_map (Z.mul sign) (digits_prefix radix s3 0 false).

(** ** Lemmas *)

Ltac digit_arith :=
  rewrite Nat.tail_mul_spec;
  match goal with |- context [Z.of_nat (nat_of_ascii ?c)] =>
    let v := eval vm_compute in (Z.of_nat (nat_of_ascii c)) in
    change (Z.of_nat (nat_of_ascii c)) with v end; lia.

Lemma digits_prefix_uint u acc :
  digits_prefix 10 (NilEmpty.string_of_uint u) (Z.of_nat acc) true
  = Some (Z.of_nat (Nat.of_uint_acc u acc)).
Proof.
  revert acc. induction u; intros acc; simpl; try reflexivity;
    rewrite <- IHu; f_equal; digit_arith.
Qed.

Lemma digits_prefix_uint_start u acc seen :
  u <> Decimal.Nil ->
  digits_prefix 10 (NilEmpty.string_of_uint u) (Z.of_nat acc) seen
  = Some (Z.of_nat (Nat.of_uint_acc u acc)).
Proof.
  intros Hu. destruct u; [contradiction|..]; simpl;
    rewrite <- digits_prefix_uint; f_equal; digit_arith.
Qed.

Lemma to_uint_nonnil n : Nat.to_uint n <> Decimal.Nil.
Proof.
  intros E. pose proof (DecimalNat.Unsigned.of_to n) as Hn. rewrite E in Hn.
  destruct n; [discriminate|discriminate].
Qed.

(** A decimal writing starts with a digit, and with [0] only when it is
    ["0"]: no sign, no white space and no [0x] prefix. *)
Lemma parse_prefix_uint u :
  u <> Decimal.Nil ->
  let s := NilEmpty.string_of_uint u in
  trim_start s = s /\ parse_sign s = (1, s) /\ parse_radix s = (10, s).
Proof.
  intros Hu. cbv zeta. destruct u as [|u|u|u|u|u|u|u|u|u|u]; [contradiction|..];
    destruct u; repeat split; reflexivity.
Qed.

(** [parseInt] reads back the decimal writing of a number. *)
Lemma parseInt_show_nat n : parseInt (show_nat n) = Some (Z.of_nat n).
Proof.
  unfold parseInt, show_nat.
  destruct (parse_prefix_uint (Nat.to_uint n) (to_uint_nonnil n)) as (-> & -> & ->).
  change 0 with (Z.of_nat 0).
  rewrite (digits_prefix_uint_start _ 0 false (to_uint_nonnil n)).
  simpl. f_equal. rewrite <- (DecimalNat.Unsigned.of_to n) at 2. unfold Nat.of_uint. lia.
Qed.
