(* ===== verification/Entities.v ===== *)
(** * Entities: the records of the store and their enumerated fields

    The JSON records the pages read and write.  Each enumerated field is
    the option list of the form that sets it: opportunity status, priority
    and submission format ([BidTracker.jsx]), compliance status
    ([ComplianceChecker.jsx]) and document category
    ([DocumentManager.jsx]).  The pages compare these fields as strings
    ([opp.status === 'Won']); each enumeration comes with its string
    encoding and a decoder, and the decoder inverts the encoding. *)

From stdpp Require Import base list strings.
From Stdlib Require Import ZArith.
From S2P Require Import Prelude.

(** ** Enumerations *)

(** Opportunity status, [BidTracker.jsx] lines 250-255. *)
Inductive Status := Drafting | Review | Approved | Submitted | Won | Lost.

(** Priority level, [BidTracker.jsx] lines 281-283. *)
Inductive Priority := High | Medium | Low.

(** Submission format, [BidTracker.jsx] lines 296-298. *)
Inductive SubmissionFormat := Portal | Email | Hybrid.

(** Compliance item status, [ComplianceChecker.jsx] lines 159-161. *)
Inductive ComplianceStatus := Pending | Compliant | NonCompliant.

(** Document category, [DocumentManager.jsx] lines 163-167. *)
Inductive Category := Proposal | Annexures | Financials | ComplianceDocs | Supporting.

#[export] Instance Status_eq_dec : EqDecision Status.
Proof. solve_decision. Defined.
#[export] Instance Priority_eq_dec : EqDecision Priority.
Proof. solve_decision. Defined.
#[export] Instance SubmissionFormat_eq_dec : EqDecision SubmissionFormat.
Proof. solve_decision. Defined.
#[export] Instance ComplianceStatus_eq_dec : EqDecision ComplianceStatus.
Proof. solve_decision. Defined.
#[export] Instance Category_eq_dec : EqDecision Category.
Proof. solve_decision. Defined.

(** The strings the forms store. *)
Definition status_to_string (s : Status) : string :=
  match s with
  | Drafting => "Drafting" | Review => "Review" | Approved => "Approved"
  | Submitted => "Submitted" | Won => "Won" | Lost => "Lost"
  end.

Definition status_of_string (s : string) : option Status :=
  if String.eqb s "Drafting" then Some Drafting
  else if String.eqb s "Review" then Some Review
  else if String.eqb s "Approved" then Some Approved
  else if String.eqb s "Submitted" then Some Submitted
  else if String.eqb s "Won" then Some Won
  else if String.eqb s "Lost" then Some Lost
  else None.

Definition priority_to_string (p : Priority) : string :=
  match p with High => "High" | Medium => "Medium" | Low => "Low" end.

Definition compliance_status_to_string (s : ComplianceStatus) : string :=
  match s with
  | Pending => "Pending" | Compliant => "Compliant" | NonCompliant => "Non-Compliant"
  end.

Definition category_to_string (c : Category) : string :=
  match c with
  | Proposal => "Proposal" | Annexures => "Annexures" | Financials => "Financials"
  | ComplianceDocs => "Compliance" | Supporting => "Supporting"
  end.

Definition all_statuses : list Status := [Drafting; Review; Approved; Submitted; Won; Lost].

(** ** Dates *)

(** A JavaScript [Date]: its time value in milliseconds, [None] for an
    Invalid Date (time value NaN).  A stored deadline string is represented
    by [new Date(s)]. *)
Definition js_date := option Z.

(** ** Records *)

(** An opportunity, the fields of the form of [BidTracker.jsx] lines 24-38. *)
Record Opportunity := mkOpportunity {
  id : string;
  client : string;
  project_type : string;
  rfp_release_date : string;
  submission_deadline : js_date;
  proposal_owner : string;
  status : Status;
  compliance_percentage : Z;
  priority_level : Priority;
  portal_link : string;
  risk_flags : list string;
  submission_format : SubmissionFormat;
  budget : option string;
  industry : option string
}.

(** A compliance requirement, [ComplianceChecker.jsx] lines 24-29 and 54-57. *)
Module ComplianceItem.
Record t := mk {
    id : string;
    opportunity_id : string;
    requirement : string;
    status : ComplianceStatus;
    notes : string;
    assigned_to : string
  }.
End ComplianceItem.

(** A document reference, [DocumentManager.jsx] lines 23-27 and 56-60. *)
Module Document.
Record t := mk {
    id : string;
    opportunity_id : string;
    document_name : string;
    category : Category;
    uploaded_by : string;
    version : string
  }.
End Document.

(** An activity log entry, [DocumentManager.jsx] lines 67-72. *)
Module Activity.
Record t := mk {
    opportunity_id : string;
    activity_type : string;
    description : string;
    user : string
  }.
End Activity.

(** ** Status predicates the pages share *)

(** [status === 'Won' || status === 'Lost' || status === 'Submitted']. *)
Definition is_resolved (s : Status) : bool :=
  match s with Won | Lost | Submitted => true | _ => false end.

(** [['Won', 'Lost'].includes(status)]. *)
Definition is_closed (s : Status) : bool :=
  match s with Won | Lost => true | _ => false end.

(** ** Encoding lemmas *)

Lemma status_of_to_string s : status_of_string (status_to_string s) = Some s.
Proof. destruct s; reflexivity. Qed.

Lemma status_to_string_inj s1 s2 :
  status_to_string s1 = status_to_string s2 -> s1 = s2.
Proof.
  intros H. apply (f_equal status_of_string) in H.
  rewrite !status_of_to_string in H. congruence.
Qed.

Lemma status_of_string_some str s :
  status_of_string str = Some s -> str = status_to_string s.
Proof.
  unfold status_of_string.
  repeat match goal with
         | |- context [String.eqb ?a ?b] => destruct (String.eqb_spec a b)
         end; intros H; inversion H; subst; reflexivity.
Qed.

Lemma in_all_statuses s : In s all_statuses.
Proof. destruct s; simpl; tauto. Qed.

Lemma closed_resolved s : is_closed s = true -> is_resolved s = true.
Proof. destruct s; easy. Qed.

#[export] Hint Resolve status_of_to_string in_all_statuses closed_resolved : abpts.
