(* ===== verification/Store.v ===== *)
(** * Store: the REST record store the pages call

    Every page reads and writes through [axios] calls on [${API}/...]:
    list, get, create and delete of opportunities, compliance items,
    documents and activities.  The backend is not in the repository; this
    file models it from the specification (sections 3 and 6): each
    collection is a list in insertion order, a create appends a record
    with a fresh identifier, a delete removes by identifier and does not
    cascade, and a child collection is listed by opportunity.

    A request may fail (network or server error).  The pages catch the
    failure and show a toast; whether a request succeeds is an explicit
    boolean argument of each handler, so that every error path is a case
    of the model.  The toasts a page shows are recorded as [Toast]s. *)

From stdpp Require Import base list strings.
From Stdlib Require Import ZArith.
From S2P Require Import Prelude Entities.

(** A [toast.success(msg)] or [toast.error(msg)] notification. *)
Inductive Toast := ToastSuccess (msg : string) | ToastError (msg : string).

Record Store := mkStore {
  st_opportunities : list Opportunity;
  st_compliance : list ComplianceItem.t;
  st_documents : list Document.t;
  st_activities : list Activity.t;
  st_next : nat
}.

Definition empty_store : Store := mkStore [] [] [] [] 0.

(** A fresh identifier and the store with its counter advanced. *)
Definition fresh_id (prefix : string) (s : Store) : string :=
  prefix +:+ show_nat (st_next s).

(** [POST /documents]: append the document under a fresh identifier. *)
Definition post_document (s : Store) (d : Document.t) : Store :=
  mkStore (st_opportunities s) (st_compliance s)
          (st_documents s ++ [Document.mk (fresh_id "doc-" s) (Document.opportunity_id d)
                                (Document.document_name d) (Document.category d)
                                (Document.uploaded_by d) (Document.version d)])
          (st_activities s) (S (st_next s)).

(** [DELETE /documents/{id}]. *)
Definition delete_document (s : Store) (doc_id : string) : Store :=
  mkStore (st_opportunities s) (st_compliance s)
          (List.filter (fun d => negb (String.eqb (Document.id d) doc_id)) (st_documents s))
          (st_activities s) (st_next s).

(** [GET /documents/{opportunity_id}]. *)
Definition documents_of (s : Store) (oid : string) : list Document.t :=
  List.filter (fun d => String.eqb (Document.opportunity_id d) oid) (st_documents s).

(** [POST /activities]: the log only grows. *)
Definition post_activity (s : Store) (a : Activity.t) : Store :=
  mkStore (st_opportunities s) (st_compliance s) (st_documents s)
          (st_activities s ++ [a]) (st_next s).

(** [POST /compliance]. *)
Definition post_compliance (s : Store) (i : ComplianceItem.t) : Store :=
  mkStore (st_opportunities s)
          (st_compliance s ++ [ComplianceItem.mk (fresh_id "req-" s) (ComplianceItem.opportunity_id i)
                                 (ComplianceItem.requirement i) (ComplianceItem.status i)
                                 (ComplianceItem.notes i) (ComplianceItem.assigned_to i)])
          (st_documents s) (st_activities s) (S (st_next s)).

(** [DELETE /compliance/{id}]. *)
Definition delete_compliance (s : Store) (item_id : string) : Store :=
  mkStore (st_opportunities s)
          (List.filter (fun i => negb (String.eqb (ComplianceItem.id i) item_id)) (st_compliance s))
          (st_documents s) (st_activities s) (st_next s).

(** [GET /compliance/{opportunity_id}]. *)
Definition compliance_of (s : Store) (oid : string) : list ComplianceItem.t :=
  List.filter (fun i => String.eqb (ComplianceItem.opportunity_id i) oid) (st_compliance s).

(** [POST /opportunities]: append the record under a fresh identifier. *)
Definition post_opportunity (s : Store) (o : Opportunity) : Store :=
  mkStore (st_opportunities s ++ [mkOpportunity (fresh_id "opp-" s) (client o) (project_type o)
                                    (rfp_release_date o) (submission_deadline o) (proposal_owner o)
                                    (status o) (compliance_percentage o) (priority_level o)
                                    (portal_link o) (risk_flags o) (submission_format o)
                                    (budget o) (industry o)])
          (st_compliance s) (st_documents s) (st_activities s) (S (st_next s)).

(** [PUT /opportunities/{id}]: replace the record with that identifier,
    keeping the identifier; [None] (a 404) when there is none. *)
Definition put_opportunity (s : Store) (oid : string) (o : Opportunity) : option Store :=
  if existsb (fun o' => String.eqb (id o') oid) (st_opportunities s) then
    Some (mkStore (map (fun o' => if String.eqb (id o') oid
                                  then mkOpportunity oid (client o) (project_type o)
                                         (rfp_release_date o) (submission_deadline o) (proposal_owner o)
                                         (status o) (compliance_percentage o) (priority_level o)
                                         (portal_link o) (risk_flags o) (submission_format o)
                                         (budget o) (industry o)
                                  else o') (st_opportunities s))
                  (st_compliance s) (st_documents s) (st_activities s) (st_next s))
  else None.

(** [DELETE /opportunities/{id}]: the children are not deleted. *)
Definition delete_opportunity (s : Store) (oid : string) : Store :=
  mkStore (List.filter (fun o => negb (String.eqb (id o) oid)) (st_opportunities s))
          (st_compliance s) (st_documents s) (st_activities s) (st_next s).

(** [GET /opportunities/{id}]. *)
Definition get_opportunity (s : Store) (oid : string) : option Opportunity :=
  List.find (fun o => String.eqb (id o) oid) (st_opportunities s).

(** [GET /activities/{opportunity_id}]. *)
Definition activities_of (s : Store) (oid : string) : list Activity.t :=
  List.filter (fun a => String.eqb (Activity.opportunity_id a) oid) (st_activities s).

(** [PUT /compliance/{id}]: replace the item with that identifier,
    keeping the identifier; [None] (a 404) when there is none. *)
Definition put_compliance (s : Store) (iid : string) (i : ComplianceItem.t) : option Store :=
  if existsb (fun i' => String.eqb (ComplianceItem.id i') iid) (st_compliance s) then
    Some (mkStore (st_opportunities s)
                  (map (fun i' => if String.eqb (ComplianceItem.id i') iid
                                  then ComplianceItem.mk iid (ComplianceItem.opportunity_id i)
                                         (ComplianceItem.requirement i) (ComplianceItem.status i)
                                         (ComplianceItem.notes i) (ComplianceItem.assigned_to i)
                                  else i') (st_compliance s))
                  (st_documents s) (st_activities s) (st_next s))
  else None.

(** [PUT /documents/{id}]. *)
Definition put_document (s : Store) (did : string) (d : Document.t) : option Store :=
  if existsb (fun d' => String.eqb (Document.id d') did) (st_documents s) then
    Some (mkStore (st_opportunities s) (st_compliance s)
                  (map (fun d' => if String.eqb (Document.id d') did
                                  then Document.mk did (Document.opportunity_id d) (Document.document_name d)
                                         (Document.category d) (Document.uploaded_by d) (Document.version d)
                                  else d') (st_documents s))
                  (st_activities s) (st_next s))
  else None.

(** The identifiers of a collection are distinct and each is
    [pre ++ k] for a counter value [k] already used. *)
Definition minted {A} (key : A -> string) (pre : string) (n : nat) (l : list A) : Prop :=
  NoDup (map key l) /\ Forall (fun x => exists k, (k < n)%nat /\ key x = pre +:+ show_nat k) l.

(** The store's identifiers are unique in each collection the pages key
    their lists by (the spec's "opaque unique identifier"). *)
Definition store_ids_ok (s : Store) : Prop :=
  minted id "opp-" (st_next s) (st_opportunities s) /\
  minted ComplianceItem.id "req-" (st_next s) (st_compliance s) /\
  minted Document.id "doc-" (st_next s) (st_documents s).

(** ** Minted identifiers *)

Section Minted.
Context {A : Type} (key : A -> string) (pre : string).

Lemma minted_nil n : minted key pre n [].
Proof. split; constructor. Qed.

Lemma minted_mono n n' l : (n <= n')%nat -> minted key pre n l -> minted key pre n' l.
Proof.
  intros Hle [Hn Hf]. split; [exact Hn|]. eapply Forall_impl; [exact Hf|].
  intros x (k & Hk & Hx). exists k. split; [lia|exact Hx].
Qed.

Lemma minted_snoc n l x :
  minted key pre n l -> key x = pre +:+ show_nat n -> minted key pre (S n) (l ++ [x]).
Proof.
  intros [Hn Hf] Hx. split.
  - rewrite map_app. apply NoDup_app. split; [exact Hn|split; [|apply NoDup_singleton]].
    intros y Hy ->%list_elem_of_singleton. apply list_elem_of_In, in_map_iff in Hy as (x' & Hy & Hx').
    rewrite List.Forall_forall in Hf. destruct (Hf x' Hx') as (k & Hk & Hk').
    rewrite Hk', Hx in Hy. apply string_app_inj_l, show_nat_inj in Hy. lia.
  - apply Forall_app. split; [|constructor; [exists n; split; [lia|exact Hx]|constructor]].
    eapply Forall_impl; [exact Hf|]. intros y (k & Hk & Hy). exists k. split; [lia|exact Hy].
Qed.

Lemma minted_filter n (p : A -> bool) l : minted key pre n l -> minted key pre n (List.filter p l).
Proof.
  intros [Hn Hf]. split; [apply NoDup_map_filter, Hn|].
  rewrite List.Forall_forall in Hf |- *. intros x Hx%filter_In. apply Hf, Hx.
Qed.

Lemma minted_map n (f : A -> A) l :
  (forall x, key (f x) = key x) -> minted key pre n l -> minted key pre n (map f l).
Proof.
  intros Hk [Hn Hf]. split.
  - rewrite List.map_map. erewrite map_ext; [exact Hn|]. exact Hk.
  - rewrite List.Forall_forall in Hf |- *. intros x (y & <- & Hy)%in_map_iff. rewrite Hk. apply Hf, Hy.
Qed.

End Minted.

#[export] Hint Resolve minted_nil minted_filter : abpts.

(** ** The store keeps identifiers unique *)

Ltac store_ids :=
  let H1 := fresh in let H2 := fresh in let H3 := fresh in
  intros (H1 & H2 & H3); split; [|split]; cbn [st_opportunities st_compliance st_documents st_next];
  first [ assumption
        | apply minted_filter; assumption
        | apply minted_snoc; [assumption|reflexivity]
        | eapply minted_mono; [|eassumption]; lia ].

Lemma post_opportunity_ids s o : store_ids_ok s -> store_ids_ok (post_opportunity s o).
Proof. unfold store_ids_ok, post_opportunity. store_ids. Qed.

Lemma post_compliance_ids s i : store_ids_ok s -> store_ids_ok (post_compliance s i).
Proof. unfold store_ids_ok, post_compliance. store_ids. Qed.

Lemma post_document_ids s d : store_ids_ok s -> store_ids_ok (post_document s d).
Proof. unfold store_ids_ok, post_document. store_ids. Qed.

Lemma post_activity_ids s a : store_ids_ok s -> store_ids_ok (post_activity s a).
Proof. unfold store_ids_ok, post_activity. store_ids. Qed.

Lemma delete_opportunity_ids s oid : store_ids_ok s -> store_ids_ok (delete_opportunity s oid).
Proof. unfold store_ids_ok, delete_opportunity. store_ids. Qed.

Lemma delete_compliance_ids s iid : store_ids_ok s -> store_ids_ok (delete_compliance s iid).
Proof. unfold store_ids_ok, delete_compliance. store_ids. Qed.

Lemma delete_document_ids s did : store_ids_ok s -> store_ids_ok (delete_document s did).
Proof. unfold store_ids_ok, delete_document. store_ids. Qed.

(** A PUT keeps the identifier it replaces. *)
Lemma put_key {A} (key : A -> string) (rid : string) (mk : A) (x : A) :
  key mk = rid -> key (if String.eqb (key x) rid then mk else x) = key x.
Proof. intros Hm. destruct (String.eqb_spec (key x) rid) as [<-|]; auto. Qed.

Lemma put_opportunity_ids s oid o s' : store_ids_ok s -> put_opportunity s oid o = Some s' -> store_ids_ok s'.
Proof.
  unfold put_opportunity. destruct (existsb _ _); [|discriminate]. intros (H1 & H2 & H3) [= <-].
  split; [|split; [exact H2|exact H3]]. apply minted_map; [|exact H1]. intros x. apply (put_key id), eq_refl.
Qed.

Lemma put_compliance_ids s iid i s' : store_ids_ok s -> put_compliance s iid i = Some s' -> store_ids_ok s'.
Proof.
  unfold put_compliance. destruct (existsb _ _); [|discriminate]. intros (H1 & H2 & H3) [= <-].
  split; [exact H1|split; [|exact H3]]. apply minted_map; [|exact H2]. intros x. apply (put_key ComplianceItem.id), eq_refl.
Qed.

Lemma put_document_ids s did d s' : store_ids_ok s -> put_document s did d = Some s' -> store_ids_ok s'.
Proof.
  unfold put_document. destruct (existsb _ _); [|discriminate]. intros (H1 & H2 & H3) [= <-].
  split; [exact H1|split; [exact H2|]]. apply minted_map; [|exact H3]. intros x. apply (put_key Document.id), eq_refl.
Qed.

(** ** Which opportunities exist *)

Lemma get_opportunity_exists s oid :
  (exists o, get_opportunity s oid = Some o) <->
  existsb (fun o => String.eqb (id o) oid) (st_opportunities s) = true.
Proof.
  unfold get_opportunity. split.
  - intros [o Ho]. apply existsb_exists. exists o. exact (List.find_some _ _ Ho).
  - intros H. destruct (List.find _ _) as [o|] eqn:E; [eauto|].
    apply existsb_exists in H as (o & Hin & Ho). rewrite (List.find_none _ _ E o Hin) in Ho. discriminate.
Qed.

Lemma existsb_map_id (f : Opportunity -> Opportunity) l oid :
  (forall x, id (f x) = id x) ->
  existsb (fun o => String.eqb (id o) oid) (map f l) = existsb (fun o => String.eqb (id o) oid) l.
Proof. intros H. induction l as [|x l IH]; simpl; [reflexivity|]. rewrite H, IH. reflexivity. Qed.

(** A POST and a PUT keep every opportunity there was; a DELETE keeps all
    but the one it names. *)
Lemma post_opportunity_keeps s o oid :
  (exists x, get_opportunity s oid = Some x) -> exists x, get_opportunity (post_opportunity s o) oid = Some x.
Proof. rewrite !get_opportunity_exists. simpl. rewrite existsb_app. intros ->. reflexivity. Qed.

Lemma put_opportunity_keeps s s' rid o oid :
  put_opportunity s rid o = Some s' ->
  (exists x, get_opportunity s oid = Some x) -> exists x, get_opportunity s' oid = Some x.
Proof.
  rewrite !get_opportunity_exists. unfold put_opportunity. destruct (existsb _ _); [|discriminate].
  intros [= <-]. simpl. rewrite existsb_map_id; [exact (fun H => H)|]. intros x. apply (put_key id), eq_refl.
Qed.

Lemma delete_opportunity_keeps s d oid :
  oid <> d -> (exists x, get_opportunity s oid = Some x) ->
  exists x, get_opportunity (delete_opportunity s d) oid = Some x.
Proof.
  rewrite !get_opportunity_exists. simpl. intros Hne H.
  apply existsb_exists in H as (o & Hin & Ho). apply existsb_exists. exists o.
  split; [|exact Ho]. apply filter_In. split; [exact Hin|].
  apply String.eqb_eq in Ho. subst oid. apply negb_true_iff, String.eqb_neq. exact Hne.
Qed.
