(* ===== verification/Urgency.v ===== *)
(** * Urgency: how close a deadline is, as each page computes it

    Every page computes [hoursRemaining = (deadline - now) / (1000*60*60)]
    from [new Date(opp.submission_deadline)] and [new Date()], then
    compares it with 0, 24 and 48.  The comparisons differ by page:

    - [getDeadlineClass] ([BidTracker.jsx] 149-157): the row tint, which
      ignores resolved opportunities and counts overdue ones as urgent;
    - [urgentOpportunities] ([Dashboard.jsx] 50-56): the alert, which
      needs [0 < hours <= 48] and excludes Won, Lost and Submitted;
    - the recent-card tint ([Dashboard.jsx] 173-178), with no status test
      and with overdue deadlines tinted normal;
    - [urgentOpportunities] ([Reports.jsx] 188-194), which excludes only
      Won and Lost.

    Hours are exact rationals ([option Q], [None] for NaN).  Dividing an
    integer number of milliseconds by 3600000 and comparing with 0, 24 or
    48 gives the same answer in binary64 as in the rationals: the three
    bounds are exactly representable multiples of the divisor, and
    correctly rounded division is monotone.  [num_le_hours] and
    [num_gt_hours] turn each comparison into one on milliseconds. *)

From stdpp Require Import base list strings.
From Stdlib Require Import ZArith QArith.
From S2P Require Import Prelude Entities.

Local Open Scope Z_scope.

(** ** Hours remaining *)

Definition ms_per_hour : Z := 1000 * 60 * 60.

(** [(deadline - now) / (1000 * 60 * 60)]; NaN when the deadline is an
    Invalid Date. *)
Definition hoursRemaining (deadline : js_date) (now : Z) : option Q :=
  match deadline with
  | None => None
  | Some d => Some (inject_Z (d - now) / inject_Z ms_per_hour)%Q
  end.

(** [x <= c] and [x > c] on a number that may be NaN: false on NaN. *)
Definition num_le (x : option Q) (c : Z) : bool :=
  match x with None => false | Some q => Qle_bool q (inject_Z c) end.

Definition num_gt (x : option Q) (c : Z) : bool :=
  match x with None => false | Some q => negb (Qle_bool q (inject_Z c)) end.

(** ** The row tint of the bid tracker *)

Inductive DeadlineClass := DeadlineNormal | DeadlineWarning | DeadlineUrgent.

#[export] Instance DeadlineClass_eq_dec : EqDecision DeadlineClass.
Proof. solve_decision. Defined.

Definition deadline_class_name (c : DeadlineClass) : string :=
  match c with
  | DeadlineNormal => "deadline-normal"
  | DeadlineWarning => "deadline-warning"
  | DeadlineUrgent => "deadline-urgent"
  end.

(** [getDeadlineClass(deadline, status)], [BidTracker.jsx] 149-157. *)
Definition getDeadlineClass (deadline : js_date) (st : Status) (now : Z) : DeadlineClass :=
  if is_resolved st then DeadlineNormal
  else
    let h := hoursRemaining deadline now in
    if num_le h 24 then DeadlineUrgent
    else if num_le h 48 then DeadlineWarning
    else DeadlineNormal.

(** How urgent a class is, for comparing classes. *)
Definition urgency_rank (c : DeadlineClass) : nat :=
  match c with DeadlineNormal => 0 | DeadlineWarning => 1 | DeadlineUrgent => 2 end.

(** ** The dashboard *)

(** The callback of [urgentOpportunities], [Dashboard.jsx] 50-56. *)
Definition dashboard_is_urgent (now : Z) (opp : Opportunity) : bool :=
  if is_resolved (status opp) then false
  else
    let h := hoursRemaining (submission_deadline opp) now in
    num_le h 48 && num_gt h 0.

Definition dashboard_urgentOpportunities (now : Z) (opps : list Opportunity) :=
  List.filter (dashboard_is_urgent now) opps.

(** The tint of a recent-opportunity card, [Dashboard.jsx] 173-178
    ([isUrgent], [isWarning] and the class chosen from them). *)
Definition recent_card_class (deadline : js_date) (now : Z) : DeadlineClass :=
  let h := hoursRemaining deadline now in
  let isUrgent := num_le h 24 && num_gt h 0 in
  let isWarning := num_le h 48 && num_gt h 24 in
  if isUrgent then DeadlineUrgent
  else if isWarning then DeadlineWarning
  else DeadlineNormal.

(** The five recent cards: [opportunities.slice(0, 5)]. *)
Definition dashboard_recent (now : Z) (opps : list Opportunity) :=
  map (fun o => (o, recent_card_class (submission_deadline o) now)) (take 5 opps).

(** ** The reports page *)

(** [activeOpportunities], [Reports.jsx] 188. *)
Definition reports_activeOpportunities (opps : list Opportunity) :=
  List.filter (fun o => negb (is_closed (status o))) opps.

Definition reports_in_window (now : Z) (opp : Opportunity) : bool :=
  let h := hoursRemaining (submission_deadline opp) now in
  num_le h 48 && num_gt h 0.

(** [urgentOpportunities], [Reports.jsx] 189-194. *)
Definition reports_urgentOpportunities (now : Z) (opps : list Opportunity) :=
  List.filter (reports_in_window now) (reports_activeOpportunities opps).

(** An opportunity with the given client, status and deadline, every other
    field at the form's defaults. *)
Definition sample_opp (c : string) (st : Status) (dl : js_date) : Opportunity :=
  mkOpportunity c c "Software" "2024-01-01" dl "Owner" st 0 Medium "" [] Portal None None.

(** ** Comparisons on hours are comparisons on milliseconds *)

Lemma num_le_hours d now c :
  num_le (hoursRemaining (Some d) now) c = (d - now <=? c * ms_per_hour).
Proof.
  unfold num_le, hoursRemaining. cbv iota.
  apply eq_true_iff_eq. rewrite Qle_bool_iff, Z.leb_le.
  unfold Qle, Qdiv, Qmult, Qinv, inject_Z, ms_per_hour; simpl. lia.
Qed.

Lemma num_gt_hours d now c :
  num_gt (hoursRemaining (Some d) now) c = negb (d - now <=? c * ms_per_hour).
Proof.
  rewrite <- num_le_hours. reflexivity.
Qed.

Lemma num_le_nan c : num_le (hoursRemaining None 0) c = false.
Proof. reflexivity. Qed.

#[export] Hint Rewrite num_le_hours num_gt_hours : abpts_rw.

(** Rewrite every comparison on hours into milliseconds and split on
    the resulting tests. *)
Ltac hours_cases :=
  repeat first
    [ rewrite num_le_hours | rewrite num_gt_hours ];
  unfold ms_per_hour;
  repeat match goal with
         | |- context [?a <=? ?b] => destruct (Z.leb_spec a b)
         end; simpl; try lia; try reflexivity; try congruence.

(** Row tint at a valid deadline, in milliseconds. *)
Lemma getDeadlineClass_ms d st now :
  getDeadlineClass (Some d) st now =
  if is_resolved st then DeadlineNormal
  else if d - now <=? 24 * ms_per_hour then DeadlineUrgent
  else if d - now <=? 48 * ms_per_hour then DeadlineWarning
  else DeadlineNormal.
Proof. unfold getDeadlineClass. rewrite !num_le_hours. reflexivity. Qed.

(** The alert callback is the row tint's status test with the window
    [0 < hours <= 48]. *)
Lemma dashboard_is_urgent_window now o :
  dashboard_is_urgent now o = negb (is_resolved (status o)) && reports_in_window now o.
Proof. unfold dashboard_is_urgent, reports_in_window. destruct (is_resolved (status o)); reflexivity. Qed.

(** ** Theorems *)

(** C1: the row tint of [getDeadlineClass] at a valid deadline.  It is
    [deadline-urgent] exactly when the opportunity is not resolved (not
    Won, Lost or Submitted) and at most 24 hours remain, overdue deadlines
    included; [deadline-warning] exactly when it is not resolved and
    between 24 (exclusive) and 48 (inclusive) hours remain; and
    [deadline-normal] exactly when it is resolved or more than 48 hours
    remain. *)
Theorem getDeadlineClass_spec d st now :
  (getDeadlineClass (Some d) st now = DeadlineUrgent <->
     is_resolved st = false /\ d - now <= 24 * ms_per_hour) /\
  (getDeadlineClass (Some d) st now = DeadlineWarning <->
     is_resolved st = false /\ 24 * ms_per_hour < d - now <= 48 * ms_per_hour) /\
  (getDeadlineClass (Some d) st now = DeadlineNormal <->
     is_resolved st = true \/ 48 * ms_per_hour < d - now).
Proof.
  rewrite getDeadlineClass_ms. unfold ms_per_hour.
  destruct (is_resolved st);
  repeat match goal with
         | |- context [?a <=? ?b] => destruct (Z.leb_spec a b)
         end; intuition (try discriminate; try lia).
Qed.

(** C2: an unparseable deadline ([new Date(s)] is an Invalid Date, its
    hours NaN) is never tinted: every comparison with NaN is false, so
    the row shows [deadline-normal] whatever the status. *)
Theorem getDeadlineClass_invalid_date st now :
  getDeadlineClass None st now = DeadlineNormal /\
  forall o, submission_deadline o = None -> dashboard_is_urgent now o = false.
Proof.
  split; [unfold getDeadlineClass; destruct (is_resolved st); reflexivity|].
  intros o Ho. unfold dashboard_is_urgent. rewrite Ho.
  destruct (is_resolved (status o)); reflexivity.
Qed.

(** C3: as time passes the row tint of a fixed deadline only escalates:
    from normal to warning to urgent, never back. *)
Theorem getDeadlineClass_monotone dl st now1 now2 :
  now1 <= now2 ->
  (urgency_rank (getDeadlineClass dl st now1) <= urgency_rank (getDeadlineClass dl st now2))%nat.
Proof.
  intros Hle. destruct dl as [d|]; [|unfold getDeadlineClass; destruct (is_resolved st); simpl; lia].
  rewrite !getDeadlineClass_ms. destruct (is_resolved st); [simpl; lia|].
  unfold ms_per_hour; hours_cases.
Qed.

Lemma getDeadlineClass_monotone_witness :
  (0 <= 30 * ms_per_hour)%Z /\
  (urgency_rank (getDeadlineClass (Some (50 * ms_per_hour)%Z) Review 0)
   <= urgency_rank (getDeadlineClass (Some (50 * ms_per_hour)%Z) Review (30 * ms_per_hour)%Z))%nat.
Proof.
  split; [unfold ms_per_hour; lia|].
  apply getDeadlineClass_monotone. unfold ms_per_hour; lia.
Defined.

(** C4: the dashboard alert counts an opportunity exactly when its row
    tint is urgent or warning and the deadline has not passed yet: the
    two predicates of the pages agree except on overdue deadlines, which
    the row tints urgent and the alert leaves out. *)
Theorem dashboard_alert_iff_tint now o :
  dashboard_is_urgent now o = true <->
  (exists d, submission_deadline o = Some d /\ now < d) /\
  getDeadlineClass (submission_deadline o) (status o) now <> DeadlineNormal.
Proof.
  rewrite dashboard_is_urgent_window. unfold reports_in_window.
  destruct (submission_deadline o) as [d|] eqn:Hd.
  - rewrite getDeadlineClass_ms, num_le_hours, num_gt_hours.
    destruct (is_resolved (status o)); simpl;
    unfold ms_per_hour;
    repeat match goal with
           | |- context [?a <=? ?b] => destruct (Z.leb_spec a b)
           end; simpl; split;
      try (intros [[d' [Hd' Hlt]] Hne]; injection Hd' as <-; try congruence; lia);
      try (intros; discriminate); try (intros _; split; [exists d; split; [reflexivity|lia]|discriminate]);
      try reflexivity.
  - simpl. rewrite andb_false_r. split; [discriminate|]. intros [[d' [Hd' _]] _]. discriminate.
Qed.

(** C5: the "Urgent Deadlines" figure of the reports page counts every
    opportunity the dashboard alert counts, plus the Submitted ones whose
    deadline is within 48 hours: [Reports.jsx] excludes only Won and Lost
    where [Dashboard.jsx] also excludes Submitted. *)
Theorem reports_urgent_count now opps :
  length (reports_urgentOpportunities now opps)
  = (length (dashboard_urgentOpportunities now opps)
     + count_if (fun o => bool_decide (status o = Submitted) && reports_in_window now o) opps)%nat.
Proof.
  unfold reports_urgentOpportunities, dashboard_urgentOpportunities, reports_activeOpportunities.
  induction opps as [|o opps IH]; [reflexivity|].
  cbn [List.filter]. rewrite count_if_cons, dashboard_is_urgent_window.
  destruct (status o); simpl; destruct (reports_in_window now o); simpl; rewrite ?IH; lia.
Qed.

(** The two figures differ on one Submitted opportunity due in ten hours. *)
Lemma reports_urgent_count_witness :
  length (reports_urgentOpportunities 0 [sample_opp "Initech" Submitted (Some (10 * ms_per_hour)%Z)])
  = (length (dashboard_urgentOpportunities 0 [sample_opp "Initech" Submitted (Some (10 * ms_per_hour)%Z)])
     + 1)%nat.
Proof.
  rewrite reports_urgent_count. f_equal.
Defined.

(** C6: the recent-card tint of the dashboard agrees with the row tint of
    the tracker for an open opportunity whose deadline has not passed, and
    departs from it otherwise: an overdue open deadline is tinted normal on
    the card and urgent in the row, and a resolved one due within a day is
    tinted urgent on the card and normal in the row. *)
Theorem recent_card_class_vs_row d st now :
  (is_resolved st = false -> now < d ->
     recent_card_class (Some d) now = getDeadlineClass (Some d) st now) /\
  (is_resolved st = false -> d <= now ->
     recent_card_class (Some d) now = DeadlineNormal /\
     getDeadlineClass (Some d) st now = DeadlineUrgent) /\
  (is_resolved st = true -> now < d <= now + 24 * ms_per_hour ->
     recent_card_class (Some d) now = DeadlineUrgent /\
     getDeadlineClass (Some d) st now = DeadlineNormal).
Proof.
  unfold recent_card_class. rewrite getDeadlineClass_ms, !num_le_hours, !num_gt_hours.
  unfold ms_per_hour.
  split; [|split]; intros Hst Hd; rewrite Hst;
  repeat match goal with
         | |- context [?a <=? ?b] => destruct (Z.leb_spec a b)
         end; simpl; try lia; auto.
Qed.

Lemma recent_card_class_vs_row_witness :
  recent_card_class (Some (5 * ms_per_hour)%Z) 0 = getDeadlineClass (Some (5 * ms_per_hour)%Z) Review 0 /\
  (recent_card_class (Some 0%Z) (ms_per_hour) = DeadlineNormal /\
   getDeadlineClass (Some 0%Z) Review ms_per_hour = DeadlineUrgent) /\
  (recent_card_class (Some (5 * ms_per_hour)%Z) 0 = DeadlineUrgent /\
   getDeadlineClass (Some (5 * ms_per_hour)%Z) Won 0 = DeadlineNormal).
Proof.
  pose proof (recent_card_class_vs_row (5 * ms_per_hour) Review 0) as [H1 _].
  pose proof (recent_card_class_vs_row 0 Review ms_per_hour) as [_ [H2 _]].
  pose proof (recent_card_class_vs_row (5 * ms_per_hour) Won 0) as [_ [_ H3]].
  unfold ms_per_hour in *.
  split; [apply H1; [reflexivity|lia]|].
  split; [apply H2; [reflexivity|lia]|apply H3; [reflexivity|lia]].
Defined.

(** The scenario of the specification: Acme in review due in ten hours,
    Globex won a hundred hours ago.  Only Acme is urgent, and its row is
    tinted urgent. *)
Example spec_scenario_urgency :
  let acme := sample_opp "Acme" Review (Some (10 * ms_per_hour)%Z) in
  let globex := sample_opp "Globex" Won (Some (-100 * ms_per_hour)%Z) in
  length (dashboard_urgentOpportunities 0 [acme; globex]) = 1%nat /\
  getDeadlineClass (submission_deadline acme) (status acme) 0 = DeadlineUrgent.
Proof. split; reflexivity. Qed.
