(* ===== verification/Compliance.v ===== *)
(** * Compliance: the compliance rate of one opportunity

    [calculateComplianceRate] of [ComplianceChecker.jsx] (lines 90-94):
    [0] for no items, otherwise
    [Math.round((completed / complianceItems.length) * 100)] where
    [completed] counts the items whose status is ['Compliant'].  The page
    also counts the pending items (line 230) and colours a percentage by
    the bucket [>= 80] high, [>= 60] medium, else low (lines 205-206, the
    same test in [Dashboard.jsx], [BidTracker.jsx], [Reports.jsx] and
    [OpportunityDetail.jsx]).

    The rate is computed as JavaScript computes it: the two counts are
    doubles, the division and the multiplication are binary64 operations
    (the kernel's [PrimFloat]), and [Math.round] rounds the resulting
    double, ties towards positive infinity.  [None] stands for NaN, which
    the guard of line 91 keeps away from the empty checklist ([0 / 0]).
    Nothing about binary64 arithmetic is assumed: the facts about the rate
    are proved for checklists of at most 200 requirements by evaluating
    every pair of counts in the kernel ([counts_checked] and its soundness
    lemma).  The reading of the specification (section 4.2: round half up
    of [100 * completed / total]) is [compliance_rate_exact], on
    rationals; the page's rate equals it except when the exact rate ends
    in [.5] and the double quotient lies just below it, which with at most
    200 items happens only for lengths that are multiples of 40, the first
    case being 23 compliant items out of 40 (57 instead of 58). *)

From stdpp Require Import base list strings.
From Stdlib Require Import ZArith QArith PrimFloat SpecFloat FloatOps Uint63.
From S2P Require Import Prelude Entities.

Local Open Scope Z_scope.

(** ** Counting items *)

Definition is_compliant (i : ComplianceItem.t) : bool :=
  bool_decide (ComplianceItem.status i = Compliant).

(** [complianceItems.filter(item => item.status === 'Compliant').length]. *)
Definition completed_count (items : list ComplianceItem.t) : nat :=
  count_if is_compliant items.

(** [complianceItems.filter(item => item.status === 'Pending').length],
    line 230. *)
Definition pending_count (items : list ComplianceItem.t) : nat :=
  count_if (fun i => bool_decide (ComplianceItem.status i = Pending)) items.

(** ** The colour bucket *)

Inductive ComplianceBucket := ComplianceHigh | ComplianceMedium | ComplianceLow.

#[export] Instance ComplianceBucket_eq_dec : EqDecision ComplianceBucket.
Proof. solve_decision. Defined.

(** [rate >= 80 ? 'compliance-high' : rate >= 60 ? 'compliance-medium'
    : 'compliance-low']. *)
Definition compliance_bucket (p : Z) : ComplianceBucket :=
  if 80 <=? p then ComplianceHigh
  else if 60 <=? p then ComplianceMedium
  else ComplianceLow.

(** ** The rate in binary64 *)

(** A small non-negative integer as a JavaScript number; exact below
    [2^53]. *)
Definition js_number_of_nat (n : nat) : float := of_uint63 (Uint63.of_Z (Z.of_nat n)).

(** [Math.round(x)]: the integer nearest to the double [x], ties towards
    positive infinity; NaN and the infinities give [None]. *)
Definition Math_round (x : float) : option Z :=
  match Prim2SF x with
  | S754_zero _ => Some 0
  | S754_finite s m e =>
      let num := if s then - Z.pos m else Z.pos m in
      Some (if 0 <=? e then num * 2 ^ e else (2 * num + 2 ^ (- e)) / 2 ^ (1 - e))
  | _ => None
  end.

(** [Math.round((completed / total) * 100)] on two counts, line 93. *)
Definition percent_f64 (c n : nat) : option Z :=
  Math_round (PrimFloat.mul (PrimFloat.div (js_number_of_nat c) (js_number_of_nat n))
                            (js_number_of_nat 100)).

(** An integer received in JSON as a JavaScript number; exact for
    magnitudes below [2^53]. *)
Definition js_number_of_Z (z : Z) : float :=
  if z <? 0 then PrimFloat.opp (of_uint63 (Uint63.of_Z (- z))) else of_uint63 (Uint63.of_Z z).

(** [Math.round((count / total) * 100)] on two numbers. *)
Definition percent_of (count total : Z) : option Z :=
  Math_round (PrimFloat.mul (PrimFloat.div (js_number_of_Z count) (js_number_of_Z total))
                            (js_number_of_Z 100)).

(** [calculateComplianceRate], lines 90-94. *)
Definition calculateComplianceRate (items : list ComplianceItem.t) : option Z :=
  if Nat.eqb (length items) 0 then Some 0
  else percent_f64 (completed_count items) (length items).

(** The bucket of lines 205-206 applied to the page's rate: NaN fails both
    comparisons. *)
Definition rate_bucket (r : option Z) : ComplianceBucket :=
  match r with Some p => compliance_bucket p | None => ComplianceLow end.

(** ** The reading of the specification, on rationals *)

Definition compliance_rate_exact (items : list ComplianceItem.t) : Z :=
  if Nat.eqb (length items) 0 then 0
  else
    let completed := completed_count items in
    js_round (inject_Z (Z.of_nat completed) / inject_Z (Z.of_nat (length items))
              * inject_Z 100)%Q.

(** ** The rate as a function of the two counts *)

(** The integer form of the exact rate. *)
Definition rate_of_counts (c n : nat) : Z :=
  if Nat.eqb n 0 then 0 else (200 * Z.of_nat c + Z.of_nat n) / (2 * Z.of_nat n).

Definition rate_f64_of_counts (c n : nat) : option Z :=
  if Nat.eqb n 0 then Some 0 else percent_f64 c n.

(** A property of every pair of counts [c <= n <= N], checked by
    evaluation. *)
Definition counts_checked (N : nat) (P : nat -> nat -> bool) : bool :=
  forallb (fun n => forallb (fun c => P c n) (seq 0 (S n))) (seq 0 (S N)).

(** The binary64 rate against the exact one. *)
Definition rate_f64_ok (c n : nat) : bool :=
  match rate_f64_of_counts c n with
  | Some p => (p =? rate_of_counts c n) || (Nat.eqb (Nat.modulo n 40) 0 && (p =? rate_of_counts c n - 1))
  | None => false
  end.

(** The rate is a percentage. *)
Definition rate_bounds_ok (c n : nat) : bool :=
  match rate_f64_of_counts c n with Some p => (0 <=? p) && (p <=? 100) | None => false end.

(** Below 200 items a non-empty checklist rates 0 only with no compliant
    item and 100 only with no other item. *)
Definition rate_extremes_ok (c n : nat) : bool :=
  Nat.eqb n 0 ||
  match rate_f64_of_counts c n with
  | Some p => Bool.eqb (p =? 0) (Nat.eqb c 0) && Bool.eqb (p =? 100) (Nat.eqb c n)
  | None => false
  end.

Definition opt_le (a b : option Z) : bool :=
  match a, b with Some x, Some y => x <=? y | _, _ => false end.

(** One more item: a compliant one does not lower the rate, another one
    does not raise it. *)
Definition rate_step_ok (c n : nat) : bool :=
  opt_le (rate_f64_of_counts c n) (rate_f64_of_counts (S c) (S n))
  && opt_le (rate_f64_of_counts c (S n)) (rate_f64_of_counts c n).

(** All four facts in one pass over the counts up to 200. *)
Definition rate_facts_ok (c n : nat) : bool :=
  rate_f64_ok c n && rate_bounds_ok c n && (negb (Nat.ltb n 200) || (rate_extremes_ok c n && rate_step_ok c n)).

(** Twenty-three compliant requirements and seventeen pending ones. *)
Definition forty_items : list ComplianceItem.t :=
  repeat (ComplianceItem.mk "c" "o" "r" Compliant "" "") 23
  ++ repeat (ComplianceItem.mk "p" "o" "r" Pending "" "") 17.

(** Two hundred requirements of which one is pending. *)
Definition items_199_of_200 : list ComplianceItem.t :=
  repeat (ComplianceItem.mk "c" "opp-0" "r" Compliant "" "") 199
  ++ [ComplianceItem.mk "p" "opp-0" "r" Pending "" ""].

(** ** Lemmas *)

Lemma counts_checked_sound N P c n :
  counts_checked N P = true -> (n <= N)%nat -> (c <= n)%nat -> P c n = true.
Proof.
  unfold counts_checked. rewrite forallb_forall. intros H Hn Hc.
  specialize (H n). rewrite forallb_forall in H.
  apply H; apply in_seq; lia.
Qed.

Lemma facts_checked_200 : counts_checked 200 rate_facts_ok = true.
Proof. vm_compute. reflexivity. Qed.

Lemma rate_facts c n :
  (c <= n)%nat -> (n <= 200)%nat ->
  rate_f64_ok c n = true /\ rate_bounds_ok c n = true /\
  ((n < 200)%nat -> rate_extremes_ok c n = true /\ rate_step_ok c n = true).
Proof.
  intros Hc Hn. pose proof (counts_checked_sound _ _ c n facts_checked_200 Hn Hc) as H.
  unfold rate_facts_ok in H. apply andb_prop in H as [H H3]. apply andb_prop in H as [H1 H2].
  split; [exact H1|split; [exact H2|]]. intros Hlt.
  apply orb_prop in H3 as [H3|H3]; [apply negb_true_iff, Nat.ltb_ge in H3; lia|].
  apply andb_prop in H3. exact H3.
Qed.

Lemma calculateComplianceRate_counts items :
  calculateComplianceRate items = rate_f64_of_counts (completed_count items) (length items).
Proof. reflexivity. Qed.

Lemma compliance_rate_exact_counts items :
  compliance_rate_exact items = rate_of_counts (completed_count items) (length items).
Proof.
  unfold compliance_rate_exact, rate_of_counts.
  destruct (length items) as [|k]; [reflexivity|]. simpl Nat.eqb. cbv zeta.
  change (Z.of_nat (S k)) with (Zpos (Pos.of_succ_nat k)).
  apply js_round_percent.
Qed.

Lemma completed_count_le items : (completed_count items <= length items)%nat.
Proof. apply count_if_le. Qed.

#[export] Hint Resolve completed_count_le : abpts.

Lemma completed_count_cons i items :
  completed_count (i :: items) = ((if is_compliant i then 1 else 0) + completed_count items)%nat.
Proof. apply count_if_cons. Qed.

Lemma completed_count_snoc items i :
  completed_count (items ++ [i]) = ((if is_compliant i then 1 else 0) + completed_count items)%nat.
Proof. unfold completed_count. rewrite count_if_app, count_if_cons, count_if_nil. lia. Qed.

(** The rate of a checklist of at most 200 items is a percentage. *)
Lemma rate_bounds items :
  (length items <= 200)%nat ->
  exists p, calculateComplianceRate items = Some p /\ 0 <= p <= 100.
Proof.
  intros Hn. pose proof (proj1 (proj2 (rate_facts _ _ (completed_count_le items) Hn))) as H.
  rewrite calculateComplianceRate_counts. unfold rate_bounds_ok in H.
  destruct (rate_f64_of_counts _ _) as [p|]; [|discriminate].
  apply andb_prop in H as [H1 H2]. exists p. split; [reflexivity|lia].
Qed.

(** Below 200 items, a non-empty checklist rates 100 exactly when all its
    items are compliant and 0 exactly when none is. *)
Lemma rate_extremes items :
  (0 < length items < 200)%nat ->
  (calculateComplianceRate items = Some 100 <-> completed_count items = length items) /\
  (calculateComplianceRate items = Some 0 <-> completed_count items = 0%nat).
Proof.
  intros Hn.
  pose proof (proj1 (proj2 (proj2 (rate_facts _ _ (completed_count_le items) ltac:(lia))) ltac:(lia))) as H.
  rewrite calculateComplianceRate_counts. unfold rate_extremes_ok in H.
  apply orb_prop in H as [H|H]; [apply Nat.eqb_eq in H; lia|].
  destruct (rate_f64_of_counts _ _) as [p|]; [|discriminate].
  apply andb_prop in H as [H1 H2]. apply Bool.eqb_prop in H1, H2.
  split; split; intros E.
  - injection E as ->. apply Nat.eqb_eq. rewrite <- H2. reflexivity.
  - apply Nat.eqb_eq in E. rewrite E in H2. apply Z.eqb_eq in H2. subst. reflexivity.
  - injection E as ->. apply Nat.eqb_eq. rewrite <- H1. reflexivity.
  - apply Nat.eqb_eq in E. rewrite E in H1. apply Z.eqb_eq in H1. subst. reflexivity.
Qed.

Lemma opt_le_some a b : opt_le a b = true -> exists x y, a = Some x /\ b = Some y /\ x <= y.
Proof. destruct a as [x|], b as [y|]; simpl; try discriminate. intros H. apply Z.leb_le in H. exists x, y. auto. Qed.

(** One more item below 200: the rates before and after exist and move
    the right way. *)
Lemma rate_step c n :
  (c <= n)%nat -> (n < 200)%nat ->
  exists r r1 r2, rate_f64_of_counts c n = Some r /\ rate_f64_of_counts (S c) (S n) = Some r1 /\
    rate_f64_of_counts c (S n) = Some r2 /\ r <= r1 /\ r2 <= r.
Proof.
  intros Hc Hn. pose proof (proj2 (proj2 (proj2 (rate_facts c n Hc ltac:(lia))) Hn)) as H.
  apply andb_prop in H as [H1 H2].
  destruct (opt_le_some _ _ H1) as (r & r1 & E & E1 & L1).
  destruct (opt_le_some _ _ H2) as (r2 & r' & E2 & E' & L2).
  rewrite E in E'. injection E' as <-. exists r, r1, r2. auto.
Qed.

(** Adding an item [i] to a checklist whose other items count [c] and [n]:
    the shared step behind adding it in front and appending it. *)
Lemma rate_add c n i :
  (c <= n)%nat -> (n < 200)%nat ->
  exists r r', rate_f64_of_counts c n = Some r /\
    rate_f64_of_counts ((if is_compliant i then 1 else 0) + c) (S n) = Some r' /\
    (ComplianceItem.status i = Compliant -> r <= r') /\
    (ComplianceItem.status i <> Compliant -> r' <= r).
Proof.
  intros Hc Hn. destruct (rate_step c n Hc Hn) as (r & r1 & r2 & E & E1 & E2 & L1 & L2).
  exists r. unfold is_compliant. case_bool_decide as Hs.
  - exists r1. repeat split; auto. intros Hne. contradiction.
  - exists r2. repeat split; auto. intros Heq. contradiction.
Qed.

Lemma rate_snoc items i :
  (length items < 200)%nat ->
  exists r r', calculateComplianceRate items = Some r /\ calculateComplianceRate (items ++ [i]) = Some r' /\
    (ComplianceItem.status i = Compliant -> r <= r') /\
    (ComplianceItem.status i <> Compliant -> r' <= r).
Proof.
  intros Hn. rewrite !calculateComplianceRate_counts, completed_count_snoc, length_app, Nat.add_1_r.
  apply rate_add; [apply completed_count_le|exact Hn].
Qed.

(** The same, on the items' statuses. *)
Lemma rate_extremes_forall items :
  (0 < length items < 200)%nat ->
  (calculateComplianceRate items = Some 100 <->
     Forall (fun i => ComplianceItem.status i = Compliant) items) /\
  (calculateComplianceRate items = Some 0 <->
     Forall (fun i => ComplianceItem.status i <> Compliant) items).
Proof.
  intros Hn. destruct (rate_extremes items Hn) as [H100 H0].
  rewrite H100, H0. unfold completed_count. rewrite count_if_all, count_if_zero.
  split; split; intros Hf; (eapply Forall_impl; [exact Hf|]); intros i; unfold is_compliant;
    rewrite ?bool_decide_eq_true, ?bool_decide_eq_false; auto.
Qed.

Lemma js_number_of_Z_nat n : js_number_of_Z (Z.of_nat n) = js_number_of_nat n.
Proof.
  unfold js_number_of_Z, js_number_of_nat.
  replace (Z.of_nat n <? 0) with false by (symmetry; apply Z.ltb_ge; lia). reflexivity.
Qed.

Lemma percent_of_nat c n : percent_of (Z.of_nat c) (Z.of_nat n) = percent_f64 c n.
Proof. unfold percent_of, percent_f64. rewrite !js_number_of_Z_nat. reflexivity. Qed.

(** The percentage of [c] out of [n], for [0 < n < 200]: a number between
    0 and 100, 0 only for [c = 0] and 100 only for [c = n]. *)
Lemma percent_of_facts c n :
  (c <= n)%nat -> (0 < n < 200)%nat ->
  exists p, percent_of (Z.of_nat c) (Z.of_nat n) = Some p /\ 0 <= p <= 100 /\
    (p = 0 <-> c = 0%nat) /\ (p = 100 <-> c = n).
Proof.
  intros Hc Hn. rewrite percent_of_nat.
  destruct (rate_facts c n Hc ltac:(lia)) as (_ & Hb & He).
  specialize (He ltac:(lia)) as [He _].
  unfold rate_bounds_ok, rate_extremes_ok, rate_f64_of_counts in *.
  replace (Nat.eqb n 0) with false in * by (symmetry; apply Nat.eqb_neq; lia).
  destruct (percent_f64 c n) as [p|]; [|discriminate].
  apply andb_prop in Hb as [Hb1 Hb2]. apply orb_prop in He as [He|He]; [discriminate|].
  apply andb_prop in He as [H1 H2]. apply Bool.eqb_prop in H1, H2.
  exists p. split; [reflexivity|split; [lia|split]].
  - rewrite <- Nat.eqb_eq, <- H1, Z.eqb_eq. reflexivity.
  - rewrite <- Nat.eqb_eq, <- H2, Z.eqb_eq. reflexivity.
Qed.

(** ** Theorems *)

(** C7: with at most 200 requirements the rate the page shows is a number
    between 0 and 100, never NaN, and 0 for an empty checklist. *)
Theorem calculateComplianceRate_bounds items :
  (length items <= 200)%nat ->
  exists p, calculateComplianceRate items = Some p /\ 0 <= p <= 100 /\ (items = [] -> p = 0).
Proof.
  intros Hn. destruct (rate_bounds items Hn) as (p & E & B).
  exists p. split; [exact E|split; [exact B|]]. intros ->. injection E as <-. reflexivity.
Qed.

Lemma calculateComplianceRate_bounds_witness :
  (length forty_items <= 200)%nat /\
  exists p, calculateComplianceRate forty_items = Some p /\ 0 <= p <= 100 /\ (forty_items = [] -> p = 0).
Proof.
  split; [vm_compute; lia|]. apply calculateComplianceRate_bounds. vm_compute. lia.
Defined.

(** C8: with between 1 and 199 requirements the page shows 100% exactly
    when every requirement is Compliant and 0% exactly when none is; at
    200 the first bound fails, 199 Compliant out of 200 showing 100%
    ([full_rate_199_of_200]). *)
Theorem calculateComplianceRate_extremes items :
  (0 < length items < 200)%nat ->
  (calculateComplianceRate items = Some 100 <->
     Forall (fun i => ComplianceItem.status i = Compliant) items) /\
  (calculateComplianceRate items = Some 0 <->
     Forall (fun i => ComplianceItem.status i <> Compliant) items).
Proof. apply rate_extremes_forall. Qed.

Lemma calculateComplianceRate_extremes_witness :
  (0 < length [ComplianceItem.mk "1" "o" "r" Compliant "" ""] < 200)%nat /\
  calculateComplianceRate [ComplianceItem.mk "1" "o" "r" Compliant "" ""] = Some 100.
Proof.
  assert (Hn : (0 < length [ComplianceItem.mk "1" "o" "r" Compliant "" ""] < 200)%nat) by (simpl; lia).
  split; [exact Hn|]. apply (calculateComplianceRate_extremes _ Hn). repeat constructor.
Defined.

Example full_rate_199_of_200 :
  calculateComplianceRate items_199_of_200 = Some 100 /\ pending_count items_199_of_200 = 1%nat.
Proof. split; vm_compute; reflexivity. Qed.

(** C9: below 200 requirements, adding a compliant requirement never
    lowers the rate the page shows, and adding any other requirement never
    raises it. *)
Theorem calculateComplianceRate_add_item i items :
  (length items < 200)%nat ->
  exists r r', calculateComplianceRate items = Some r /\ calculateComplianceRate (i :: items) = Some r' /\
    (ComplianceItem.status i = Compliant -> r <= r') /\
    (ComplianceItem.status i <> Compliant -> r' <= r).
Proof.
  intros Hn. rewrite !calculateComplianceRate_counts, completed_count_cons. simpl length.
  apply rate_add; [apply completed_count_le|exact Hn].
Qed.

Lemma calculateComplianceRate_add_item_witness :
  (length [ComplianceItem.mk "1" "o" "r" Pending "" ""] < 200)%nat /\
  exists r r', calculateComplianceRate [ComplianceItem.mk "1" "o" "r" Pending "" ""] = Some r /\
    calculateComplianceRate [ComplianceItem.mk "2" "o" "r" Compliant "" ""; ComplianceItem.mk "1" "o" "r" Pending "" ""]
    = Some r' /\
    (ComplianceItem.status (ComplianceItem.mk "2" "o" "r" Compliant "" "") = Compliant -> r <= r') /\
    (ComplianceItem.status (ComplianceItem.mk "2" "o" "r" Compliant "" "") <> Compliant -> r' <= r).
Proof.
  split; [simpl; lia|]. apply calculateComplianceRate_add_item. simpl; lia.
Defined.

(** C10: with at most 200 requirements, the rate the page shows (binary64
    arithmetic) is the exact round-half-up rate, except for lengths that
    are multiples of 40, where a tie may be rounded down to one less. *)
Theorem rate_f64_vs_exact items :
  (length items <= 200)%nat ->
  calculateComplianceRate items = Some (compliance_rate_exact items) \/
  (Nat.modulo (length items) 40 = 0%nat /\
   calculateComplianceRate items = Some (compliance_rate_exact items - 1)).
Proof.
  intros Hn.
  rewrite calculateComplianceRate_counts, compliance_rate_exact_counts.
  pose proof (proj1 (rate_facts _ _ (completed_count_le items) Hn)) as H.
  unfold rate_f64_ok in H. destruct (rate_f64_of_counts _ _) as [p|]; [|discriminate].
  apply orb_prop in H as [H|H]; [left; apply Z.eqb_eq in H; subst; reflexivity|right].
  apply andb_prop in H as [H1 H2]. apply Nat.eqb_eq in H1. apply Z.eqb_eq in H2. subst. auto.
Qed.

(** Twenty-three compliant requirements out of forty: the page shows 57%
    ([0.575 * 100] is [57.49999999999999] in binary64) where round half up
    of [57.5] is 58. *)
Lemma rate_f64_vs_exact_witness :
  (length forty_items <= 200)%nat /\
  calculateComplianceRate forty_items = Some 57 /\
  compliance_rate_exact forty_items = 58 /\
  (calculateComplianceRate forty_items = Some (compliance_rate_exact forty_items) \/
   (Nat.modulo (length forty_items) 40 = 0%nat /\
    calculateComplianceRate forty_items = Some (compliance_rate_exact forty_items - 1))).
Proof.
  split; [vm_compute; lia|].
  split; [vm_compute; reflexivity|].
  split; [vm_compute; reflexivity|].
  apply rate_f64_vs_exact. vm_compute; lia.
Defined.

(** The example of the specification: two compliant, one pending. *)
Example spec_compliance_rate :
  calculateComplianceRate [] = Some 0 /\
  calculateComplianceRate [ComplianceItem.mk "1" "o" "a" Compliant "" "";
                           ComplianceItem.mk "2" "o" "b" Compliant "" "";
                           ComplianceItem.mk "3" "o" "c" Pending "" ""] = Some 67.
Proof. split; vm_compute; reflexivity. Qed.
