(* ===== verification/Checker.v ===== *)
(** * Checker: the compliance checker page ([ComplianceChecker.jsx])

    The page of one opportunity ([id] from the route) keeps the loaded
    opportunity ([null] until loaded), its compliance items, the loading
    flag, the dialog flag, the requirement form and the toasts it showed.

    Handlers: [loadData] (lines 35-49), which fetches the opportunity and
    its items with [Promise.all], so that either both are set or neither
    is; [handleSubmit] (51-66), which posts the form with the page's
    [opportunity_id] and starts an unawaited reload; [handleDelete]
    (68-79); [resetForm] (81-88); the dialog's [onOpenChange] and Cancel
    (126, 186).  The rate the page shows is [calculateComplianceRate] of
    [Compliance.v], in binary64, applied to the loaded items (line 111). *)

From stdpp Require Import base list strings.
From Stdlib Require Import ZArith.
From S2P Require Import Prelude Entities Store Urgency Compliance.

Module ComplianceChecker.

(** ** The form and the page *)

Record CompForm := mkCompForm {
  cf_requirement : string;
  cf_status : ComplianceStatus;
  cf_notes : string;
  cf_assigned_to : string
}.

(** The initial form and [resetForm], lines 24-29 and 81-88. *)
Definition emptyCompForm : CompForm := mkCompForm "" Pending "" "".

Record CheckerPage := mkCheckerPage {
  cp_id : string;
  cp_opportunity : option Opportunity;
  cp_items : list ComplianceItem.t;
  cp_loading : bool;
  cp_dialog : bool;
  cp_form : CompForm;
  cp_toasts : list Toast
}.

Definition checker_init (oid : string) : CheckerPage :=
  mkCheckerPage oid None [] true false emptyCompForm [].

Definition cp_with_toast (p : CheckerPage) (t : Toast) : CheckerPage :=
  mkCheckerPage (cp_id p) (cp_opportunity p) (cp_items p) (cp_loading p)
                (cp_dialog p) (cp_form p) (cp_toasts p ++ [t]).

(** [resetForm], lines 81-88. *)
Definition resetForm (p : CheckerPage) : CheckerPage :=
  mkCheckerPage (cp_id p) (cp_opportunity p) (cp_items p) (cp_loading p)
                (cp_dialog p) emptyCompForm (cp_toasts p).

(** [loadData], lines 35-49, when its requests resolve.  The GET of the
    opportunity answers 404 when the record is gone, which rejects the
    [Promise.all] as a network failure does; then nothing is set.  The
    [finally] clears the loading flag on both paths. *)
Definition loadData (ok : bool) (p : CheckerPage) (s : Store) : CheckerPage :=
  match (if ok then get_opportunity s (cp_id p) else None) with
  | Some o =>
      mkCheckerPage (cp_id p) (Some o) (compliance_of s (cp_id p)) false
                    (cp_dialog p) (cp_form p) (cp_toasts p)
  | None =>
      let p1 := cp_with_toast p (ToastError "Failed to load compliance data") in
      mkCheckerPage (cp_id p1) (cp_opportunity p1) (cp_items p1) false
                    (cp_dialog p1) (cp_form p1) (cp_toasts p1)
  end.

(** The body [{...formData, opportunity_id: id}] of line 54; the store
    assigns the identifier. *)
Definition item_of_form (oid : string) (f : CompForm) : ComplianceItem.t :=
  ComplianceItem.mk "" oid (cf_requirement f) (cf_status f) (cf_notes f) (cf_assigned_to f).

(** [handleSubmit], lines 51-66.  On success the dialog closes and the
    form is reset; the reload it starts arrives as a separate event. *)
Definition handleSubmit (ok : bool) (p : CheckerPage) (s : Store) : CheckerPage * Store :=
  if ok then
    let p1 := cp_with_toast p (ToastSuccess "Compliance item added successfully") in
    (resetForm (mkCheckerPage (cp_id p1) (cp_opportunity p1) (cp_items p1) (cp_loading p1)
                              false (cp_form p1) (cp_toasts p1)),
     post_compliance s (item_of_form (cp_id p) (cp_form p)))
  else (cp_with_toast p (ToastError "Failed to add compliance item"), s).

(** [handleDelete], lines 68-79: nothing happens unless confirmed. *)
Definition handleDelete (item_id : string) (confirmed ok : bool) (p : CheckerPage) (s : Store)
  : CheckerPage * Store :=
  if confirmed then
    if ok then (cp_with_toast p (ToastSuccess "Compliance item deleted successfully"),
                delete_compliance s item_id)
    else (cp_with_toast p (ToastError "Failed to delete compliance item"), s)
  else (p, s).

(** The rate shown in the header card, line 111. *)
Definition shown_rate (p : CheckerPage) : option Z := calculateComplianceRate (cp_items p).

(** The three header cards, lines 195-233: the rate with its colour
    bucket, the number of requirements and the number of pending ones. *)
Definition checker_cards (p : CheckerPage) : option Z * ComplianceBucket * nat * nat :=
  let r := calculateComplianceRate (cp_items p) in
  (r, rate_bucket r, length (cp_items p), pending_count (cp_items p)).

(** The dialog's inputs, each with its handler
    [setFormData({...formData, <field>: value})], lines 147, 154, 171 and
    181. *)
Inductive CompInput :=
| InRequirement (v : string)
| InComplianceStatus (st : ComplianceStatus)
| InAssignedTo (v : string)
| InNotes (v : string).

Definition comp_input (i : CompInput) (f : CompForm) : CompForm :=
  match i with
  | InRequirement v => mkCompForm v (cf_status f) (cf_notes f) (cf_assigned_to f)
  | InComplianceStatus st => mkCompForm (cf_requirement f) st (cf_notes f) (cf_assigned_to f)
  | InAssignedTo v => mkCompForm (cf_requirement f) (cf_status f) (cf_notes f) v
  | InNotes v => mkCompForm (cf_requirement f) (cf_status f) v (cf_assigned_to f)
  end.

(** The browser's constraint validation before [onSubmit]: the
    [required] requirement and assignee, lines 148 and 172. *)
Definition comp_form_valid (f : CompForm) : bool :=
  negb (String.eqb (cf_requirement f) "") && negb (String.eqb (cf_assigned_to f) "").

(** ** Events *)

Inductive CheckerEvent :=
| CLoad (ok : bool)                        (** a [loadData] resolves *)
| COpen                                    (** "Add Requirement", line 128 *)
| CInput (i : CompInput)                   (** the form's [onChange] handlers *)
| CClose                                   (** [onOpenChange(false)] or Cancel, lines 126, 186 *)
| CSubmit (ok : bool)                      (** the form's [onSubmit] in the open dialog, line 140 *)
| CDelete (item_id : string) (confirmed ok : bool).  (** the delete button, line 272 *)

Definition checker_step (e : CheckerEvent) (ps : CheckerPage * Store) : CheckerPage * Store :=
  let '(p, s) := ps in
  match e with
  | CLoad ok => (loadData ok p s, s)
  | COpen => (mkCheckerPage (cp_id p) (cp_opportunity p) (cp_items p) (cp_loading p)
                            true (cp_form p) (cp_toasts p), s)
  | CInput i => (mkCheckerPage (cp_id p) (cp_opportunity p) (cp_items p) (cp_loading p)
                               (cp_dialog p) (comp_input i (cp_form p)) (cp_toasts p), s)
  | CClose => (resetForm (mkCheckerPage (cp_id p) (cp_opportunity p) (cp_items p) (cp_loading p)
                                        false (cp_form p) (cp_toasts p)), s)
  | CSubmit ok => if cp_dialog p && comp_form_valid (cp_form p) then handleSubmit ok p s else (p, s)
  | CDelete iid c ok => handleDelete iid c ok p s
  end.

Definition checker_run (es : list CheckerEvent) (ps : CheckerPage * Store) : CheckerPage * Store :=
  fold_left (fun acc e => checker_step e acc) es ps.

End ComplianceChecker.
Import ComplianceChecker.

(** The store's collections a page event cannot touch. *)
Definition checker_frame (s s' : Store) : Prop :=
  st_opportunities s' = st_opportunities s /\ st_documents s' = st_documents s /\
  st_activities s' = st_activities s.

(** A store with one opportunity and the page of that opportunity after its
    load, with a Compliant requirement typed in the open dialog. *)
Definition sample_store : Store := post_opportunity empty_store (sample_opp "Acme" Review None).

Definition sample_page : CheckerPage :=
  (checker_run [CLoad true; COpen; CInput (InRequirement "ISO 27001"); CInput (InComplianceStatus Compliant);
                CInput (InAssignedTo "ana")]
               (checker_init "opp-0", sample_store)).1.

(** ** Lemmas *)

Lemma checker_frame_refl s : checker_frame s s.
Proof. repeat split. Qed.

Lemma checker_frame_trans s1 s2 s3 :
  checker_frame s1 s2 -> checker_frame s2 s3 -> checker_frame s1 s3.
Proof. intros (A1 & B1 & C1) (A2 & B2 & C2). repeat split; congruence. Qed.

Lemma checker_step_frame e ps : checker_frame ps.2 (checker_step e ps).2.
Proof.
  destruct ps as [p s]. destruct e as [ok| |f| |ok|iid c ok]; simpl; try apply checker_frame_refl.
  - destruct (cp_dialog p && comp_form_valid (cp_form p)); [|apply checker_frame_refl]. unfold handleSubmit. destruct ok; simpl; [repeat split|apply checker_frame_refl].
  - unfold handleDelete. destruct c, ok; simpl; first [repeat split | apply checker_frame_refl].
Qed.

Lemma compliance_of_post s i oid :
  compliance_of (post_compliance s i) oid
  = compliance_of s oid ++
    (if String.eqb (ComplianceItem.opportunity_id i) oid
     then [ComplianceItem.mk (fresh_id "req-" s) (ComplianceItem.opportunity_id i)
             (ComplianceItem.requirement i) (ComplianceItem.status i)
             (ComplianceItem.notes i) (ComplianceItem.assigned_to i)] else []).
Proof.
  unfold compliance_of, post_compliance. simpl. rewrite List.filter_app. simpl.
  destruct (String.eqb (ComplianceItem.opportunity_id i) oid); reflexivity.
Qed.

Lemma get_opportunity_post_compliance s i oid :
  get_opportunity (post_compliance s i) oid = get_opportunity s oid.
Proof. reflexivity. Qed.

(** C23: [loadData] is all or nothing: when the opportunity exists and the
    requests succeed the page shows it with exactly its items from the
    store, and the rate of those items; otherwise (failure, or a 404 for a
    deleted opportunity) it keeps what it showed and reports "Failed to
    load compliance data".  The loading flag is cleared in both cases. *)
Theorem checker_loadData_outcomes ok p s :
  let p' := loadData ok p s in
  cp_loading p' = false /\ cp_id p' = cp_id p /\
  (forall o, ok = true -> get_opportunity s (cp_id p) = Some o ->
     cp_opportunity p' = Some o /\ cp_items p' = compliance_of s (cp_id p) /\
     shown_rate p' = calculateComplianceRate (compliance_of s (cp_id p))) /\
  ((ok = false \/ get_opportunity s (cp_id p) = None) ->
     cp_opportunity p' = cp_opportunity p /\ cp_items p' = cp_items p /\
     cp_toasts p' = cp_toasts p ++ [ToastError "Failed to load compliance data"]).
Proof.
  cbv zeta. unfold loadData.
  destruct ok; [destruct (get_opportunity s (cp_id p)) as [o'|] eqn:E|]; simpl;
    (split; [reflexivity|split; [reflexivity|split]]).
  - intros o _ Ho. injection Ho as <-. repeat split.
  - intros [H|H]; discriminate.
  - intros o _ Ho. discriminate.
  - intros _. repeat split.
  - intros o H. discriminate.
  - intros _. repeat split.
Qed.

(** C24: the compliance page never writes an opportunity, a document or an
    activity: whatever the events and request outcomes, the opportunities'
    stored [compliance_percentage] is left as it was and the derived rate
    is never synchronised into it, and no activity is logged. *)
Theorem checker_run_frame es ps : checker_frame ps.2 (checker_run es ps).2.
Proof.
  revert ps. induction es as [|e es IH]; intros ps; simpl; [apply checker_frame_refl|].
  eapply checker_frame_trans; [apply checker_step_frame|apply IH].
Qed.

(** C12: a successful submission followed by a successful reload shows
    the items the page showed plus the new requirement at the end, with a
    fresh identifier, provided the page was in sync with the store; below
    200 items the rate the page computes (binary64) does not go down when
    the requirement is Compliant and does not go up otherwise. *)
Theorem checker_submit_reload p s o :
  cp_items p = compliance_of s (cp_id p) -> get_opportunity s (cp_id p) = Some o ->
  (length (cp_items p) < 200)%nat ->
  let y := handleSubmit true p s in
  let p2 := loadData true y.1 y.2 in
  cp_items p2 = cp_items p ++ [ComplianceItem.mk (fresh_id "req-" s) (cp_id p)
                                 (cf_requirement (cp_form p)) (cf_status (cp_form p))
                                 (cf_notes (cp_form p)) (cf_assigned_to (cp_form p))] /\
  exists r r', shown_rate p = Some r /\ shown_rate p2 = Some r' /\
    (cf_status (cp_form p) = Compliant -> r <= r')%Z /\
    (cf_status (cp_form p) <> Compliant -> r' <= r)%Z.
Proof.
  intros Hsync Ho Hn. cbv zeta. unfold handleSubmit, loadData. simpl.
  rewrite get_opportunity_post_compliance, Ho. simpl.
  rewrite compliance_of_post. simpl. rewrite String.eqb_refl, <- Hsync.
  unfold shown_rate. simpl. split; [reflexivity|].
  exact (rate_snoc (cp_items p) (ComplianceItem.mk _ _ _ (cf_status (cp_form p)) _ _) Hn).
Qed.

(** C25: the page posts a requirement under its route's identifier even
    when no opportunity has it (the load failed with a 404 and the page
    still offers "Add Requirement"), creating a compliance item whose
    parent does not exist. *)
Theorem checker_orphan_post p s :
  get_opportunity s (cp_id p) = None ->
  let s1 := (handleSubmit true p s).2 in
  get_opportunity s1 (cp_id p) = None /\
  compliance_of s1 (cp_id p)
  = compliance_of s (cp_id p) ++ [ComplianceItem.mk (fresh_id "req-" s) (cp_id p)
                                   (cf_requirement (cp_form p)) (cf_status (cp_form p))
                                   (cf_notes (cp_form p)) (cf_assigned_to (cp_form p))].
Proof.
  intros Hno. cbv zeta. unfold handleSubmit. simpl.
  rewrite get_opportunity_post_compliance, compliance_of_post. simpl.
  rewrite String.eqb_refl. split; [exact Hno|reflexivity].
Qed.

Lemma compliance_of_delete s iid oid :
  compliance_of (delete_compliance s iid) oid
  = List.filter (fun i => negb (String.eqb (ComplianceItem.id i) iid)) (compliance_of s oid).
Proof. unfold compliance_of, delete_compliance. simpl. apply list_filter_comm. Qed.

(** C26: [handleDelete] on each branch: without confirmation nothing
    happens; a failed request changes nothing but reports "Failed to delete
    compliance item"; a successful one removes from every opportunity's
    checklist exactly the items with that identifier, keeping the order of
    the others, and the page keeps showing its items until the reload. *)
Theorem checker_handleDelete_outcomes iid c ok p s :
  let y := handleDelete iid c ok p s in
  (c = false -> y = (p, s)) /\
  (c = true -> ok = false ->
     y.2 = s /\ cp_toasts y.1 = cp_toasts p ++ [ToastError "Failed to delete compliance item"]) /\
  (c = true -> ok = true ->
     cp_items y.1 = cp_items p /\
     forall oid, compliance_of y.2 oid
                 = List.filter (fun i => negb (String.eqb (ComplianceItem.id i) iid)) (compliance_of s oid)).
Proof.
  cbv zeta. unfold handleDelete.
  split; [intros ->; reflexivity|split; intros -> ; [intros ->; split; reflexivity|]].
  intros ->. split; [reflexivity|]. intros oid. apply compliance_of_delete.
Qed.



Lemma checker_loadData_outcomes_witness :
  cp_items (loadData true (checker_init "opp-0") sample_store) = compliance_of sample_store "opp-0" /\
  cp_opportunity (loadData true (checker_init "opp-9") sample_store) = None.
Proof.
  split.
  - exact (proj1 (proj2 ((proj1 (proj2 (proj2 (checker_loadData_outcomes true (checker_init "opp-0") sample_store))))
                           _ eq_refl eq_refl))).
  - exact (proj1 ((proj2 (proj2 (proj2 (checker_loadData_outcomes true (checker_init "opp-9") sample_store))))
                    (or_intror eq_refl))).
Defined.

Lemma checker_submit_reload_witness :
  exists o, cp_items sample_page = compliance_of sample_store (cp_id sample_page) /\
    get_opportunity sample_store (cp_id sample_page) = Some o /\
    (length (cp_items sample_page) < 200)%nat /\
    exists r r', shown_rate sample_page = Some r /\
      shown_rate (loadData true (handleSubmit true sample_page sample_store).1
                                (handleSubmit true sample_page sample_store).2) = Some r' /\
      (r <= r')%Z.
Proof.
  eexists. split; [reflexivity|split; [reflexivity|split; [vm_compute; lia|]]].
  destruct (proj2 (checker_submit_reload sample_page sample_store _ eq_refl eq_refl ltac:(vm_compute; lia)))
    as (r & r' & E1 & E2 & H1 & _).
  exists r, r'. split; [exact E1|split; [exact E2|apply H1; reflexivity]].
Defined.

Lemma checker_orphan_post_witness :
  get_opportunity sample_store "opp-7" = None /\
  length (compliance_of (handleSubmit true (checker_init "opp-7") sample_store).2 "opp-7") = 1%nat.
Proof.
  assert (H : get_opportunity sample_store "opp-7" = None) by reflexivity.
  split; [exact H|].
  exact (f_equal (@length _) (proj2 (checker_orphan_post (checker_init "opp-7") sample_store H))).
Defined.

Lemma checker_handleDelete_outcomes_witness :
  handleDelete "req-1" false true sample_page sample_store = (sample_page, sample_store).
Proof. exact (proj1 (checker_handleDelete_outcomes "req-1" false true sample_page sample_store) eq_refl). Defined.
