(* ===== verification/Statistics.v ===== *)
(** * Statistics: the portfolio summary and the pages that read it

    [GET /api/statistics] returns the summary the dashboard and the
    reports page display.  The backend that computes it is not in the
    repository, so [summarize] is modelled from the specification
    (section 4.4): the total, the counts by status (only the statuses
    present, in order of first appearance), the win rate over all
    opportunities, the rounded mean of the stored compliance percentages
    and the number of open opportunities due within 48 hours.

    What the pages rely on is stated as the class [StatisticsService];
    [summarize] is an instance of it.  The pages read the summary through
    [statistics?.field || 0] ([stat_field]); the dashboard's cards, its
    load ([dashboard_loadData]) and [statusData] (whose charts are
    commented out), and
    the reports' status bars ([Reports.jsx] 271-292) are proved correct
    against the class, for any service that satisfies it: the counts a
    correct service reports are a permutation of [status_rows]. *)

From stdpp Require Import base list strings.
From Stdlib Require Import ZArith.
From S2P Require Import Prelude Entities Store Urgency Compliance.

Local Open Scope Z_scope.

(** ** The summary *)

Record StatisticsSummary := mkStatisticsSummary {
  total_opportunities : Z;
  status_counts : list (string * Z);
  win_rate : Z;
  average_compliance : Z;
  urgent_deadlines : Z
}.

(** Round half up of [a / b] for [b > 0]. *)
Definition round_div (a b : Z) : Z := (2 * a + b) / (2 * b).

(** Add one to the count of [k], appending [k] when it is new. *)
Fixpoint bump (k : string) (m : list (string * Z)) : list (string * Z) :=
  match m with
  | [] => [(k, 1)]
  | (k', v) :: m' => if String.eqb k k' then (k', v + 1) :: m' else (k', v) :: bump k m'
  end.

Definition count_by_status (opps : list Opportunity) : list (string * Z) :=
  fold_left (fun m o => bump (status_to_string (status o)) m) opps [].

Definition summarize (now : Z) (opps : list Opportunity) : StatisticsSummary :=
  let total := Z.of_nat (length opps) in
  let won := Z.of_nat (count_if (fun o => bool_decide (status o = Won)) opps) in
  let compliance_sum := fold_right Z.add 0 (map compliance_percentage opps) in
  mkStatisticsSummary
    total
    (count_by_status opps)
    (if total =? 0 then 0 else round_div (100 * won) total)
    (if total =? 0 then 0 else round_div compliance_sum total)
    (Z.of_nat (length (dashboard_urgentOpportunities now opps))).

(** The count recorded for a key, [status_counts[key]]; [undefined] is
    [None]. *)
Fixpoint lookup_count (k : string) (m : list (string * Z)) : option Z :=
  match m with
  | [] => None
  | (k', v) :: m' => if String.eqb k k' then Some v else lookup_count k m'
  end.

(** ** What the pages rely on *)

Class StatisticsService := {
  stats_of : Z -> list Opportunity -> StatisticsSummary;
  stats_total now opps : total_opportunities (stats_of now opps) = Z.of_nat (length opps);
  stats_urgent now opps :
    urgent_deadlines (stats_of now opps) = Z.of_nat (length (dashboard_urgentOpportunities now opps));
  stats_count now opps s :
    lookup_count (status_to_string s) (status_counts (stats_of now opps))
    = let n := count_if (fun o => bool_decide (status o = s)) opps in
      if Nat.eqb n 0 then None else Some (Z.of_nat n);
  stats_keys now opps : NoDup (map fst (status_counts (stats_of now opps)));
  stats_keys_valid now opps :
    Forall (fun k => is_Some (status_of_string k)) (map fst (status_counts (stats_of now opps)))
}.

(** ** How the pages read it *)

(** [statistics?.field || 0]: [statistics] is [null] until the load
    succeeds. *)
Definition stat_field (st : option StatisticsSummary) (f : StatisticsSummary -> Z) : Z :=
  js_or_num (f <$> st) 0.

(** The status bars of [Reports.jsx] 271-292: for each key, its count and
    the width [Math.round((count / total) * 100)] computed in binary64
    ([None] is NaN), or 0 when the total is not positive. *)
Definition status_summary_rows (st : StatisticsSummary) : list (string * Z * option Z) :=
  map (fun '(k, count) =>
         (k, count,
          if 0 <? total_opportunities st then percent_of count (total_opportunities st) else Some 0))
      (status_counts st).

(** The four statistic cards of [Dashboard.jsx] 80-127. *)
Definition dashboard_cards (st : option StatisticsSummary) : Z * Z * Z * Z :=
  (stat_field st total_opportunities, stat_field st win_rate,
   stat_field st average_compliance, stat_field st urgent_deadlines).

(** [statusData] of [Dashboard.jsx] 45-48: one entry per key of
    [status_counts], named by the key, in the object's key order (the
    keys are not integer-like, so [Object.keys] keeps insertion order);
    none before the load.  The bar and pie charts that would show it
    (lines 129-167) are commented out, so it is computed and not
    rendered. *)
Definition statusData (st : option StatisticsSummary) : list (string * Z) :=
  match st with
  | Some st => map (fun '(k, v) => (k, v)) (status_counts st)
  | None => []
  end.

(** The sum of the entries' values. *)
Definition slices_total (l : list (string * Z)) : Z := fold_right (fun kv acc => kv.2 + acc) 0 l.

(** The dashboard's state, [Dashboard.jsx] 13-15. *)
Record DashPage := mkDashPage {
  db_statistics : option StatisticsSummary;
  db_opportunities : list Opportunity;
  db_loading : bool;
  db_toasts : list Toast
}.

Definition dash_init : DashPage := mkDashPage None [] true [].

(** [loadData], [Dashboard.jsx] 21-35: [Promise.all] of the statistics,
    computed by [stats] at the instant [now], and the opportunities of the
    store; either both are set or, on failure, neither. *)
Definition dashboard_loadData (stats : Z -> list Opportunity -> StatisticsSummary)
  (ok : bool) (now : Z) (s : Store) (p : DashPage) : DashPage :=
  if ok then mkDashPage (Some (stats now (st_opportunities s))) (st_opportunities s) false (db_toasts p)
  else mkDashPage (db_statistics p) (db_opportunities p) false
                  (db_toasts p ++ [ToastError "Failed to load dashboard data"]).

(** ** Counting by status *)

(** A count plus [n] more, absent while it is zero. *)
Definition opt_add (o : option Z) (n : nat) : option Z :=
  match o, n with
  | None, O => None
  | None, _ => Some (Z.of_nat n)
  | Some v, _ => Some (v + Z.of_nat n)
  end.

Lemma opt_add_0 o : opt_add o 0 = o.
Proof. destruct o; simpl; [f_equal; lia|reflexivity]. Qed.

Lemma opt_add_S o n : opt_add (opt_add o 1) n = opt_add o (S n).
Proof. destruct o, n; simpl; f_equal; lia. Qed.

Lemma lookup_count_bump k k' m :
  lookup_count k (bump k' m) = if String.eqb k k' then opt_add (lookup_count k m) 1 else lookup_count k m.
Proof.
  induction m as [|[k0 v] m IH]; simpl.
  - destruct (String.eqb_spec k k'); reflexivity.
  - destruct (String.eqb_spec k' k0) as [->|Hne]; simpl.
    + destruct (String.eqb_spec k k0); reflexivity.
    + rewrite IH. destruct (String.eqb_spec k k0), (String.eqb_spec k k'); subst; congruence.
Qed.

Lemma lookup_count_fold k opps m :
  lookup_count k (fold_left (fun m o => bump (status_to_string (status o)) m) opps m)
  = opt_add (lookup_count k m) (count_if (fun o => bool_decide (k = status_to_string (status o))) opps).
Proof.
  revert m. induction opps as [|o opps IH]; intros m; simpl.
  - symmetry; apply opt_add_0.
  - rewrite IH, lookup_count_bump, count_if_cons.
    case_bool_decide as E.
    + rewrite (proj2 (String.eqb_eq _ _) E). apply opt_add_S.
    + rewrite (proj2 (String.eqb_neq _ _) E). reflexivity.
Qed.

Lemma bump_keys k m : map fst (bump k m) = if decide (k ∈ map fst m) then map fst m else map fst m ++ [k].
Proof.
  induction m as [|[k0 v] m IH]; simpl; [reflexivity|].
  destruct (String.eqb_spec k k0) as [->|Hne]; simpl.
  - rewrite decide_True; [reflexivity|left].
  - rewrite IH. destruct (decide (k ∈ map fst m)) as [Hin|Hin].
    + rewrite decide_True; [reflexivity|right; exact Hin].
    + rewrite decide_False; [reflexivity|]. intros Hc. inversion Hc; subst; contradiction.
Qed.

Lemma bump_nodup k m : NoDup (map fst m) -> NoDup (map fst (bump k m)).
Proof.
  intros H. rewrite bump_keys. case_decide; [exact H|].
  apply NoDup_app. repeat split; [exact H| |apply NoDup_singleton].
  intros x Hx Hx'. apply list_elem_of_singleton in Hx'. subst. contradiction.
Qed.

Lemma bump_keys_in k m x : x ∈ map fst (bump k m) -> x = k \/ x ∈ map fst m.
Proof. rewrite bump_keys. case_decide; [auto|]. rewrite elem_of_app, list_elem_of_singleton. tauto. Qed.

Lemma count_by_status_fold_inv (P : list (string * Z) -> Prop) opps m :
  P m -> (forall o m, P m -> P (bump (status_to_string (status o)) m)) ->
  P (fold_left (fun m o => bump (status_to_string (status o)) m) opps m).
Proof.
  intros H0 Hs. revert m H0. induction opps as [|o opps IH]; intros m H0; simpl; [exact H0|].
  apply IH, Hs, H0.
Qed.

Lemma count_by_status_nodup opps : NoDup (map fst (count_by_status opps)).
Proof.
  unfold count_by_status; apply count_by_status_fold_inv; [constructor|]. intros o m. apply bump_nodup.
Qed.

Lemma count_by_status_keys opps :
  Forall (fun k => is_Some (status_of_string k)) (map fst (count_by_status opps)).
Proof.
  unfold count_by_status; apply count_by_status_fold_inv; [constructor|].
  intros o m Hm. apply Forall_forall. intros x Hx.
  apply bump_keys_in in Hx as [->|Hx].
  - rewrite status_of_to_string. eexists; reflexivity.
  - rewrite Forall_forall in Hm. apply Hm. exact Hx.
Qed.

Lemma count_status_string opps s :
  count_if (fun o => bool_decide (status_to_string s = status_to_string (status o))) opps
  = count_if (fun o => bool_decide (status o = s)) opps.
Proof.
  apply count_if_ext. intros o _. apply bool_decide_ext. split.
  - intros H. symmetry. apply status_to_string_inj, H.
  - intros ->. reflexivity.
Qed.

(** [summarize] implements the interface the pages rely on. *)
#[export] Program Instance summarize_service : StatisticsService := {| stats_of := summarize |}.
Next Obligation. reflexivity. Qed.
Next Obligation. reflexivity. Qed.
Next Obligation.
  intros now opps s. simpl. unfold count_by_status. rewrite lookup_count_fold, count_status_string.
  simpl. destruct (count_if _ opps); reflexivity.
Qed.
Next Obligation. intros. apply count_by_status_nodup. Qed.
Next Obligation. intros. apply count_by_status_keys. Qed.

Lemma lookup_count_in k v m :
  NoDup (map fst m) -> In (k, v) m -> lookup_count k m = Some v.
Proof.
  induction m as [|[k0 v0] m IH]; simpl; [contradiction|].
  intros Hnd [Heq|Hin].
  - injection Heq as -> ->. rewrite String.eqb_refl. reflexivity.
  - inversion Hnd as [|? ? Hnin Hnd']; subst.
    destruct (String.eqb_spec k k0) as [->|Hne]; [|apply IH; assumption].
    exfalso. apply Hnin. apply list_elem_of_In, in_map_iff. exists (k0, v). split; [reflexivity|exact Hin].
Qed.

Lemma lookup_count_some k v m : lookup_count k m = Some v -> In (k, v) m.
Proof.
  induction m as [|[k0 v0] m IH]; simpl; [discriminate|].
  destruct (String.eqb_spec k k0) as [->|_]; [intros Hv; injection Hv as ->; left; reflexivity|].
  intros Hv. right. apply IH, Hv.
Qed.

#[export] Instance slices_total_perm : Proper ((≡ₚ) ==> (=)) slices_total.
Proof.
  intros l1 l2 Hp. unfold slices_total.
  induction Hp as [|x l1 l2 _ IH|x y l|l1 l2 l3 _ IH1 _ IH2]; simpl; lia.
Qed.

Lemma map_pair_id (l : list (string * Z)) : map (fun '(k, v) => (k, v)) l = l.
Proof. induction l as [|[k v] l IH]; simpl; [reflexivity|]. rewrite IH. reflexivity. Qed.

(** Every opportunity has exactly one status. *)
Lemma status_partition opps :
  fold_right (fun st acc => Z.of_nat (count_if (fun o => bool_decide (status o = st)) opps) + acc) 0
             all_statuses = Z.of_nat (length opps).
Proof.
  induction opps as [|o opps IH]; [reflexivity|].
  simpl in *. rewrite !count_if_cons.
  destruct (status o); simpl; lia.
Qed.

(** The rows a correct service reports: the statuses present, with their
    counts, in the order of [all_statuses]. *)
Definition status_rows (opps : list Opportunity) : list (string * Z) :=
  map (fun st => (status_to_string st, Z.of_nat (count_if (fun o => bool_decide (status o = st)) opps)))
      (List.filter (fun st => negb (Nat.eqb (count_if (fun o => bool_decide (status o = st)) opps) 0))
                   all_statuses).

Lemma slices_total_status_rows opps : slices_total (status_rows opps) = Z.of_nat (length opps).
Proof.
  rewrite <- status_partition. unfold slices_total, status_rows.
  induction all_statuses as [|st l IH]; [reflexivity|]. simpl.
  destruct (Nat.eqb_spec (count_if (fun o => bool_decide (status o = st)) opps) 0) as [E|E];
    simpl; rewrite IH; [rewrite E|]; lia.
Qed.

Lemma status_rows_nodup opps : List.NoDup (status_rows opps).
Proof.
  unfold status_rows. apply Finite.Injective_map_NoDup.
  - intros a b Hab. injection Hab as Hab _. apply status_to_string_inj, Hab.
  - apply List.NoDup_filter. repeat constructor; simpl; intuition discriminate.
Qed.

Section AgainstService.
Context `{StatisticsService}.

Lemma service_key_status now opps k :
  In k (map fst (status_counts (stats_of now opps))) -> exists s, k = status_to_string s.
Proof.
  intros Hk. pose proof (stats_keys_valid now opps) as Hv. rewrite Forall_forall in Hv.
  destruct (Hv k ltac:(apply list_elem_of_In; exact Hk)) as [s Hs].
  exists s. apply status_of_string_some, Hs.
Qed.

Lemma service_keys_le_6 now opps : (length (status_counts (stats_of now opps)) <= 6)%nat.
Proof.
  rewrite <- (length_map fst).
  change 6%nat with (length (map status_to_string all_statuses)).
  apply NoDup_incl_length; [apply NoDup_ListNoDup, stats_keys|].
  intros k Hk. destruct (service_key_status now opps k Hk) as [s ->].
  apply in_map, in_all_statuses.
Qed.

Lemma service_row_count now opps k v :
  In (k, v) (status_counts (stats_of now opps)) -> 0 < v <= Z.of_nat (length opps).
Proof.
  intros Hin.
  destruct (service_key_status now opps k) as [s ->].
  { apply in_map_iff. exists (k, v). split; [reflexivity|exact Hin]. }
  pose proof (stats_count now opps s) as Hc.
  rewrite (lookup_count_in _ v) in Hc by (exact (stats_keys now opps) || exact Hin).
  pose proof (count_if_le (fun o => bool_decide (status o = s)) opps).
  cbv zeta in Hc. destruct (Nat.eqb_spec (count_if (fun o => bool_decide (status o = s)) opps) 0);
    [discriminate|]. injection Hc as ->. lia.
Qed.

Lemma service_row_status now opps k v :
  In (k, v) (status_counts (stats_of now opps)) ->
  exists st, k = status_to_string st /\
    v = Z.of_nat (count_if (fun o => bool_decide (status o = st)) opps) /\
    count_if (fun o => bool_decide (status o = st)) opps <> 0%nat.
Proof.
  intros Hin.
  destruct (service_key_status now opps k) as [st ->].
  { apply in_map_iff. exists (k, v). split; [reflexivity|exact Hin]. }
  pose proof (stats_count now opps st) as Hc.
  rewrite (lookup_count_in _ v) in Hc by (exact (stats_keys now opps) || exact Hin).
  cbv zeta in Hc. exists st. split; [reflexivity|].
  destruct (Nat.eqb_spec (count_if (fun o => bool_decide (status o = st)) opps) 0);
    [discriminate|]. injection Hc as ->. auto.
Qed.

Lemma service_counts_perm now opps : status_counts (stats_of now opps) ≡ₚ status_rows opps.
Proof.
  apply NoDup_Permutation.
  - apply NoDup_ListNoDup, (NoDup_map_inv fst), NoDup_ListNoDup, stats_keys.
  - apply NoDup_ListNoDup, status_rows_nodup.
  - intros [k v]. rewrite !list_elem_of_In. unfold status_rows. rewrite in_map_iff. split.
    + intros Hin. destruct (service_row_status now opps k v Hin) as (st & -> & -> & Hn).
      exists st. split; [reflexivity|]. apply filter_In. split; [apply in_all_statuses|].
      apply negb_true_iff, Nat.eqb_neq, Hn.
    + intros (st & Heq & Hst). injection Heq as <- <-.
      apply filter_In in Hst as [_ Hn]. apply negb_true_iff, Nat.eqb_neq in Hn.
      apply lookup_count_some. rewrite stats_count. cbv zeta.
      destruct (Nat.eqb_spec (count_if (fun o => bool_decide (status o = st)) opps) 0);
        [contradiction|reflexivity].
Qed.

Lemma dashboard_cards_total now opps :
  (dashboard_cards (Some (stats_of now opps))).1.1.1 = Z.of_nat (length opps).
Proof. unfold dashboard_cards, stat_field. simpl. rewrite stats_total. unfold js_or_num. solve_js. Qed.

Lemma dashboard_cards_urgent now opps :
  (dashboard_cards (Some (stats_of now opps))).2 = Z.of_nat (length (dashboard_urgentOpportunities now opps)).
Proof. unfold dashboard_cards, stat_field. simpl. rewrite stats_urgent. unfold js_or_num. solve_js. Qed.

(** C11: for any statistics service that satisfies [StatisticsService]
    and fewer than 200 opportunities, every status bar of the reports page
    belongs to a status, shows the number of opportunities with that
    status, and has a width (computed in binary64) between 1% and 100%,
    100% exactly when every opportunity has that status. *)
Theorem status_summary_rows_bounds now opps k count pct :
  In (k, count, pct) (status_summary_rows (stats_of now opps)) ->
  (length opps < 200)%nat ->
  exists st p, k = status_to_string st /\
    count = Z.of_nat (count_if (fun o => bool_decide (status o = st)) opps) /\
    pct = Some p /\ 0 < p <= 100 /\ (p = 100 <-> Forall (fun o => status o = st) opps).
Proof.
  unfold status_summary_rows. rewrite in_map_iff. intros [[k' c'] [Heq Hin]] Hn.
  injection Heq as -> -> <-.
  destruct (service_row_status now opps k count Hin) as (st & -> & -> & Hc).
  rewrite stats_total.
  pose proof (count_if_le (fun o => bool_decide (status o = st)) opps) as Hle.
  destruct (percent_of_facts _ _ Hle ltac:(lia)) as (p & E & Hb & H0 & H100).
  replace (0 <? Z.of_nat (length opps)) with true by (symmetry; apply Z.ltb_lt; lia).
  exists st, p. split; [reflexivity|split; [reflexivity|split; [exact E|split; [|]]]].
  - assert (p <> 0) by (intros ->; apply Hc, H0; reflexivity). lia.
  - rewrite H100, count_if_all. split; intros Hf; (eapply Forall_impl; [exact Hf|]);
      intros o; rewrite bool_decide_eq_true; auto.
Qed.

(** After a successful load the entries of [statusData] add up to the
    "Total Opportunities" card, which is the number of opportunities the
    page loaded, for any service satisfying [StatisticsService]. *)
Theorem dashboard_pie_total ok now s p :
  let p' := dashboard_loadData stats_of ok now s p in
  ok = true ->
  slices_total (statusData (db_statistics p')) = (dashboard_cards (db_statistics p')).1.1.1 /\
  (dashboard_cards (db_statistics p')).1.1.1 = Z.of_nat (length (db_opportunities p')).
Proof.
  cbv zeta. intros ->. unfold dashboard_loadData. cbn [db_statistics db_opportunities statusData].
  rewrite (dashboard_cards_total now (st_opportunities s)).
  split; [|reflexivity].
  rewrite map_pair_id.
  rewrite service_counts_perm. apply slices_total_status_rows.
Qed.
End AgainstService.

Lemma status_summary_rows_bounds_witness :
  In ("Won", 1, Some 100) (status_summary_rows (stats_of 0 [sample_opp "Acme" Won (Some 0)])) /\
  (length [sample_opp "Acme" Won (Some 0%Z)] < 200)%nat /\
  exists st p, "Won" = status_to_string st /\
    1 = Z.of_nat (count_if (fun o => bool_decide (status o = st)) [sample_opp "Acme" Won (Some 0)]) /\
    Some 100 = Some p /\ 0 < p <= 100 /\
    (p = 100 <-> Forall (fun o => status o = st) [sample_opp "Acme" Won (Some 0)]).
Proof.
  assert (Hin : In ("Won", 1, Some 100) (status_summary_rows (stats_of 0 [sample_opp "Acme" Won (Some 0)])))
    by (vm_compute; left; reflexivity).
  split; [exact Hin|]. split; [simpl; lia|].
  exact (status_summary_rows_bounds 0 _ _ _ _ Hin ltac:(simpl; lia)).
Defined.

(** The empty portfolio and the win-rate example of the specification:
    two wins out of four opportunities is 50%, the denominator being all
    opportunities. *)
Example spec_summarize_examples :
  summarize 0 [] = mkStatisticsSummary 0 [] 0 0 0 /\
  win_rate (summarize 0 [sample_opp "A" Won None; sample_opp "B" Won None;
                         sample_opp "C" Lost None; sample_opp "D" Drafting None]) = 50.
Proof. split; reflexivity. Qed.

Lemma dashboard_pie_total_witness :
  let s := post_opportunity (post_opportunity empty_store (sample_opp "A" Won None)) (sample_opp "B" Review None) in
  let p' := dashboard_loadData (@stats_of summarize_service) true 0 s dash_init in
  true = true /\ slices_total (statusData (db_statistics p')) = 2.
Proof.
  cbv zeta. split; [reflexivity|].
  rewrite (proj1 (@dashboard_pie_total summarize_service true 0 _ dash_init eq_refl)).
  vm_compute. reflexivity.
Defined.
