(* ===== verification/Reports.v ===== *)
(** * Reports: the PDF report and the Excel export of [Reports.jsx]

    [generatePDFReport] (lines 38-139) draws on a jsPDF document: a
    header, the executive summary, the status breakdown, up to ten active
    opportunities and four recommendations, moving a cursor [yPos] down the
    page and calling [doc.addPage()] when it passes a threshold.  The
    document is modelled as the list of calls made on it ([PdfOp]); the
    cursor is threaded explicitly through one function per section.  What
    the calls draw is read back by [baselines]: jsPDF draws the lines of
    one [text] call 1.15 times the current font size apart, which the
    code's cursor (6 mm per wrapped line) does not follow.

    [exportToExcel] (lines 141-182) builds two sheets with
    [XLSX.utils.json_to_sheet] from arrays of objects; a sheet is modelled
    as its header row (the keys of the objects, in order) and one row of
    cells per object.

    Three things are outside JavaScript's own semantics and are section
    parameters: the locale formatting of dates ([toLocaleDateString],
    [toLocaleString]), jsPDF's word wrap [splitTextToSize], and today's
    date as the page prints it and as its ISO prefix. *)

From stdpp Require Import base list strings pretty.
From Stdlib Require Import ZArith.
From S2P Require Import Prelude Entities Urgency Statistics.

Local Open Scope Z_scope.

(** ** The PDF document as a sequence of calls *)

Inductive FontStyle := FontBold | FontNormal.

Inductive PdfOp :=
| SetFontSize (size : Z)
| SetFont (style : FontStyle)
| Text (lines : list string) (x y : Z) (centered : bool)
| AddPage
| Save (filename : string).

(** The number of a JSON value printed by a template literal. *)
Definition num_str (z : Z) : string := pretty z.

(** A [Date] printed by a locale formatter; an Invalid Date prints as
    ["Invalid Date"]. *)
Definition format_date (fmt : Z -> string) (d : js_date) : string :=
  match d with None => "Invalid Date" | Some ms => fmt ms end.

(** The four recommendations, lines 120-125. *)
Definition recommendations : list string :=
  [ "Focus on opportunities with urgent deadlines to ensure timely submissions";
    "Review non-compliant items to improve overall compliance rate";
    "Allocate resources to high-priority opportunities in drafting stage";
    "Monitor portal access for timely RFP updates" ].

Section Pdf.

Context (toLocaleDateString : Z -> string).
Context (splitTextToSize : string -> Z -> list string).
Context (today_locale today_iso : string).

(** Header and the first section title, lines 41-53. *)
Definition pdf_header : list PdfOp :=
  [ SetFontSize 20; SetFont FontBold;
    Text ["ABPTS Weekly Report"] 105 20 true;
    SetFontSize 12; SetFont FontNormal;
    Text ["Generated: " +:+ today_locale] 105 30 true;
    SetFontSize 14; SetFont FontBold;
    Text ["Executive Summary"] 20 45 false ].

(** The executive summary, lines 55-66: four lines from [yPos = 55],
    8 apart, then [yPos += 15]. *)
Definition pdf_summary (st : option StatisticsSummary) : list PdfOp * Z :=
  ([ SetFontSize 11; SetFont FontNormal;
     Text ["Total Opportunities: " +:+ num_str (stat_field st total_opportunities)] 20 55 false;
     Text ["Win Rate: " +:+ num_str (stat_field st win_rate) +:+ "%"] 20 63 false;
     Text ["Average Compliance: " +:+ num_str (stat_field st average_compliance) +:+ "%"] 20 71 false;
     Text ["Urgent Deadlines: " +:+ num_str (stat_field st urgent_deadlines)] 20 79 false ],
   94).

(** One line per key of [status_counts], 8 apart (lines 77-80). *)
Fixpoint pdf_status_lines (counts : list (string * Z)) (y : Z) : list PdfOp * Z :=
  match counts with
  | [] => ([], y)
  | (k, v) :: rest =>
      let '(ops, y') := pdf_status_lines rest (y + 8) in
      (Text [k +:+ ": " +:+ num_str v] 25 y false :: ops, y')
  end.

(** The status breakdown, lines 68-82. *)
Definition pdf_status_section (st : option StatisticsSummary) (y : Z) : list PdfOp * Z :=
  let head := [ SetFontSize 14; SetFont FontBold; Text ["Opportunities by Status"] 20 y false;
                SetFontSize 11; SetFont FontNormal ] in
  let '(ops, y') :=
    match st with
    | Some s => pdf_status_lines (status_counts s) (y + 10)
    | None => ([], y + 10)
    end in
  (head ++ ops, y' + 10).

(** The first line of an active opportunity. *)
Definition active_line1 (o : Opportunity) : string :=
  "• " +:+ client o +:+ " - " +:+ project_type o.

(** Its second line. *)
Definition active_line2 (o : Opportunity) : string :=
  "  Status: " +:+ status_to_string (status o) +:+ " | Deadline: "
  +:+ format_date toLocaleDateString (submission_deadline o).

(** Lines 96-105: a new page when [yPos > 270], then two lines. *)
Fixpoint pdf_active_lines (opps : list Opportunity) (y : Z) : list PdfOp * Z :=
  match opps with
  | [] => ([], y)
  | o :: rest =>
      let brk := if 270 <? y then [AddPage] else [] in
      let y0 := if 270 <? y then 20 else y in
      let '(ops, y') := pdf_active_lines rest (y0 + 6 + 8) in
      (brk ++ [Text [active_line1 o] 25 y0 false; Text [active_line2 o] 27 (y0 + 6) false] ++ ops, y')
  end.

(** [activeOpps], lines 92-94: the first ten opportunities that are not
    Won or Lost. *)
Definition pdf_activeOpps (opps : list Opportunity) : list Opportunity :=
  take 10 (List.filter (fun o => negb (is_closed (status o))) opps).

(** The active section, lines 84-105. *)
Definition pdf_active_section (opps : list Opportunity) (y : Z) : list PdfOp * Z :=
  let head := [ SetFontSize 14; SetFont FontBold; Text ["Active Opportunities"] 20 y false;
                SetFontSize 10; SetFont FontNormal ] in
  let '(ops, y') := pdf_active_lines (pdf_activeOpps opps) (y + 10) in
  (head ++ ops, y').

(** Lines 127-135: a new page when [yPos > 270], then the wrapped
    recommendation. *)
Fixpoint pdf_recommendation_lines (recs : list string) (y : Z) : list PdfOp * Z :=
  match recs with
  | [] => ([], y)
  | r :: rest =>
      let brk := if 270 <? y then [AddPage] else [] in
      let y0 := if 270 <? y then 20 else y in
      let lines := splitTextToSize ("• " +:+ r) 170 in
      let '(ops, y') := pdf_recommendation_lines rest (y0 + Z.of_nat (length lines) * 6 + 4) in
      (brk ++ [Text lines 25 y0 false] ++ ops, y')
  end.

(** The recommendations, lines 107-135. *)
Definition pdf_recommendations (y : Z) : list PdfOp * Z :=
  let y1 := y + 10 in
  let brk := if 250 <? y1 then [AddPage] else [] in
  let y2 := if 250 <? y1 then 20 else y1 in
  let head := [ SetFontSize 14; SetFont FontBold; Text ["Recommendations"] 20 y2 false;
                SetFontSize 11; SetFont FontNormal ] in
  let '(ops, y') := pdf_recommendation_lines recommendations (y2 + 10) in
  (brk ++ head ++ ops, y').

(** [generatePDFReport], lines 38-139. *)
Definition generatePDFReport (st : option StatisticsSummary) (opps : list Opportunity) : list PdfOp :=
  let '(summary, y1) := pdf_summary st in
  let '(status_ops, y2) := pdf_status_section st y1 in
  let '(active_ops, y3) := pdf_active_section opps y2 in
  let '(rec_ops, _) := pdf_recommendations y3 in
  pdf_header ++ summary ++ status_ops ++ active_ops ++ rec_ops
  ++ [Save ("ABPTS_Report_" +:+ today_iso +:+ ".pdf")].

End Pdf.

(** ** Reading the document *)

(** Vertical positions are measured in units of 1/72000 mm, in which
    jsPDF's distance between two lines of one [text] call is exact: the
    font size in points times the default line-height factor 1.15, at
    25.4 mm per 72 points, is [fs * 29210 / 72000] mm. *)
Definition line_height (fs : Z) : Z := fs * 29210.

(** The baselines of every line drawn, [fs] being the font size before
    the calls: [doc.text(lines, x, y)] draws its [i]-th line at
    [y + i * line_height] with the font size set last. *)
Fixpoint baselines (fs : Z) (ops : list PdfOp) : list Z :=
  match ops with
  | [] => []
  | SetFontSize s :: rest => baselines s rest
  | Text ls _ y _ :: rest =>
      map (fun i => y * 72000 + Z.of_nat i * line_height fs) (seq 0 (length ls)) ++ baselines fs rest
  | _ :: rest => baselines fs rest
  end.

(** The font size after the calls. *)
Fixpoint font_after (fs : Z) (ops : list PdfOp) : Z :=
  match ops with
  | [] => fs
  | SetFontSize s :: rest => font_after s rest
  | _ :: rest => font_after fs rest
  end.

(** The payloads of the text calls at a given left margin. *)
Fixpoint texts_at (x : Z) (ops : list PdfOp) : list (list string) :=
  match ops with
  | [] => []
  | Text ls x' _ _ :: rest => if Z.eqb x' x then ls :: texts_at x rest else texts_at x rest
  | _ :: rest => texts_at x rest
  end.

Definition page_breaks (ops : list PdfOp) : nat :=
  length (List.filter (fun op => match op with AddPage => true | _ => false end) ops).

(** The number of entries of the status breakdown. *)
Definition n_status_keys (st : option StatisticsSummary) : nat :=
  match st with Some s => length (status_counts s) | None => 0 end.

(** A baseline inside the band the code keeps its lines in: from the top
    margin, 20 mm, to 276 mm, the last position its page-break test
    ([yPos > 270]) lets a 6 mm line reach, above the foot of the A4 page
    (297 mm). *)
Definition on_page (q : Z) : Prop := 20 * 72000 <= q <= 276 * 72000.

(** ** The workbook *)

(** A cell value of a JSON row. *)
Inductive Cell := CStr (s : string) | CNum (z : Z).

(** An object of the arrays given to [json_to_sheet]: its keys in order. *)
Definition JsonRow := list (string * Cell).

Record Sheet := mkSheet { sheet_header : list string; sheet_rows : list (list (option Cell)) }.

Fixpoint assoc (k : string) (r : JsonRow) : option Cell :=
  match r with
  | [] => None
  | (k', v) :: r' => if String.eqb k k' then Some v else assoc k r'
  end.

Definition add_key (a : list string) (k : string) : list string :=
  if bool_decide (k ∈ a) then a else a ++ [k].

(** The header of [json_to_sheet]: every key, in order of first
    appearance. *)
Fixpoint keys_union (rows : list JsonRow) (acc : list string) : list string :=
  match rows with
  | [] => acc
  | r :: rest => keys_union rest (fold_left add_key (map fst r) acc)
  end.

(** The sheet of a given name in a workbook. *)
Fixpoint lookup_sheet (name : string) (wb : list (string * Sheet)) : option Sheet :=
  match wb with
  | [] => None
  | (n, sh) :: wb' => if String.eqb name n then Some sh else lookup_sheet name wb'
  end.

(** [XLSX.utils.json_to_sheet]: the header row, then one row per object
    with the cell of each header key, empty where the object lacks it. *)
Definition json_to_sheet (rows : list JsonRow) : Sheet :=
  let hdr := keys_union rows [] in
  mkSheet hdr (map (fun r => map (fun k => assoc k r) hdr) rows).

Section Excel.

Context (toLocaleString : Z -> string) (today_iso : string).

(** One object of [oppData], lines 145-156. *)
Definition opp_row (o : Opportunity) : JsonRow :=
  [ ("Client", CStr (client o));
    ("Project Type", CStr (project_type o));
    ("RFP Release Date", CStr (rfp_release_date o));
    ("Submission Deadline", CStr (format_date toLocaleString (submission_deadline o)));
    ("Proposal Owner", CStr (proposal_owner o));
    ("Status", CStr (status_to_string (status o)));
    ("Compliance %", CNum (compliance_percentage o));
    ("Priority", CStr (priority_to_string (priority_level o)));
    ("Industry", CStr (js_or_str (industry o) "N/A"));
    ("Budget", CStr (js_or_str (budget o) "N/A")) ].

(** [statsData], lines 161-175. *)
Definition stats_rows (st : option StatisticsSummary) : list JsonRow :=
  [ [("Metric", CStr "Total Opportunities"); ("Value", CNum (stat_field st total_opportunities))];
    [("Metric", CStr "Win Rate"); ("Value", CStr (num_str (stat_field st win_rate) +:+ "%"))];
    [("Metric", CStr "Average Compliance");
     ("Value", CStr (num_str (stat_field st average_compliance) +:+ "%"))];
    [("Metric", CStr "Urgent Deadlines"); ("Value", CNum (stat_field st urgent_deadlines))] ]
  ++ match st with
     | Some s => map (fun '(k, v) => [("Metric", CStr (k +:+ " Count")); ("Value", CNum v)]) (status_counts s)
     | None => []
     end.

(** [exportToExcel], lines 141-182: the two sheets and the file name. *)
Definition exportToExcel (st : option StatisticsSummary) (opps : list Opportunity)
  : list (string * Sheet) * string :=
  ([ ("Opportunities", json_to_sheet (map opp_row opps));
     ("Statistics", json_to_sheet (stats_rows st)) ],
   "ABPTS_Data_" +:+ today_iso +:+ ".xlsx").

End Excel.

(** The ten columns of the opportunities sheet. *)
Definition opp_columns : list string :=
  [ "Client"; "Project Type"; "RFP Release Date"; "Submission Deadline"; "Proposal Owner";
    "Status"; "Compliance %"; "Priority"; "Industry"; "Budget" ].

(** ** Reading the document by sections *)

Lemma baselines_app fs a b : baselines fs (a ++ b) = baselines fs a ++ baselines (font_after fs a) b.
Proof.
  revert fs. induction a as [|op a IH]; intros fs; [reflexivity|].
  destruct op; simpl; rewrite ?IH, ?app_assoc; reflexivity.
Qed.

Lemma texts_at_app x a b : texts_at x (a ++ b) = texts_at x a ++ texts_at x b.
Proof.
  induction a as [|op a IH]; [reflexivity|].
  destruct op; simpl; rewrite ?IH; try reflexivity. destruct (Z.eqb x0 x); reflexivity.
Qed.

#[export] Hint Rewrite texts_at_app : abpts_rw.

(** Close [Forall on_page] over a concrete list of baselines by
    arithmetic. *)
Ltac forall_lia :=
  simpl; repeat (apply List.Forall_cons; [unfold on_page; cbv beta; lia|]); try apply List.Forall_nil.

Section Layout.

Context (fmt : Z -> string) (split : string -> Z -> list string) (tl ti : string).

Lemma pdf_active_lines_in_page opps y :
  20 <= y ->
  (forall fs, Forall on_page (baselines fs (fst (pdf_active_lines fmt opps y))))
  /\ 20 <= snd (pdf_active_lines fmt opps y).
Proof.
  revert y. induction opps as [|o opps IH]; intros y Hy; simpl; [split; [constructor|exact Hy]|].
  set (y0 := if 270 <? y then 20 else y).
  assert (Hy0 : 20 <= y0 <= 270) by (unfold y0; destruct (Z.ltb_spec 270 y); lia).
  destruct (IH (y0 + 6 + 8) ltac:(lia)) as [Hf Hs].
  destruct (pdf_active_lines fmt opps (y0 + 6 + 8)) as [ops y'] eqn:E. simpl in *.
  split; [|exact Hs]. intros fs. fold y0.
  destruct (270 <? y); simpl; (repeat (apply List.Forall_cons; [unfold on_page; lia|])); apply Hf.
Qed.

(** A recommendation wrapped to at most two lines, at 11 pt, from a
    cursor at most 270 stays on the page. *)
Lemma recommendation_in_page (ls : list string) y :
  20 <= y <= 270 -> (length ls <= 2)%nat ->
  Forall on_page (map (fun i => y * 72000 + Z.of_nat i * line_height 11) (seq 0 (length ls))).
Proof.
  intros Hy Hl. apply List.Forall_forall. intros q Hq. apply in_map_iff in Hq as (i & <- & Hi).
  apply in_seq in Hi. unfold on_page, line_height. lia.
Qed.

Lemma pdf_recommendation_lines_in_page recs y :
  20 <= y -> Forall (fun r => (length (split ("• " +:+ r) 170) <= 2)%nat) recs ->
  Forall on_page (baselines 11 (fst (pdf_recommendation_lines split recs y))).
Proof.
  intros Hy Hr. revert y Hy. induction Hr as [|r recs Hr1 _ IH]; intros y Hy; simpl; [constructor|].
  set (y0 := if 270 <? y then 20 else y).
  assert (Hy0 : 20 <= y0 <= 270) by (unfold y0; destruct (Z.ltb_spec 270 y); lia).
  pose proof (IH (y0 + Z.of_nat (length (split ("• " +:+ r) 170)) * 6 + 4) ltac:(lia)) as Hf.
  destruct (pdf_recommendation_lines split recs _) as [ops y'] eqn:E. simpl in *. fold y0.
  destruct (270 <? y); simpl; apply Forall_app; split; (apply recommendation_in_page; assumption) || exact Hf.
Qed.

Lemma pdf_recommendations_in_page y :
  20 <= y -> Forall (fun r => (length (split ("• " +:+ r) 170) <= 2)%nat) recommendations ->
  forall fs, Forall on_page (baselines fs (fst (pdf_recommendations split y))).
Proof.
  intros Hy Hw fs. unfold pdf_recommendations.
  destruct (Z.ltb_spec 250 (y + 10)) as [Hb|Hb];
    [pose proof (pdf_recommendation_lines_in_page recommendations (20 + 10) ltac:(lia) Hw) as Hr
    |pose proof (pdf_recommendation_lines_in_page recommendations (y + 10 + 10) ltac:(lia) Hw) as Hr];
    destruct (pdf_recommendation_lines split recommendations _) as [ops y'];
    simpl; (repeat (apply List.Forall_cons; [unfold on_page; lia|])); exact Hr.
Qed.

Lemma pdf_status_lines_shape counts y :
  (forall fs, Forall (fun z => y * 72000 <= z < (y + 8 * Z.of_nat (length counts)) * 72000)
                     (baselines fs (fst (pdf_status_lines counts y))))
  /\ snd (pdf_status_lines counts y) = y + 8 * Z.of_nat (length counts).
Proof.
  revert y. induction counts as [|[k v] counts IH]; intros y; simpl; [split; [constructor|lia]|].
  destruct (IH (y + 8)) as [Hf Hs].
  destruct (pdf_status_lines counts (y + 8)) as [ops y'] eqn:E. simpl in *.
  split; [|lia]. intros fs. constructor; [lia|].
  eapply Forall_impl; [exact (Hf fs)|]. simpl. intros z Hz. lia.
Qed.

Lemma pdf_status_section_in_page st y :
  20 <= y -> y + 10 + 8 * Z.of_nat (n_status_keys st) <= 276 ->
  (forall fs, Forall on_page (baselines fs (fst (pdf_status_section st y))))
  /\ snd (pdf_status_section st y) = y + 20 + 8 * Z.of_nat (n_status_keys st).
Proof.
  intros Hy Hb. unfold pdf_status_section, n_status_keys in *.
  destruct st as [s|].
  - destruct (pdf_status_lines_shape (status_counts s) (y + 10)) as [Hf Hs].
    destruct (pdf_status_lines (status_counts s) (y + 10)) as [ops y'] eqn:E. simpl in *.
    split; [|lia]. intros fs. constructor; [unfold on_page; lia|].
    eapply Forall_impl; [exact (Hf 11)|]. unfold on_page. intros z Hz. lia.
  - simpl. split; [intros fs; constructor; [unfold on_page; lia|constructor]|lia].
Qed.

Lemma texts_at_status_lines x counts y :
  x <> 25 -> texts_at x (fst (pdf_status_lines counts y)) = [].
Proof.
  intros Hx. revert y. induction counts as [|[k v] counts IH]; intros y; simpl; [reflexivity|].
  specialize (IH (y + 8)). destruct (pdf_status_lines counts (y + 8)) as [ops y'] eqn:E.
  cbn [fst snd texts_at app] in *. destruct (Z.eqb_spec 25 x); [lia|exact IH].
Qed.

Lemma texts_at_recommendation_lines x recs y :
  x <> 25 -> texts_at x (fst (pdf_recommendation_lines split recs y)) = [].
Proof.
  intros Hx. revert y. induction recs as [|r recs IH]; intros y; simpl; [reflexivity|].
  destruct (pdf_recommendation_lines split recs _) as [ops y'] eqn:E.
  specialize (IH (((if 270 <? y then 20 else y) + Z.of_nat (length (split ("• " +:+ r) 170)) * 6 + 4))).
  rewrite E in IH. cbn [fst snd texts_at app] in *. rewrite texts_at_app.
  destruct (270 <? y); cbn [texts_at app]; destruct (Z.eqb_spec 25 x); try lia; exact IH.
Qed.

Lemma texts_at_active_lines opps y :
  texts_at 27 (fst (pdf_active_lines fmt opps y)) = map (fun o => [active_line2 fmt o]) opps /\
  texts_at 20 (fst (pdf_active_lines fmt opps y)) = [].
Proof.
  revert y. induction opps as [|o opps IH]; intros y; simpl; [split; reflexivity|].
  destruct (IH ((if 270 <? y then 20 else y) + 6 + 8)) as [H27 H20].
  destruct (pdf_active_lines fmt opps _) as [ops y'] eqn:E. cbn [fst snd texts_at app] in *.
  rewrite !texts_at_app. destruct (270 <? y); cbn [texts_at app Z.eqb]; rewrite H27, H20; split; reflexivity.
Qed.

Lemma texts_at_status_section x st y :
  x <> 25 -> x <> 20 -> texts_at x (fst (pdf_status_section st y)) = [].
Proof.
  intros H25 H20. unfold pdf_status_section. destruct st as [s|]; cbn [fst texts_at app].
  - pose proof (texts_at_status_lines x (status_counts s) (y + 10) H25) as H.
    destruct (pdf_status_lines (status_counts s) (y + 10)) as [ops y'] eqn:E. cbn [fst snd texts_at app] in *.
    destruct (Z.eqb_spec 20 x); [lia|exact H].
  - cbn [texts_at]. destruct (Z.eqb_spec 20 x); [lia|reflexivity].
Qed.

Lemma texts_at_status_section_20 st y :
  texts_at 20 (fst (pdf_status_section st y)) = [["Opportunities by Status"]].
Proof.
  unfold pdf_status_section. destruct st as [s|]; cbn [fst texts_at app]; [|reflexivity].
  pose proof (texts_at_status_lines 20 (status_counts s) (y + 10) ltac:(lia)) as H.
  destruct (pdf_status_lines (status_counts s) (y + 10)) as [ops y'] eqn:E. cbn [fst snd texts_at app] in *.
  rewrite H. reflexivity.
Qed.

(** C13: every line of the PDF report, each line of a wrapped text
    included, is drawn between the top margin (20 mm) and 276 mm, whatever
    the opportunities, provided the status breakdown has at most 20
    entries (that section is not paginated) and each recommendation wraps
    to at most two lines (a third line drawn from the cursor 270 would
    reach 278.9 mm: [three_line_overflow]). *)
Theorem pdf_within_page st opps :
  (n_status_keys st <= 20)%nat ->
  Forall (fun r => (length (split ("• " +:+ r) 170) <= 2)%nat) recommendations ->
  Forall on_page (baselines 16 (generatePDFReport fmt split tl ti st opps)).
Proof.
  intros Hk Hw. unfold generatePDFReport, pdf_summary.
  destruct (pdf_status_section_in_page st 94 ltac:(lia) ltac:(lia)) as [Hs Hy2].
  destruct (pdf_status_section st 94) as [status_ops y2] eqn:E2. simpl in Hs, Hy2.
  unfold pdf_active_section.
  destruct (pdf_active_lines_in_page (pdf_activeOpps opps) (y2 + 10) ltac:(lia)) as [Ha Hy3].
  destruct (pdf_active_lines fmt (pdf_activeOpps opps) (y2 + 10)) as [active_ops y3] eqn:E3.
  simpl in Ha, Hy3.
  pose proof (pdf_recommendations_in_page y3 Hy3 Hw) as Hr.
  destruct (pdf_recommendations split y3) as [rec_ops y5] eqn:E5. simpl in Hr.
  rewrite !baselines_app, !Forall_app.
  repeat split; try apply Hs; try apply Ha; try apply Hr.
  all: unfold pdf_header; solve [forall_lia].
Qed.

(** C14: the active-opportunities section lists, in the order of the
    collection, exactly the first ten opportunities that are not Won or
    Lost (Submitted ones included), one status-and-deadline line each,
    however the pages break. *)
Theorem pdf_active_listing st opps :
  texts_at 27 (generatePDFReport fmt split tl ti st opps)
  = map (fun o => [active_line2 fmt o]) (take 10 (List.filter (fun o => negb (is_closed (status o))) opps)).
Proof.
  unfold generatePDFReport, pdf_summary.
  pose proof (texts_at_status_section 27 st 94 ltac:(lia) ltac:(lia)) as Hs.
  destruct (pdf_status_section st 94) as [status_ops y2] eqn:E2. cbn [fst snd] in Hs.
  unfold pdf_active_section.
  destruct (texts_at_active_lines (pdf_activeOpps opps) (y2 + 10)) as [Ha _].
  destruct (pdf_active_lines fmt (pdf_activeOpps opps) (y2 + 10)) as [active_ops y3] eqn:E3.
  cbn [fst snd] in Ha.
  unfold pdf_recommendations.
  pose proof (texts_at_recommendation_lines 27 recommendations
                ((if 250 <? y3 + 10 then 20 else y3 + 10) + 10) ltac:(lia)) as Hr.
  destruct (pdf_recommendation_lines split recommendations _) as [rec_ops y5] eqn:E5.
  cbn [fst snd] in Hr.
  rewrite !texts_at_app, Hs, Ha, Hr. unfold pdf_activeOpps.
  destruct (250 <? y3 + 10); simpl; rewrite ?app_nil_r; reflexivity.
Qed.

(** the section titles and the executive-summary lines are drawn
    once each, in this order, at the left margin, whatever the input and
    the pagination: a section that continues on a new page does not repeat
    its title. *)
Theorem pdf_titles_once st opps :
  texts_at 20 (generatePDFReport fmt split tl ti st opps)
  = [ ["Executive Summary"];
      ["Total Opportunities: " +:+ num_str (stat_field st total_opportunities)];
      ["Win Rate: " +:+ num_str (stat_field st win_rate) +:+ "%"];
      ["Average Compliance: " +:+ num_str (stat_field st average_compliance) +:+ "%"];
      ["Urgent Deadlines: " +:+ num_str (stat_field st urgent_deadlines)];
      ["Opportunities by Status"]; ["Active Opportunities"]; ["Recommendations"] ].
Proof.
  unfold generatePDFReport, pdf_summary.
  pose proof (texts_at_status_section_20 st 94) as Hs.
  destruct (pdf_status_section st 94) as [status_ops y2] eqn:E2. cbn [fst snd] in Hs.
  unfold pdf_active_section.
  destruct (texts_at_active_lines (pdf_activeOpps opps) (y2 + 10)) as [_ Ha].
  destruct (pdf_active_lines fmt (pdf_activeOpps opps) (y2 + 10)) as [active_ops y3] eqn:E3.
  cbn [fst snd] in Ha.
  unfold pdf_recommendations.
  pose proof (texts_at_recommendation_lines 20 recommendations
                ((if 250 <? y3 + 10 then 20 else y3 + 10) + 10) ltac:(lia)) as Hr.
  destruct (pdf_recommendation_lines split recommendations _) as [rec_ops y5] eqn:E5.
  cbn [fst snd] in Hr.
  rewrite !texts_at_app, Hs, Ha, Hr.
  destruct (250 <? y3 + 10); reflexivity.
Qed.

End Layout.

(** ** Workbook lemmas *)

Lemma add_keys_fresh K acc :
  NoDup (acc ++ K) -> fold_left add_key K acc = acc ++ K.
Proof.
  revert acc. induction K as [|k K IH]; intros acc Hnd; simpl; [by rewrite app_nil_r|].
  unfold add_key at 2. rewrite bool_decide_false.
  - rewrite IH; [by rewrite <- app_assoc|]. by rewrite <- app_assoc.
  - intros Hin. apply NoDup_app in Hnd as (_ & Hdis & _). apply (Hdis k Hin). left.
Qed.

Lemma add_keys_known K acc :
  (forall k, k ∈ K -> k ∈ acc) -> fold_left add_key K acc = acc.
Proof.
  revert acc. induction K as [|k K IH]; intros acc Hsub; simpl; [reflexivity|].
  unfold add_key at 2. rewrite bool_decide_true by (apply Hsub; left).
  apply IH. intros k' Hk'. apply Hsub. right. exact Hk'.
Qed.

Lemma keys_union_uniform K rows acc :
  Forall (fun r => map fst r = K) rows -> (forall k, k ∈ K -> k ∈ acc) -> keys_union rows acc = acc.
Proof.
  revert acc. induction rows as [|r rows IH]; intros acc Hall Hsub; simpl; [reflexivity|].
  apply Forall_cons in Hall as [Hr Hall]. rewrite Hr, add_keys_known by exact Hsub.
  apply IH; assumption.
Qed.

Lemma json_to_sheet_uniform K rows :
  NoDup K -> rows <> [] -> Forall (fun r => map fst r = K) rows ->
  json_to_sheet rows = mkSheet K (map (fun r => map (fun k => assoc k r) K) rows).
Proof.
  intros Hnd Hne Hall. unfold json_to_sheet.
  assert (keys_union rows [] = K) as ->; [|reflexivity].
  destruct rows as [|r rows]; [contradiction|]. cbn [keys_union].
  apply Forall_cons in Hall as [Hr Hall]. rewrite Hr.
  rewrite (add_keys_fresh K []) by exact Hnd. simpl.
  apply (keys_union_uniform K); [exact Hall|]. intros k Hk; exact Hk.
Qed.

Lemma assoc_cells (r : JsonRow) :
  NoDup (map fst r) -> map (fun k => assoc k r) (map fst r) = map (fun kv => Some (snd kv)) r.
Proof.
  induction r as [|[k v] r IH]; intros Hnd; simpl; [reflexivity|].
  rewrite String.eqb_refl. f_equal.
  apply NoDup_cons in Hnd as [Hk Hnd]. rewrite <- IH by exact Hnd.
  apply map_ext_in. intros k' Hk'. simpl.
  destruct (String.eqb_spec k' k) as [->|]; [|reflexivity].
  exfalso. apply Hk. apply list_elem_of_In. exact Hk'.
Qed.

Lemma opp_columns_nodup : NoDup opp_columns.
Proof. apply NoDup_ListNoDup. repeat constructor; simpl; intuition discriminate. Qed.

Lemma js_or_str_na o : js_or_str o "N/A" = "N/A" <-> o = None \/ o = Some "" \/ o = Some "N/A".
Proof.
  unfold js_or_str. destruct o as [s|]; [|tauto].
  destruct (String.eqb_spec s ""); split; intros H; subst; auto.
  - destruct H as [H|[H|H]]; congruence.
Qed.

(** C15: the "Opportunities" sheet has the ten named columns and one row
    per opportunity, in the order of the collection, every cell present;
    the Industry and Budget cells read ["N/A"] exactly when the field is
    missing or empty (or is itself ["N/A"]). *)
Theorem excel_opportunities_sheet fmt iso st opps :
  (opps <> [] ->
   lookup_sheet "Opportunities" (fst (exportToExcel fmt iso st opps)) = Some
     (mkSheet opp_columns (map (fun o => map (fun kv => Some (snd kv)) (opp_row fmt o)) opps))) /\
  (forall o, assoc "Industry" (opp_row fmt o) = Some (CStr "N/A") <->
             industry o = None \/ industry o = Some "" \/ industry o = Some "N/A") /\
  (forall o, assoc "Budget" (opp_row fmt o) = Some (CStr "N/A") <->
             budget o = None \/ budget o = Some "" \/ budget o = Some "N/A").
Proof.
  split; [|split].
  - intros Hne. simpl. f_equal.
    rewrite (json_to_sheet_uniform opp_columns); [|exact opp_columns_nodup| |].
    + f_equal. rewrite List.map_map. apply map_ext. intros o.
      change opp_columns with (map fst (opp_row fmt o)). apply assoc_cells.
      change (map fst (opp_row fmt o)) with opp_columns. exact opp_columns_nodup.
    + destruct opps; [contradiction|discriminate].
    + apply Forall_forall. intros r Hr. apply list_elem_of_fmap in Hr as [o [-> _]]. reflexivity.
  - intros o. simpl. rewrite <- js_or_str_na. split; [congruence|intros ->; reflexivity].
  - intros o. simpl. rewrite <- js_or_str_na. split; [congruence|intros ->; reflexivity].
Qed.

Lemma stats_rows_keys st : Forall (fun r => map fst r = ["Metric"; "Value"]) (stats_rows st).
Proof.
  unfold stats_rows. apply Forall_app. split; [repeat constructor|].
  destruct st as [s|]; [|constructor].
  apply Forall_forall. intros r Hr. apply list_elem_of_fmap in Hr as [[k v] [-> _]]. reflexivity.
Qed.

(** the "Statistics" sheet has the columns Metric and Value, the
    four summary rows followed by one row per entry of [status_counts], in
    its order, labelled ["<Status> Count"]. *)
Theorem excel_statistics_sheet fmt iso st opps :
  lookup_sheet "Statistics" (fst (exportToExcel fmt iso st opps)) =
  Some (mkSheet ["Metric"; "Value"]
          (map (fun r => [assoc "Metric" r; assoc "Value" r]) (stats_rows st))) /\
  length (stats_rows st) = (4 + n_status_keys st)%nat /\
  map (assoc "Metric") (drop 4 (stats_rows st))
  = map (fun kv => Some (CStr (fst kv +:+ " Count")))
        (match st with Some s => status_counts s | None => [] end).
Proof.
  split; [|split].
  - simpl. f_equal. apply json_to_sheet_uniform; [|discriminate|apply stats_rows_keys].
    apply NoDup_ListNoDup. repeat constructor; simpl; intuition discriminate.
  - unfold stats_rows, n_status_keys. rewrite length_app. destruct st as [s|]; simpl; [|reflexivity].
    rewrite length_map. reflexivity.
  - unfold stats_rows. destruct st as [s|]; [|reflexivity]. cbn [drop app].
    rewrite drop_0, List.map_map. apply map_ext. intros [k v]. reflexivity.
Qed.

(** The tabular example of the specification: Acme and Globex give two
    data rows, and Globex's unset industry reads ["N/A"]. *)
Example spec_tabular_export :
  let acme := sample_opp "Acme" Review (Some 36000000) in
  let globex := sample_opp "Globex" Won (Some (-360000000)) in
  option_map (fun sh => length (sheet_rows sh))
    (lookup_sheet "Opportunities" (fst (exportToExcel (fun _ => "d") "2024-01-01" None [acme; globex])))
  = Some 2%nat /\
  option_map (fun sh => map (fun row => nth 8 row None) (sheet_rows sh))
    (lookup_sheet "Opportunities" (fst (exportToExcel (fun _ => "d") "2024-01-01" None [acme; globex])))
  = Some [Some (CStr "N/A"); Some (CStr "N/A")].
Proof. split; vm_compute; reflexivity. Qed.

Lemma excel_opportunities_sheet_witness :
  [sample_opp "Acme" Review None] <> [] /\
  lookup_sheet "Opportunities"
    (fst (exportToExcel (fun _ => "d") "2024-01-01" None [sample_opp "Acme" Review None])) =
  Some (mkSheet opp_columns
          (map (fun o => map (fun kv => Some (snd kv)) (opp_row (fun _ => "d") o))
               [sample_opp "Acme" Review None])).
Proof.
  split; [discriminate|].
  apply (excel_opportunities_sheet (fun _ => "d") "2024-01-01" None). discriminate.
Defined.

Lemma pdf_within_page_witness :
  (n_status_keys (Some (summarize 0 [sample_opp "Acme" Review None])) <= 20)%nat /\
  Forall (fun r => (length ((fun s _ => [s]) ("• " +:+ r) 170) <= 2)%nat) recommendations /\
  Forall on_page (baselines 16 (generatePDFReport (fun _ => "d") (fun s _ => [s]) "today" "2024-01-01"
                                  (Some (summarize 0 [sample_opp "Acme" Review None]))
                                  [sample_opp "Acme" Review None])).
Proof.
  assert (H : (n_status_keys (Some (summarize 0 [sample_opp "Acme" Review None])) <= 20)%nat)
    by (vm_compute; lia).
  assert (Hw : Forall (fun r => (length ((fun s _ => [s]) ("• " +:+ r) 170) <= 2)%nat) recommendations)
    by (repeat constructor).
  split; [exact H|split; [exact Hw|]]. apply pdf_within_page; [exact H|exact Hw].
Defined.

(** A recommendation wrapped to three lines from the cursor 270 draws its
    third line at 278.9 mm, below the band. *)
Example three_line_overflow :
  exists q, In q (baselines 11 (fst (pdf_recommendation_lines (fun s _ => [s; s; s]) ["r"] 270)))
            /\ ~ on_page q.
Proof. exists (270 * 72000 + 2 * line_height 11). split; [vm_compute; auto|unfold on_page, line_height; lia]. Qed.

(** The empty portfolio of the specification: the report still has its
    header and an all-zero executive summary, and no active
    opportunity. *)
Example spec_empty_report :
  texts_at 20 (generatePDFReport (fun _ => "d") (fun s _ => [s]) "today" "2024-01-01"
                 (Some (summarize 0 [])) [])
  = [ ["Executive Summary"]; ["Total Opportunities: 0"]; ["Win Rate: 0%"];
      ["Average Compliance: 0%"]; ["Urgent Deadlines: 0"];
      ["Opportunities by Status"]; ["Active Opportunities"]; ["Recommendations"] ] /\
  texts_at 27 (generatePDFReport (fun _ => "d") (fun s _ => [s]) "today" "2024-01-01"
                 (Some (summarize 0 [])) []) = [].
Proof. split; vm_compute; reflexivity. Qed.
