(* ===== verification/ReportsPage.v ===== *)
(** * ReportsPage: the reports page around its two generators ([Reports.jsx])

    The page loads the statistics and the opportunities with
    [Promise.all] (lines 22-36), then shows four metric cards (218-263),
    the status bars (modelled in [Statistics]), the urgent action items
    (303-320), the compliance analysis of the first five opportunities
    (336-350) and four recommendations (360-400).

    The urgent list is filtered with the instant [now] of line 191, but
    each row computes its hours with its own [new Date()] (line 309),
    taken when the row renders, so later: [urgent_rows] takes both
    instants.  [Math.floor] of the double quotient is the floor of the
    exact quotient here, since a difference of milliseconds below 48 hours
    divided by 3600000 is never rounded onto an integer from below. *)

From stdpp Require Import base list strings.
From Stdlib Require Import ZArith QArith.
From S2P Require Import Prelude Entities Store Urgency Compliance Statistics Reports.

Local Open Scope Z_scope.

Module ReportsPage.

(** The page's state, lines 14-16. *)
Record Page := mkPage {
  rp_statistics : option StatisticsSummary;
  rp_opportunities : list Opportunity;
  rp_loading : bool;
  rp_toasts : list Toast
}.

Definition init : Page := mkPage None [] true [].

(** [loadData], lines 22-36: both results or neither. *)
Definition loadData (stats : Z -> list Opportunity -> StatisticsSummary)
  (ok : bool) (now : Z) (s : Store) (p : Page) : Page :=
  if ok then mkPage (Some (stats now (st_opportunities s))) (st_opportunities s) false (rp_toasts p)
  else mkPage (rp_statistics p) (rp_opportunities p) false
              (rp_toasts p ++ [ToastError "Failed to load report data"]).

(** [statistics?.status_counts?.<key> || 0], lines 237 and 390. *)
Definition status_count_or0 (st : option StatisticsSummary) (k : string) : Z :=
  js_or_num (st ≫= fun st => lookup_count k (status_counts st)) 0.

Record Metrics := mkMetrics {
  m_total : Z;
  m_active : nat;
  m_win_rate : Z;
  m_won : Z;
  m_lost : Z;
  m_average_compliance : Z;
  m_urgent : nat
}.

(** The four metric cards, lines 218-263, at the instant [now] of the
    urgent filter (line 191). *)
Definition metrics (now : Z) (p : Page) : Metrics :=
  mkMetrics (stat_field (rp_statistics p) total_opportunities)
            (length (reports_activeOpportunities (rp_opportunities p)))
            (stat_field (rp_statistics p) win_rate)
            (status_count_or0 (rp_statistics p) "Won")
            (status_count_or0 (rp_statistics p) "Lost")
            (stat_field (rp_statistics p) average_compliance)
            (length (reports_urgentOpportunities now (rp_opportunities p))).

(** [Math.floor((deadline - now) / (1000 * 60 * 60))], line 310; NaN for an
    Invalid Date. *)
Definition floor_hours (deadline : js_date) (now : Z) : option Z :=
  match deadline with
  | Some d => Some ((d - now) / ms_per_hour)
  | None => None
  end.

(** The urgent action items, lines 303-320: the first five urgent
    opportunities filtered at [now_filter], each with its hours computed
    at [now_render]. *)
Definition urgent_rows (now_filter now_render : Z) (opps : list Opportunity)
  : list (Opportunity * option Z) :=
  map (fun o => (o, floor_hours (submission_deadline o) now_render))
      (take 5 (reports_urgentOpportunities now_filter opps)).

(** The compliance analysis, lines 336-350: client, stored percentage and
    its bucket for the first five opportunities. *)
Definition compliance_rows (opps : list Opportunity) : list (string * Z * ComplianceBucket) :=
  map (fun o => (client o, compliance_percentage o, compliance_bucket (compliance_percentage o)))
      (take 5 opps).

(** The texts of the four recommendations, lines 360-400. *)
Definition recommendation_texts (now : Z) (p : Page) : list string :=
  [num_str (Z.of_nat (length (reports_urgentOpportunities now (rp_opportunities p))))
     +:+ " opportunities have deadlines within 48 hours";
   "Average compliance is at " +:+ num_str (stat_field (rp_statistics p) average_compliance)
     +:+ "% - aim for 90%+";
   num_str (status_count_or0 (rp_statistics p) "Drafting")
     +:+ " opportunities in drafting stage need attention";
   "Regularly check bid portals for RFP updates and clarifications"].

End ReportsPage.

(** ** Lemmas *)

Import ReportsPage.

Lemma stat_field_some st f : stat_field (Some st) f = f st.
Proof. unfold stat_field, js_or_num. simpl. destruct (Z.eqb_spec (f st) 0); congruence. Qed.

Lemma active_count opps :
  (length (reports_activeOpportunities opps)
   + count_if (fun o => bool_decide (status o = Won)) opps
   + count_if (fun o => bool_decide (status o = Lost)) opps)%nat = length opps.
Proof.
  induction opps as [|o opps IH]; [reflexivity|].
  unfold reports_activeOpportunities in *. simpl. rewrite !count_if_cons.
  destruct (status o); simpl; lia.
Qed.

Section AgainstService.
Context `{StatisticsService}.

Lemma status_count_service now opps st :
  status_count_or0 (Some (stats_of now opps)) (status_to_string st)
  = Z.of_nat (count_if (fun o => bool_decide (status o = st)) opps).
Proof.
  unfold status_count_or0. simpl. rewrite stats_count. cbv zeta.
  destruct (Nat.eqb_spec (count_if (fun o => bool_decide (status o = st)) opps) 0) as [E|E].
  - rewrite E. reflexivity.
  - unfold js_or_num. destruct (Z.eqb_spec (Z.of_nat (count_if (fun o => bool_decide (status o = st)) opps)) 0);
      [lia|reflexivity].
Qed.

(** C34: after a successful load, for any service satisfying the
    statistics interface, the metric cards show the number of
    opportunities, the service's win rate and average compliance, the
    numbers of Won and of Lost opportunities, the remaining ones as
    active, and the urgent count of the page's own filter; in particular
    won, lost and active add up to the total. *)
Theorem reports_metrics_service now s p :
  let opps := st_opportunities s in
  let nW := count_if (fun o => bool_decide (status o = Won)) opps in
  let nL := count_if (fun o => bool_decide (status o = Lost)) opps in
  metrics now (loadData stats_of true now s p)
  = mkMetrics (Z.of_nat (length opps)) (length opps - nW - nL)%nat
              (win_rate (stats_of now opps)) (Z.of_nat nW) (Z.of_nat nL)
              (average_compliance (stats_of now opps))
              (length (reports_urgentOpportunities now opps)).
Proof.
  cbv zeta. unfold metrics, loadData. cbn [rp_statistics rp_opportunities].
  rewrite !stat_field_some, stats_total.
  rewrite (status_count_service now _ Won), (status_count_service now _ Lost).
  pose proof (active_count (st_opportunities s)). f_equal. lia.
Qed.

End AgainstService.

Lemma urgent_rows_in now_filter now_render opps o h :
  In (o, h) (urgent_rows now_filter now_render opps) ->
  h = floor_hours (submission_deadline o) now_render /\
  In o opps /\ is_closed (status o) = false /\ reports_in_window now_filter o = true.
Proof.
  unfold urgent_rows. rewrite in_map_iff. intros [o' [Heq Hin]]. injection Heq as <- <-.
  apply In_take in Hin. unfold reports_urgentOpportunities, reports_activeOpportunities in Hin.
  apply filter_In in Hin as [Hin Hw]. apply filter_In in Hin as [Hin Hc].
  apply negb_true_iff in Hc. auto.
Qed.

(** C35: every urgent action item shows a whole number of hours of at
    most 48, and it is negative exactly when its deadline passed between
    the filter's instant and the row's: the page can list an item as due
    within 48 hours and show "-1h remaining" ([urgent_row_overdue]).  At
    most five items are shown. *)
Theorem urgent_rows_hours now_filter now_render opps o h :
  now_filter <= now_render -> In (o, h) (urgent_rows now_filter now_render opps) ->
  exists d k, submission_deadline o = Some d /\ h = Some k /\ k <= 48 /\ (0 <= k <-> now_render <= d).
Proof.
  intros Hle Hin. apply urgent_rows_in in Hin as (-> & _ & _ & Hw).
  unfold reports_in_window in Hw. destruct (submission_deadline o) as [d|] eqn:E; [|discriminate].
  rewrite num_le_hours, num_gt_hours in Hw. apply andb_prop in Hw as [H48 H0].
  apply Z.leb_le in H48. apply negb_true_iff, Z.leb_gt in H0.
  exists d, ((d - now_render) / ms_per_hour). simpl. unfold ms_per_hour in *.
  split; [reflexivity|split; [reflexivity|split]].
  - apply Z.div_le_upper_bound; lia.
  - split; intros Hk.
    + destruct (Z.le_gt_cases now_render d) as [|Hlt]; [assumption|].
      assert ((d - now_render) / (1000 * 60 * 60) < 0) by (apply Z.div_lt_upper_bound; lia). lia.
    + apply Z.div_pos; lia.
Qed.

Lemma urgent_rows_length now_filter now_render opps :
  (length (urgent_rows now_filter now_render opps) <= 5)%nat.
Proof. unfold urgent_rows. rewrite length_map. apply firstn_le_length. Qed.

Example urgent_row_overdue :
  urgent_rows 0 2 [sample_opp "Acme" Review (Some 1)] = [(sample_opp "Acme" Review (Some 1), Some (-1))].
Proof. reflexivity. Qed.

Lemma reports_metrics_service_witness :
  metrics 0 (loadData (@stats_of summarize_service) true 0
                      (post_opportunity empty_store (sample_opp "Acme" Won None)) init)
  = mkMetrics 1 0 100 1 0 0 0.
Proof.
  rewrite (@reports_metrics_service summarize_service). reflexivity.
Defined.

Lemma urgent_rows_hours_witness :
  0 <= 2 /\ In (sample_opp "Acme" Review (Some 1), Some (-1)) (urgent_rows 0 2 [sample_opp "Acme" Review (Some 1)]) /\
  exists d k, submission_deadline (sample_opp "Acme" Review (Some 1)) = Some d /\ Some (-1) = Some k /\
              k <= 48 /\ (0 <= k <-> 2 <= d).
Proof.
  assert (Hin : In (sample_opp "Acme" Review (Some 1), Some (-1)) (urgent_rows 0 2 [sample_opp "Acme" Review (Some 1)]))
    by (left; reflexivity).
  split; [lia|split; [exact Hin|]]. exact (urgent_rows_hours 0 2 _ _ _ ltac:(lia) Hin).
Defined.
