(* ===== verification/Documents.v ===== *)
(** * Documents: the document manager and its version labels

    [DocumentManager.jsx] keeps, for one opportunity, the documents it
    last loaded ([documents]), the upload form ([formData]) and the dialog
    flag.  Its handlers:

    - [loadData] (lines 33-47): fetch the opportunity and its documents;
    - [handleSubmit] (lines 49-77): compute the version label
      [V<n>] with [n - 1] the number of loaded documents of the same name,
      post the document, close the dialog, reset the form, start a reload
      ([loadData()], not awaited), then post a "Document Upload" activity;
    - [handleDelete] (lines 79-90): after confirmation, delete and reload;
    - [groupDocumentsByCategory] (lines 100-109): the documents grouped by
      category, categories in order of first appearance.

    The page and the store form the state of [doc_step], one event per
    handler (the dialog's trigger, each input, close and submit, gated
    by the browser's validation of the [required] inputs) and one for
    the arrival of a reload.  Because the reload is
    not awaited, a second upload can be submitted before it arrives, with
    the labels computed from the stale list: the event sequence makes that
    interleaving explicit. *)

From stdpp Require Import base list strings.
From Stdlib Require Import ZArith Ascii.
From S2P Require Import Prelude Entities Store Urgency.

Module DocumentManager.

(** ** The page *)

Record DocForm := mkDocForm {
  form_document_name : string;
  form_category : Category;
  form_uploaded_by : string
}.

(** The initial form and [resetForm], lines 23-27 and 92-98. *)
Definition emptyDocForm : DocForm := mkDocForm "" Proposal "".

Record DocPage := mkDocPage {
  dp_id : string;
  dp_documents : list Document.t;
  dp_form : DocForm;
  dp_dialog : bool;
  dp_toasts : list Toast;
  dp_opportunity : option Opportunity;
  dp_loading : bool
}.

(** The label of the [n]-th version. *)
Definition version_label (n : nat) : string := "V" +:+ show_nat n.

(** The number of a label ["V<n>"]. *)
Definition parse_version (v : string) : option nat :=
  match v with
  | String c rest => if Ascii.eqb c "V"%char then parse_nat rest else None
  | EmptyString => None
  end.

(** [documents.filter(doc => doc.document_name === name)], line 53. *)
Definition same_name (name : string) (d : Document.t) : bool :=
  String.eqb (Document.document_name d) name.

(** [`V${sameCategoryDocs.length + 1}`], lines 53-54. *)
Definition nextVersion (documents : list Document.t) (name : string) : string :=
  version_label (S (count_if (same_name name) documents)).

(** The activity description, line 70. *)
Definition upload_description (f : DocForm) (version : string) : string :=
  form_document_name f +:+ " (" +:+ version +:+ ") uploaded to " +:+ category_to_string (form_category f).

(** [loadData], lines 33-47, when its requests resolve.  The GET of the
    opportunity answers 404 when the record is gone, which rejects the
    [Promise.all] as a network failure does; then nothing is set.  The
    [finally] clears the loading flag on both paths. *)
Definition loadData (ok : bool) (p : DocPage) (s : Store) : DocPage :=
  match (if ok then get_opportunity s (dp_id p) else None) with
  | Some o => mkDocPage (dp_id p) (documents_of s (dp_id p)) (dp_form p) (dp_dialog p) (dp_toasts p)
                        (Some o) false
  | None => mkDocPage (dp_id p) (dp_documents p) (dp_form p) (dp_dialog p)
                      (dp_toasts p ++ [ToastError "Failed to load documents"]) (dp_opportunity p) false
  end.

(** [handleSubmit], lines 49-77, with the outcome of the document post and
    of the activity post.  The reload it starts arrives as a separate
    event. *)
Definition handleSubmit (ok_post ok_act : bool) (p : DocPage) (s : Store) : DocPage * Store :=
  let f := dp_form p in
  let version := nextVersion (dp_documents p) (form_document_name f) in
  if ok_post then
    let s1 := post_document s (Document.mk "" (dp_id p) (form_document_name f) (form_category f)
                                           (form_uploaded_by f) version) in
    let toasts1 := dp_toasts p ++ [ToastSuccess "Document added successfully"] in
    let p1 := mkDocPage (dp_id p) (dp_documents p) emptyDocForm false toasts1 (dp_opportunity p) (dp_loading p) in
    if ok_act then
      (p1, post_activity s1 (Activity.mk (dp_id p) "Document Upload" (upload_description f version)
                                          (form_uploaded_by f)))
    else
      (mkDocPage (dp_id p) (dp_documents p) emptyDocForm false
                 (toasts1 ++ [ToastError "Failed to add document"]) (dp_opportunity p) (dp_loading p), s1)
  else
    (mkDocPage (dp_id p) (dp_documents p) f (dp_dialog p)
               (dp_toasts p ++ [ToastError "Failed to add document"]) (dp_opportunity p) (dp_loading p), s).

(** [handleDelete], lines 79-90, with the user's answer to the
    confirmation and the outcome of the request. *)
Definition handleDelete (doc_id : string) (confirmed ok : bool) (p : DocPage) (s : Store)
  : DocPage * Store :=
  if confirmed then
    if ok then
      (mkDocPage (dp_id p) (dp_documents p) (dp_form p) (dp_dialog p)
                 (dp_toasts p ++ [ToastSuccess "Document deleted successfully"]) (dp_opportunity p) (dp_loading p),
       delete_document s doc_id)
    else
      (mkDocPage (dp_id p) (dp_documents p) (dp_form p) (dp_dialog p)
                 (dp_toasts p ++ [ToastError "Failed to delete document"]) (dp_opportunity p) (dp_loading p), s)
  else (p, s).

(** The dialog's inputs, each with its handler
    [setFormData({...formData, <field>: value})], lines 151, 158 and 177. *)
Inductive DocInput :=
| InDocumentName (v : string)
| InCategory (c : Category)
| InUploadedBy (v : string).

Definition doc_input (i : DocInput) (f : DocForm) : DocForm :=
  match i with
  | InDocumentName v => mkDocForm v (form_category f) (form_uploaded_by f)
  | InCategory c => mkDocForm (form_document_name f) c (form_uploaded_by f)
  | InUploadedBy v => mkDocForm (form_document_name f) (form_category f) v
  end.

(** The browser's constraint validation before [onSubmit]: the
    [required] name and uploader, lines 153 and 178. *)
Definition doc_form_valid (f : DocForm) : bool :=
  negb (String.eqb (form_document_name f) "") && negb (String.eqb (form_uploaded_by f) "").

(** ** Events *)

Inductive DocEvent :=
| EvOpen                                     (** "Add Document", lines 131-136 *)
| EvInput (i : DocInput)                     (** the form's [onChange] handlers *)
| EvClose                                    (** [onOpenChange(false)] or Cancel, lines 130, 185 *)
| EvSubmit (ok_post ok_act : bool)           (** the form's [onSubmit] in the open dialog, line 145 *)
| EvReload (ok : bool)                       (** a [loadData] resolves *)
| EvDelete (doc_id : string) (confirmed ok : bool).  (** [handleDelete] *)

Definition doc_step (e : DocEvent) (ps : DocPage * Store) : DocPage * Store :=
  let '(p, s) := ps in
  match e with
  | EvOpen => (mkDocPage (dp_id p) (dp_documents p) (dp_form p) true (dp_toasts p)
                         (dp_opportunity p) (dp_loading p), s)
  | EvInput i => (mkDocPage (dp_id p) (dp_documents p) (doc_input i (dp_form p)) (dp_dialog p) (dp_toasts p)
                            (dp_opportunity p) (dp_loading p), s)
  | EvClose => (mkDocPage (dp_id p) (dp_documents p) emptyDocForm false (dp_toasts p)
                          (dp_opportunity p) (dp_loading p), s)
  | EvSubmit ok1 ok2 => if dp_dialog p && doc_form_valid (dp_form p) then handleSubmit ok1 ok2 p s else (p, s)
  | EvReload ok => (loadData ok p s, s)
  | EvDelete d c ok => handleDelete d c ok p s
  end.

Definition doc_run (es : list DocEvent) (ps : DocPage * Store) : DocPage * Store :=
  fold_left (fun acc e => doc_step e acc) es ps.

(** Typing a whole form into the dialog. *)
Definition fill_events (f : DocForm) : list DocEvent :=
  [EvOpen; EvInput (InDocumentName (form_document_name f)); EvInput (InCategory (form_category f));
   EvInput (InUploadedBy (form_uploaded_by f))].

(** The page as it opens for an opportunity, before its first load. *)
Definition doc_page_init (oid : string) : DocPage := mkDocPage oid [] emptyDocForm false [] None true.

(** ** Grouping by category *)

Fixpoint group_insert (d : Document.t) (g : list (Category * list Document.t))
  : list (Category * list Document.t) :=
  match g with
  | [] => [(Document.category d, [d])]
  | (c, ds) :: g' =>
      if bool_decide (c = Document.category d) then (c, ds ++ [d]) :: g'
      else (c, ds) :: group_insert d g'
  end.

(** [groupDocumentsByCategory], lines 100-109. *)
Definition groupDocumentsByCategory (documents : list Document.t) : list (Category * list Document.t) :=
  fold_left (fun g d => group_insert d g) documents [].

End DocumentManager.
Import DocumentManager.

(** A store with one opportunity, [opp-0], used by the examples. *)
Definition doc_sample_store : Store := post_opportunity empty_store (sample_opp "Acme" Review None).

(** An upload form used by the examples. *)
Definition sample_form : DocForm := mkDocForm "Proposal.pdf" Proposal "ana".

(** ** Label sequences and synchronised runs *)

Definition versions_of (name : string) (docs : list Document.t) : list string :=
  map Document.version (List.filter (same_name name) docs).

Definition versions_sequential (docs : list Document.t) : Prop :=
  forall name, versions_of name docs = map version_label (seq 1 (count_if (same_name name) docs)).

Definition synced (ps : DocPage * Store) : Prop :=
  dp_documents ps.1 = documents_of ps.2 (dp_id ps.1).

(** The events of the dialog that only change the page. *)
Definition form_event (e : DocEvent) : bool :=
  match e with EvOpen | EvInput _ | EvClose => true | _ => false end.

(** Synchronised steps: form events, reloads, and submissions made from a
    page whose list is the store's; there is no deletion step. *)
Inductive synced_steps : DocPage * Store -> DocPage * Store -> Prop :=
| ss_refl x : synced_steps x x
| ss_form e x y : form_event e = true -> synced_steps (doc_step e x) y -> synced_steps x y
| ss_reload ok x y : synced_steps (doc_step (EvReload ok) x) y -> synced_steps x y
| ss_submit ok1 ok2 x y :
    synced x -> synced_steps (doc_step (EvSubmit ok1 ok2) x) y -> synced_steps x y.

(** The group of a category, empty when absent. *)
Fixpoint group_lookup (c : Category) (g : list (Category * list Document.t)) : list Document.t :=
  match g with
  | [] => []
  | (c', ds) :: g' => if bool_decide (c' = c) then ds else group_lookup c g'
  end.

(** ** Lemmas *)

Lemma parse_version_label n : parse_version (version_label n) = Some n.
Proof. unfold parse_version, version_label. simpl. apply parse_show_nat. Qed.

(** the label given to an upload reads back as one more than the
    number of loaded documents with the same name. *)
Theorem nextVersion_roundtrip docs name :
  parse_version (nextVersion docs name) = Some (S (count_if (same_name name) docs)).
Proof. unfold nextVersion. apply parse_version_label. Qed.

Lemma documents_of_post s d oid :
  documents_of (post_document s d) oid =
  documents_of s oid ++ (if String.eqb (Document.opportunity_id d) oid
                         then [Document.mk (fresh_id "doc-" s) (Document.opportunity_id d)
                                 (Document.document_name d) (Document.category d)
                                 (Document.uploaded_by d) (Document.version d)] else []).
Proof.
  unfold documents_of, post_document. simpl. rewrite List.filter_app. simpl.
  destruct (String.eqb _ oid); reflexivity.
Qed.

Lemma documents_of_activity s a oid : documents_of (post_activity s a) oid = documents_of s oid.
Proof. reflexivity. Qed.

Lemma versions_sequential_snoc docs d :
  versions_sequential docs ->
  Document.version d = version_label (S (count_if (same_name (Document.document_name d)) docs)) ->
  versions_sequential (docs ++ [d]).
Proof.
  intros Hv Hd name. pose proof (Hv name) as H. unfold versions_of in *.
  rewrite List.filter_app, map_app, count_if_app, H, count_if_cons, count_if_nil.
  cbn [List.filter]. destruct (same_name name d) eqn:E; cbn [map].
  - unfold same_name in E. apply String.eqb_eq in E. subst name.
    rewrite Nat.add_0_r, Nat.add_1_r, seq_S, map_app. cbn [map]. rewrite Hd. reflexivity.
  - rewrite !Nat.add_0_r, app_nil_r. reflexivity.
Qed.

Lemma doc_step_id e ps : dp_id (doc_step e ps).1 = dp_id ps.1.
Proof.
  destruct ps as [p s], e as [|i| |ok1 ok2|ok|d c ok]; simpl; try reflexivity.
  - destruct (dp_dialog p && doc_form_valid (dp_form p)); [|reflexivity].
    unfold handleSubmit. destruct ok1, ok2; reflexivity.
  - unfold loadData. destruct (if ok then get_opportunity s (dp_id p) else None); reflexivity.
  - unfold handleDelete. destruct c, ok; reflexivity.
Qed.

Lemma form_event_store e ps : form_event e = true -> (doc_step e ps).2 = ps.2.
Proof. destruct ps as [p s], e; simpl; congruence. Qed.

Lemma submit_preserves_sequential ok1 ok2 p s :
  synced (p, s) ->
  versions_sequential (documents_of s (dp_id p)) ->
  versions_sequential (documents_of (handleSubmit ok1 ok2 p s).2 (dp_id p)).
Proof.
  intros Hsync Hv. unfold synced in Hsync. simpl in Hsync.
  unfold handleSubmit. destruct ok1; [|exact Hv].
  assert (Hpost : versions_sequential
            (documents_of (post_document s (Document.mk "" (dp_id p) (form_document_name (dp_form p))
                 (form_category (dp_form p)) (form_uploaded_by (dp_form p))
                 (nextVersion (dp_documents p) (form_document_name (dp_form p))))) (dp_id p))).
  { rewrite documents_of_post. simpl. rewrite String.eqb_refl.
    apply versions_sequential_snoc; [exact Hv|]. simpl.
    unfold nextVersion. rewrite Hsync. reflexivity. }
  destruct ok2; exact Hpost.
Qed.

(** C16: in a session of form edits, reloads and uploads without
    deletions, each upload submitted from a list that the last reload
    brought up to date, the page labels the documents of each name [V1],
    [V2], ... [Vk] in upload order: the property holds of every state
    reachable by such steps from a state where it holds (for instance, no
    document at all).  A deletion breaks it: the next upload repeats a
    label ([delete_repeats_label]). *)
Theorem versions_sequential_run x y :
  synced_steps x y ->
  versions_sequential (documents_of x.2 (dp_id x.1)) ->
  versions_sequential (documents_of y.2 (dp_id y.1)).
Proof.
  induction 1 as [x|e x y He _ IH|ok x y _ IH|ok1 ok2 x y Hs _ IH]; intros Hv; [exact Hv| | |].
  - apply IH. rewrite doc_step_id, form_event_store by exact He. exact Hv.
  - apply IH. rewrite doc_step_id. destruct x as [p s]. exact Hv.
  - apply IH. destruct x as [p s]. rewrite doc_step_id. simpl.
    destruct (dp_dialog p && doc_form_valid (dp_form p)); [|exact Hv].
    apply submit_preserves_sequential; assumption.
Qed.

(** C17: two uploads of the same name submitted before the reload that
    the first one started has arrived carry the same label: [handleSubmit]
    reads the page's stale list, not the store. *)
Theorem stale_reload_duplicates p s f :
  doc_form_valid f = true ->
  let name := form_document_name f in
  let v := nextVersion (dp_documents p) name in
  let y := doc_run (fill_events f ++ EvSubmit true true :: fill_events f ++ [EvSubmit true true]) (p, s) in
  versions_of name (documents_of y.2 (dp_id p)) = versions_of name (documents_of s (dp_id p)) ++ [v; v].
Proof.
  intros Hv. destruct f as [n c u]. cbv zeta. unfold doc_run, fill_events. simpl fold_left.
  do 2 (cbn [doc_step doc_input dp_form dp_documents dp_id dp_toasts dp_dialog fst snd andb
             form_document_name form_category form_uploaded_by]; rewrite Hv; unfold handleSubmit).
  cbn [dp_form dp_documents dp_id dp_toasts fst snd form_document_name form_category form_uploaded_by].
  repeat first [rewrite documents_of_activity | rewrite documents_of_post].
  cbn [Document.opportunity_id Document.document_name Document.version].
  rewrite !String.eqb_refl. unfold versions_of.
  rewrite <- app_assoc, !List.filter_app, !map_app. cbn [List.filter app].
  unfold same_name at 2 3. cbn [Document.document_name Document.version]. rewrite !String.eqb_refl.
  reflexivity.
Qed.

(** C18: when the document is stored but the activity post fails, the
    page shows both "Document added successfully" and "Failed to add
    document", the document is in the store, and no activity is logged. *)
Theorem submit_activity_failure p s :
  let y := handleSubmit true false p s in
  length (documents_of y.2 (dp_id p)) = S (length (documents_of s (dp_id p))) /\
  st_activities y.2 = st_activities s /\
  dp_toasts y.1 = dp_toasts p ++ [ToastSuccess "Document added successfully";
                                  ToastError "Failed to add document"].
Proof.
  cbv zeta. unfold handleSubmit. cbn [fst snd dp_toasts].
  rewrite documents_of_post. cbn [Document.opportunity_id]. rewrite String.eqb_refl, length_app.
  simpl. rewrite Nat.add_1_r, <- app_assoc. repeat split; reflexivity.
Qed.

Lemma doc_step_activities e ps : st_activities ps.2 `prefix_of` st_activities (doc_step e ps).2.
Proof.
  destruct ps as [p s], e as [|i| |ok1 ok2|ok|d c ok]; simpl; try reflexivity.
  - destruct (dp_dialog p && doc_form_valid (dp_form p)); [|reflexivity].
    unfold handleSubmit. destruct ok1, ok2; simpl; try reflexivity.
    + apply prefix_app_r. reflexivity.
  - unfold handleDelete. destruct c, ok; reflexivity.
Qed.

(** the activity log is append-only: whatever the events and their
    outcomes, the log before is a prefix of the log after. *)
Theorem activities_append_only es ps :
  st_activities ps.2 `prefix_of` st_activities (doc_run es ps).2.
Proof.
  revert ps. induction es as [|e es IH]; intros ps; simpl; [reflexivity|].
  etransitivity; [apply doc_step_activities|apply IH].
Qed.

Lemma group_lookup_insert c d g :
  group_lookup c (group_insert d g) = group_lookup c g ++ (if bool_decide (Document.category d = c) then [d] else []).
Proof.
  induction g as [|[c' ds] g IH]; simpl.
  - case_bool_decide; reflexivity.
  - destruct (decide (c' = Document.category d)) as [E1|E1].
    + rewrite bool_decide_true by exact E1. simpl. subst c'.
      destruct (decide (Document.category d = c)) as [E2|E2].
      * rewrite !bool_decide_true by exact E2. reflexivity.
      * rewrite !bool_decide_false by exact E2. rewrite app_nil_r. reflexivity.
    + rewrite bool_decide_false by exact E1. simpl.
      destruct (decide (c' = c)) as [E2|E2].
      * subst c'. rewrite bool_decide_true by reflexivity.
        rewrite bool_decide_false by (intros H; apply E1; symmetry; exact H). rewrite app_nil_r. reflexivity.
      * rewrite !bool_decide_false by exact E2. exact IH.
Qed.

Lemma group_insert_keys d g :
  map fst (group_insert d g) =
  if decide (Document.category d ∈ map fst g) then map fst g else map fst g ++ [Document.category d].
Proof.
  induction g as [|[c ds] g IH]; simpl; [reflexivity|].
  case_bool_decide as E; simpl.
  - subst c. rewrite decide_True; [reflexivity|left].
  - rewrite IH. destruct (decide (Document.category d ∈ map fst g)) as [Hin|Hin].
    + rewrite decide_True; [reflexivity|right; exact Hin].
    + rewrite decide_False; [reflexivity|].
      intros Hc. apply elem_of_cons in Hc as [Hc|Hc]; [congruence|contradiction].
Qed.

Lemma group_keys_insert d g :
  NoDup (map fst g) -> NoDup (map fst (group_insert d g)).
Proof.
  intros H. rewrite group_insert_keys. case_decide; [exact H|].
  apply NoDup_app. repeat split; [exact H| |apply NoDup_singleton].
  intros x Hx Hx'. apply list_elem_of_singleton in Hx'. subst. contradiction.
Qed.

(** [groupDocumentsByCategory] has each category at most once, and
    the group of a category is exactly the documents of that category, in
    their order in the list. *)
Theorem groupDocumentsByCategory_spec docs :
  NoDup (map fst (groupDocumentsByCategory docs)) /\
  forall c, group_lookup c (groupDocumentsByCategory docs)
            = List.filter (fun d => bool_decide (Document.category d = c)) docs.
Proof.
  unfold groupDocumentsByCategory.
  assert (forall g, NoDup (map fst g) ->
            NoDup (map fst (fold_left (fun g d => group_insert d g) docs g)) /\
            forall c, group_lookup c (fold_left (fun g d => group_insert d g) docs g)
                      = group_lookup c g ++ List.filter (fun d => bool_decide (Document.category d = c)) docs)
    as H.
  { induction docs as [|d docs IH]; intros g Hg; simpl.
    - split; [exact Hg|]. intros c. rewrite app_nil_r. reflexivity.
    - destruct (IH (group_insert d g) (group_keys_insert d g Hg)) as [H1 H2].
      split; [exact H1|]. intros c. rewrite H2, group_lookup_insert, <- app_assoc.
      case_bool_decide; reflexivity. }
  destruct (H [] ltac:(constructor)) as [H1 H2]. split; [exact H1|]. intros c. apply H2.
Qed.


Lemma versions_sequential_run_witness :
  synced_steps (doc_page_init "opp-0", doc_sample_store)
               (doc_run [EvReload true; EvOpen; EvInput (InDocumentName "Proposal.pdf"); EvInput (InCategory Proposal); EvInput (InUploadedBy "ana"); EvSubmit true true]
                        (doc_page_init "opp-0", doc_sample_store)) /\
  versions_sequential (documents_of doc_sample_store "opp-0") /\
  versions_sequential (documents_of (doc_run [EvReload true; EvOpen; EvInput (InDocumentName "Proposal.pdf"); EvInput (InCategory Proposal); EvInput (InUploadedBy "ana"); EvSubmit true true]
                                             (doc_page_init "opp-0", doc_sample_store)).2 "opp-0").
Proof.
  assert (H1 : synced_steps (doc_page_init "opp-0", doc_sample_store)
                 (doc_run [EvReload true; EvOpen; EvInput (InDocumentName "Proposal.pdf"); EvInput (InCategory Proposal); EvInput (InUploadedBy "ana"); EvSubmit true true]
                          (doc_page_init "opp-0", doc_sample_store))).
  { apply (ss_reload true), (ss_form EvOpen _ _ eq_refl), (ss_form (EvInput (InDocumentName "Proposal.pdf")) _ _ eq_refl),
      (ss_form (EvInput (InCategory Proposal)) _ _ eq_refl), (ss_form (EvInput (InUploadedBy "ana")) _ _ eq_refl),
      (ss_submit true true); [reflexivity|]. apply ss_refl. }
  assert (H2 : versions_sequential (documents_of doc_sample_store "opp-0")) by (intros n; reflexivity).
  split; [exact H1|]. split; [exact H2|].
  exact (versions_sequential_run _ _ H1 H2).
Defined.

(** The labels of the specification: a new name gets [V1], and a second
    upload of it after the reload gets [V2]. *)
Example spec_next_version :
  nextVersion [] "Proposal.pdf" = "V1" /\
  versions_of "Proposal.pdf"
    (documents_of (doc_run [EvReload true; EvOpen; EvInput (InDocumentName "Proposal.pdf"); EvInput (InCategory Proposal); EvInput (InUploadedBy "ana"); EvSubmit true true;
                            EvReload true; EvOpen; EvInput (InDocumentName "Proposal.pdf"); EvInput (InCategory Proposal); EvInput (InUploadedBy "ana"); EvSubmit true true]
                           (doc_page_init "opp-0", doc_sample_store)).2 "opp-0") = ["V1"; "V2"].
Proof. split; vm_compute; reflexivity. Qed.

(** Deleting a version repeats a label: after [V1] and [V2] of a name,
    deleting [V1] and reloading makes the next upload [V2] again. *)
Example delete_repeats_label :
  versions_of "Proposal.pdf"
    (documents_of (doc_run [EvReload true; EvOpen; EvInput (InDocumentName "Proposal.pdf"); EvInput (InCategory Proposal); EvInput (InUploadedBy "ana"); EvSubmit true true;
                            EvReload true; EvOpen; EvInput (InDocumentName "Proposal.pdf"); EvInput (InCategory Proposal); EvInput (InUploadedBy "ana"); EvSubmit true true;
                            EvDelete "doc-1" true true; EvReload true;
                            EvOpen; EvInput (InDocumentName "Proposal.pdf"); EvInput (InCategory Proposal); EvInput (InUploadedBy "ana"); EvSubmit true true]
                           (doc_page_init "opp-0", doc_sample_store)).2 "opp-0") = ["V2"; "V2"].
Proof. vm_compute. reflexivity. Qed.

Lemma stale_reload_duplicates_witness :
  doc_form_valid sample_form = true /\
  versions_of "Proposal.pdf"
    (documents_of (doc_run (fill_events sample_form ++ EvSubmit true true :: fill_events sample_form
                            ++ [EvSubmit true true]) (doc_page_init "opp-0", doc_sample_store)).2 "opp-0")
  = versions_of "Proposal.pdf" (documents_of doc_sample_store "opp-0") ++ [nextVersion [] "Proposal.pdf"; nextVersion [] "Proposal.pdf"].
Proof.
  split; [reflexivity|]. exact (stale_reload_duplicates (doc_page_init "opp-0") doc_sample_store sample_form eq_refl).
Defined.
