(* ===== verification/Tracker.v ===== *)
(** * Tracker: the bid tracker page ([BidTracker.jsx])

    The page keeps the opportunities it loaded, the search term, the
    status filter (["all"] or a status), the dialog flag, the identifier of
    the opportunity being edited ([editingId], [null] when creating) and
    the form.  [filteredOpportunities] is recomputed by an effect whenever
    its inputs change (lines 44-46), so it is modelled as a function of the
    state, [tp_filtered].

    Handlers: [loadOpportunities] (48-58), [filterOpportunities] (60-76),
    [handleSubmit] (78-95: PUT when editing, POST otherwise, then close,
    reset and reload), [handleEdit] (97-115), [handleDelete] (117-128),
    [resetForm] (130-147), and the dialog's [onOpenChange] and Cancel
    (171, 332), which reset the form when the dialog closes.

    The compliance input stores [parseInt(e.target.value) || 0] (line
    270, [parse_percentage]), and the form's [submit] event reaches
    [handleSubmit] only after the browser's constraint validation of the
    [required], [min] and [max] attributes ([form_valid]).

    [toLowerCase] is modelled on ASCII letters; other characters are left
    as they are. *)

From stdpp Require Import base list strings.
From Stdlib Require Import ZArith Ascii.
From S2P Require Import Prelude JsNumber Entities Store Urgency Reports.

Module BidTracker.

(** ** Search *)

(** [c.toLowerCase()] on an ASCII character. *)
Definition ascii_lower (c : ascii) : ascii :=
  let n := nat_of_ascii c in
  if (65 <=? n)%nat && (n <=? 90)%nat then ascii_of_nat (n + 32) else c.

Fixpoint to_lower (s : string) : string :=
  match s with
  | EmptyString => EmptyString
  | String c rest => String (ascii_lower c) (to_lower rest)
  end.

(** [hay.includes(needle)]: [needle] occurs in [hay] at some position. *)
Fixpoint includes (hay needle : string) : bool :=
  String.prefix needle hay ||
  match hay with
  | EmptyString => false
  | String _ rest => includes rest needle
  end.

(** The search callback, lines 64-68. *)
Definition matches_search (term : string) (o : Opportunity) : bool :=
  includes (to_lower (client o)) (to_lower term) ||
  includes (to_lower (project_type o)) (to_lower term) ||
  includes (to_lower (proposal_owner o)) (to_lower term).

(** [filterOpportunities], lines 60-76; [None] is the filter ["all"]. *)
Definition filterOpportunities (opps : list Opportunity) (searchTerm : string)
  (statusFilter : option Status) : list Opportunity :=
  let filtered := if String.eqb searchTerm "" then opps
                  else List.filter (matches_search searchTerm) opps in
  match statusFilter with
  | None => filtered
  | Some st => List.filter (fun o => bool_decide (status o = st)) filtered
  end.

(** ** The form *)

Record OppForm := mkOppForm {
  f_client : string;
  f_project_type : string;
  f_rfp_release_date : string;
  f_submission_deadline : js_date;
  f_proposal_owner : string;
  f_status : Status;
  f_compliance_percentage : Z;
  f_priority_level : Priority;
  f_portal_link : string;
  f_risk_flags : list string;
  f_submission_format : SubmissionFormat;
  f_budget : string;
  f_industry : string
}.

(** The initial form and [resetForm], lines 24-38 and 130-147; the empty
    deadline string is an Invalid Date. *)
Definition emptyOppForm : OppForm :=
  mkOppForm "" "" "" None "" Drafting 0 Medium "" [] Portal "" "".

(** The form filled from an opportunity by [handleEdit], lines 99-113. *)
Definition form_of_opp (o : Opportunity) : OppForm :=
  mkOppForm (client o) (project_type o) (rfp_release_date o) (submission_deadline o)
            (proposal_owner o) (status o) (compliance_percentage o) (priority_level o)
            (portal_link o) (risk_flags o) (submission_format o)
            (js_or_str (budget o) "") (js_or_str (industry o) "").

(** The record the store keeps for the JSON payload [formData] sent by
    [axios.post] / [axios.put] (lines 82 and 85). *)
Definition opp_of_form (oid : string) (f : OppForm) : Opportunity :=
  mkOpportunity oid (f_client f) (f_project_type f) (f_rfp_release_date f) (f_submission_deadline f)
                (f_proposal_owner f) (f_status f) (f_compliance_percentage f) (f_priority_level f)
                (f_portal_link f) (f_risk_flags f) (f_submission_format f)
                (Some (f_budget f)) (Some (f_industry f)).

(** The form's inputs other than the compliance percentage, each with
    its handler [setFormData({...formData, <field>: value})] (lines 186-330).
    There is no input for [risk_flags]. *)
Inductive FormInput :=
| IClient (v : string)              (** line 193 *)
| IProjectType (v : string)         (** line 203 *)
| IRfpReleaseDate (v : string)      (** line 216 *)
| IDeadline (d : js_date)           (** line 227, the [datetime-local] value as a date *)
| IOwner (v : string)               (** line 239 *)
| IStatus (st : Status)             (** line 245 *)
| IPriority (pr : Priority)         (** line 276 *)
| IFormat (sf : SubmissionFormat)   (** line 291 *)
| IIndustry (v : string)            (** line 308 *)
| IPortalLink (v : string)          (** line 319 *)
| IBudget (v : string).             (** line 328 *)

Definition form_input (i : FormInput) (f : OppForm) : OppForm :=
  let '(mkOppForm c pt rd dl ow st pc pr pl rf sf bu ind) := f in
  match i with
  | IClient v => mkOppForm v pt rd dl ow st pc pr pl rf sf bu ind
  | IProjectType v => mkOppForm c v rd dl ow st pc pr pl rf sf bu ind
  | IRfpReleaseDate v => mkOppForm c pt v dl ow st pc pr pl rf sf bu ind
  | IDeadline d => mkOppForm c pt rd d ow st pc pr pl rf sf bu ind
  | IOwner v => mkOppForm c pt rd dl v st pc pr pl rf sf bu ind
  | IStatus v => mkOppForm c pt rd dl ow v pc pr pl rf sf bu ind
  | IPriority v => mkOppForm c pt rd dl ow st pc v pl rf sf bu ind
  | IFormat v => mkOppForm c pt rd dl ow st pc pr pl rf v bu ind
  | IIndustry v => mkOppForm c pt rd dl ow st pc pr pl rf sf bu v
  | IPortalLink v => mkOppForm c pt rd dl ow st pc pr v rf sf bu ind
  | IBudget v => mkOppForm c pt rd dl ow st pc pr pl rf sf v ind
  end.

(** The compliance input's [onChange], line 270:
    [parseInt(e.target.value) || 0]; NaN and [-0] become [0]. *)
Definition parse_percentage (v : string) : Z := js_or_num (parseInt v) 0.

(** The browser's constraint validation, which must pass before the form's
    [submit] event reaches [onSubmit]: the [required] inputs (lines 194,
    204, 217, 228, 240; a [datetime-local] input shows an empty value, so
    fails [required], unless the state holds a valid date) and the
    [min="0"] and [max="100"] of the number input (lines 267-268).  The
    [type="url"] check of the portal link is not modelled, which only
    allows more submissions than the browser does. *)
Definition required_ok (f : OppForm) : bool :=
  negb (String.eqb (f_client f) "") && negb (String.eqb (f_project_type f) "") &&
  negb (String.eqb (f_rfp_release_date f) "") && bool_decide (is_Some (f_submission_deadline f)) &&
  negb (String.eqb (f_proposal_owner f) "").

Definition percentage_ok (f : OppForm) : bool :=
  (0 <=? f_compliance_percentage f)%Z && (f_compliance_percentage f <=? 100)%Z.

Definition form_valid (f : OppForm) : bool := required_ok f && percentage_ok f.

(** ** The page *)

Record TrackerPage := mkTrackerPage {
  tp_opportunities : list Opportunity;
  tp_search : string;
  tp_filter : option Status;
  tp_dialog : bool;
  tp_editingId : option string;
  tp_form : OppForm;
  tp_toasts : list Toast
}.

Definition tracker_init : TrackerPage := mkTrackerPage [] "" None false None emptyOppForm [].

(** [filteredOpportunities], kept equal to this by the effect of lines
    44-46. *)
Definition tp_filtered (p : TrackerPage) : list Opportunity :=
  filterOpportunities (tp_opportunities p) (tp_search p) (tp_filter p).

Definition with_toast (p : TrackerPage) (t : Toast) : TrackerPage :=
  mkTrackerPage (tp_opportunities p) (tp_search p) (tp_filter p) (tp_dialog p)
                (tp_editingId p) (tp_form p) (tp_toasts p ++ [t]).

(** [resetForm], lines 130-147. *)
Definition resetForm (p : TrackerPage) : TrackerPage :=
  mkTrackerPage (tp_opportunities p) (tp_search p) (tp_filter p) (tp_dialog p)
                None emptyOppForm (tp_toasts p).

(** [loadOpportunities], lines 48-58, when its request resolves. *)
Definition loadOpportunities (ok : bool) (p : TrackerPage) (s : Store) : TrackerPage :=
  if ok then
    mkTrackerPage (st_opportunities s) (tp_search p) (tp_filter p) (tp_dialog p)
                  (tp_editingId p) (tp_form p) (tp_toasts p)
  else with_toast p (ToastError "Failed to load opportunities").

(** The test [if (editingId)] of line 81: [null] and the empty string are
    falsy. *)
Definition js_truthy_id (x : option string) : option string :=
  match x with
  | Some oid => if String.eqb oid "" then None else Some oid
  | None => None
  end.

(** [handleSubmit], lines 78-95.  The request is a PUT of the form to the
    edited identifier, or a POST; it fails when the network does ([ok] is
    false) or, for a PUT, when the record is gone.  On success the dialog
    closes and the form is reset; the reload it starts arrives as a
    separate event. *)
Definition handleSubmit (ok : bool) (p : TrackerPage) (s : Store) : TrackerPage * Store :=
  let result :=
    match js_truthy_id (tp_editingId p) with
    | Some oid =>
        if ok then option_map (fun s' => (s', "Opportunity updated successfully"))
                              (put_opportunity s oid (opp_of_form oid (tp_form p)))
        else None
    | None =>
        if ok then Some (post_opportunity s (opp_of_form "" (tp_form p)), "Opportunity created successfully")
        else None
    end in
  match result with
  | Some (s', msg) =>
      let p1 := with_toast p (ToastSuccess msg) in
      (resetForm (mkTrackerPage (tp_opportunities p1) (tp_search p1) (tp_filter p1) false
                                (tp_editingId p1) (tp_form p1) (tp_toasts p1)), s')
  | None => (with_toast p (ToastError "Failed to save opportunity"), s)
  end.

(** [handleEdit], lines 97-115. *)
Definition handleEdit (o : Opportunity) (p : TrackerPage) : TrackerPage :=
  mkTrackerPage (tp_opportunities p) (tp_search p) (tp_filter p) true
                (Some (id o)) (form_of_opp o) (tp_toasts p).

(** [handleDelete], lines 117-128. *)
Definition handleDelete (oid : string) (confirmed ok : bool) (p : TrackerPage) (s : Store)
  : TrackerPage * Store :=
  if confirmed then
    if ok then (with_toast p (ToastSuccess "Opportunity deleted successfully"), delete_opportunity s oid)
    else (with_toast p (ToastError "Failed to delete opportunity"), s)
  else (p, s).

(** ** Events *)

Inductive TrackerEvent :=
| TLoad (ok : bool)                        (** a [loadOpportunities] resolves *)
| TSearch (term : string)                  (** the search input, line 349 *)
| TFilter (sf : option Status)             (** the status select, line 353 *)
| TOpenAdd                                 (** "Add Opportunity", line 173 *)
| TInput (i : FormInput)                   (** the form's other [onChange] handlers *)
| TPercent (v : string)                    (** the compliance input, line 270 *)
| TClose                                   (** [onOpenChange(false)] or Cancel, lines 171, 332 *)
| TEdit (o : Opportunity)                  (** the edit button, line 429 *)
| TSubmit (ok : bool)                      (** the form's [onSubmit], in the open dialog *)
| TDelete (oid : string) (confirmed ok : bool).

Definition tracker_step (e : TrackerEvent) (ps : TrackerPage * Store) : TrackerPage * Store :=
  let '(p, s) := ps in
  match e with
  | TLoad ok => (loadOpportunities ok p s, s)
  | TSearch t => (mkTrackerPage (tp_opportunities p) t (tp_filter p) (tp_dialog p)
                                (tp_editingId p) (tp_form p) (tp_toasts p), s)
  | TFilter sf => (mkTrackerPage (tp_opportunities p) (tp_search p) sf (tp_dialog p)
                                 (tp_editingId p) (tp_form p) (tp_toasts p), s)
  | TOpenAdd => (mkTrackerPage (tp_opportunities p) (tp_search p) (tp_filter p) true
                               (tp_editingId p) (tp_form p) (tp_toasts p), s)
  | TInput i => (mkTrackerPage (tp_opportunities p) (tp_search p) (tp_filter p) (tp_dialog p)
                               (tp_editingId p) (form_input i (tp_form p)) (tp_toasts p), s)
  | TPercent v =>
      let f := tp_form p in
      (mkTrackerPage (tp_opportunities p) (tp_search p) (tp_filter p) (tp_dialog p) (tp_editingId p)
                     (mkOppForm (f_client f) (f_project_type f) (f_rfp_release_date f)
                                (f_submission_deadline f) (f_proposal_owner f) (f_status f)
                                (parse_percentage v) (f_priority_level f) (f_portal_link f)
                                (f_risk_flags f) (f_submission_format f) (f_budget f) (f_industry f))
                     (tp_toasts p), s)
  | TClose => (resetForm (mkTrackerPage (tp_opportunities p) (tp_search p) (tp_filter p) false
                                        (tp_editingId p) (tp_form p) (tp_toasts p)), s)
  | TEdit o => (handleEdit o p, s)
  | TSubmit ok => if tp_dialog p && form_valid (tp_form p) then handleSubmit ok p s else (p, s)
  | TDelete oid c ok => handleDelete oid c ok p s
  end.

Definition tracker_run (es : list TrackerEvent) (ps : TrackerPage * Store) : TrackerPage * Store :=
  fold_left (fun acc e => tracker_step e acc) es ps.

End BidTracker.
Export BidTracker.

(** Editing happens in the open dialog. *)
Definition editing_in_dialog (p : TrackerPage) : Prop :=
  tp_editingId p <> None -> tp_dialog p = true.

(** The constraints of the specification's entity (section 3) that the
    form enforces: a compliance percentage between 0 and 100 and a
    deadline that is a valid timestamp. *)
Definition opp_wf (o : Opportunity) : Prop :=
  (0 <= compliance_percentage o <= 100)%Z /\ is_Some (submission_deadline o).

(** ** Lemmas and theorems *)

Lemma to_lower_length s : String.length (to_lower s) = String.length s.
Proof. induction s; simpl; congruence. Qed.

Lemma to_lower_empty s : to_lower s = "" <-> s = "".
Proof. destruct s; simpl; split; congruence. Qed.

Lemma matches_search_lower t1 t2 o :
  to_lower t1 = to_lower t2 -> matches_search t1 o = matches_search t2 o.
Proof. intros H. unfold matches_search. rewrite H. reflexivity. Qed.

(** C19: an opportunity is listed exactly when it is loaded, matches the
    search term (or the term is empty) and has the filtered status (or the
    filter is "all"); the list keeps the loaded order. *)
Theorem filterOpportunities_spec opps term sf o :
  (In o (filterOpportunities opps term sf) <->
   In o opps /\ (term = "" \/ matches_search term o = true) /\ (sf = None \/ sf = Some (status o))) /\
  filterOpportunities opps term sf `sublist_of` opps.
Proof.
  unfold filterOpportunities. split.
  - destruct (String.eqb_spec term "") as [->|Hne];
    destruct sf as [st|]; rewrite ?filter_In; split;
      [intros [Hin Hst]; apply bool_decide_eq_true in Hst; subst; auto
      | intros (Hin & _ & [Hs|Hs]); [discriminate|]; split; [exact Hin|]; apply bool_decide_eq_true; congruence
      | intros Hin; auto
      | intros (Hin & _ & _); exact Hin
      | intros [[Hin Hm] Hst]; apply bool_decide_eq_true in Hst; subst; auto
      | intros (Hin & [H|Hm] & [Hs|Hs]); [contradiction|contradiction|discriminate|];
        split; [split; assumption|apply bool_decide_eq_true; congruence]
      | intros [Hin Hm]; auto
      | intros (Hin & [H|Hm] & _); [contradiction|split; assumption] ].
  - destruct (String.eqb term ""), sf as [st|].
    + apply list_filter_sublist.
    + reflexivity.
    + etransitivity; apply list_filter_sublist.
    + apply list_filter_sublist.
Qed.

(** the search ignores case: two terms with the same lowercase give
    the same list. *)
Theorem search_case_insensitive opps t1 t2 sf :
  to_lower t1 = to_lower t2 ->
  filterOpportunities opps t1 sf = filterOpportunities opps t2 sf.
Proof.
  intros H. unfold filterOpportunities.
  assert (String.eqb t1 "" = String.eqb t2 "") as ->.
  { destruct (String.eqb_spec t1 ""), (String.eqb_spec t2 ""); subst; try reflexivity.
    all: exfalso; match goal with Hn : ?x <> "" |- _ => apply Hn, to_lower_empty end;
      simpl in H; congruence. }
  rewrite (List.filter_ext (matches_search t1) (matches_search t2)) by (intros; apply matches_search_lower, H).
  reflexivity.
Qed.

Lemma handleSubmit_editing ok p s :
  editing_in_dialog p -> editing_in_dialog (handleSubmit ok p s).1.
Proof.
  unfold editing_in_dialog, handleSubmit. intros H.
  match goal with |- context [match ?r with Some _ => _ | None => _ end] =>
    destruct r as [[s' msg]|] end; simpl; [intros Hne; contradiction|exact H].
Qed.

Lemma tracker_step_opps e p s :
  e <> TLoad true -> tp_opportunities (tracker_step e (p, s)).1 = tp_opportunities p.
Proof.
  intros He. destruct e as [[]| | | | | | | |ok|oid c ok]; simpl; try congruence.
  - destruct (tp_dialog p && form_valid _); [|reflexivity]. unfold handleSubmit. repeat case_match; reflexivity.
  - unfold handleDelete. repeat case_match; reflexivity.
Qed.

Lemma tracker_step_editing e ps :
  editing_in_dialog ps.1 -> editing_in_dialog (tracker_step e ps).1.
Proof.
  destruct ps as [p s].
  destruct e as [ok|t|sf| |f|v| |o|ok|oid c ok]; simpl; intros H;
    try (unfold editing_in_dialog in *; simpl; intros Hne; solve [apply H, Hne | reflexivity | contradiction]).
  - unfold loadOpportunities. destruct ok; exact H.
  - destruct (tp_dialog p && form_valid (tp_form p)); [apply handleSubmit_editing|]; exact H.
  - unfold handleDelete. destruct c, ok; exact H.
Qed.

(** C20: whatever the events and request outcomes, the page never edits
    an opportunity with its dialog closed: a non-null [editingId] implies
    the dialog is open, so a later "Add Opportunity" never saves over the
    previously edited record. *)
Theorem editing_implies_dialog es ps :
  editing_in_dialog ps.1 -> editing_in_dialog (tracker_run es ps).1.
Proof.
  revert ps. induction es as [|e es IH]; intros ps H; simpl; [exact H|].
  apply IH, tracker_step_editing, H.
Qed.

Lemma js_or_str_twice x d : js_or_str (Some (js_or_str x "")) d = js_or_str x d.
Proof. destruct x as [s|]; [|reflexivity]. simpl. solve_js. Qed.

(** C22: opening an opportunity for edit and saving it unchanged does not
    change its exported row nor its deadline tint (a missing budget or
    industry is stored as the empty string, which reads the same). *)
Theorem edit_save_roundtrip fmt o :
  opp_row fmt (opp_of_form (id o) (form_of_opp o)) = opp_row fmt o /\
  getDeadlineClass (submission_deadline (opp_of_form (id o) (form_of_opp o)))
                   (status (opp_of_form (id o) (form_of_opp o)))
  = getDeadlineClass (submission_deadline o) (status o).
Proof.
  split; [|reflexivity].
  unfold opp_row.
  replace (industry (opp_of_form (id o) (form_of_opp o))) with (Some (js_or_str (industry o) "")) by reflexivity.
  replace (budget (opp_of_form (id o) (form_of_opp o))) with (Some (js_or_str (budget o) "")) by reflexivity.
  rewrite !js_or_str_twice. reflexivity.
Qed.

Lemma get_opportunity_delete s oid : get_opportunity (delete_opportunity s oid) oid = None.
Proof.
  unfold get_opportunity, delete_opportunity. simpl.
  induction (st_opportunities s) as [|o os IH]; simpl; [reflexivity|].
  destruct (String.eqb_spec (id o) oid); simpl; [exact IH|].
  rewrite (proj2 (String.eqb_neq _ _) n). exact IH.
Qed.

(** deleting an opportunity removes it but leaves its documents and
    compliance items in the store, now orphaned. *)
Theorem handleDelete_no_cascade oid p s :
  let y := handleDelete oid true true p s in
  get_opportunity y.2 oid = None /\
  documents_of y.2 oid = documents_of s oid /\
  compliance_of y.2 oid = compliance_of s oid.
Proof. cbv zeta. simpl. split; [apply get_opportunity_delete|split; reflexivity]. Qed.

Lemma post_opportunity_record s f :
  st_opportunities (post_opportunity s (opp_of_form "" f))
  = st_opportunities s ++ [opp_of_form (fresh_id "opp-" s) f].
Proof. reflexivity. Qed.

(** C21: [handleSubmit] on each branch.  A failed request leaves the
    store, the dialog, the edited identifier and the form as they were and
    shows "Failed to save opportunity"; a successful creation appends the
    form as a new record under a fresh identifier, closes the dialog and
    resets the form; an update (a non-empty edited identifier) replaces the record when it
    still exists and otherwise fails the same way. *)
Theorem handleSubmit_outcomes ok p s :
  let y := handleSubmit ok p s in
  (ok = false ->
     y.2 = s /\ tp_dialog y.1 = tp_dialog p /\ tp_editingId y.1 = tp_editingId p /\
     tp_form y.1 = tp_form p /\ tp_toasts y.1 = tp_toasts p ++ [ToastError "Failed to save opportunity"]) /\
  (ok = true -> tp_editingId p = None ->
     st_opportunities y.2 = st_opportunities s ++ [opp_of_form (fresh_id "opp-" s) (tp_form p)] /\
     tp_dialog y.1 = false /\ tp_editingId y.1 = None /\ tp_form y.1 = emptyOppForm) /\
  (forall oid, ok = true -> tp_editingId p = Some oid -> oid <> "" ->
     match put_opportunity s oid (opp_of_form oid (tp_form p)) with
     | Some s' => y.2 = s' /\ tp_dialog y.1 = false /\ tp_editingId y.1 = None
     | None => y.2 = s /\ tp_editingId y.1 = Some oid /\
               tp_toasts y.1 = tp_toasts p ++ [ToastError "Failed to save opportunity"]
     end).
Proof.
  cbv zeta. unfold handleSubmit. split; [|split].
  - intros ->. destruct (js_truthy_id (tp_editingId p)); simpl; repeat split; simpl; congruence.
  - intros -> He. rewrite He. simpl. repeat split; reflexivity.
  - intros oid -> He Hne. rewrite He. simpl. rewrite (proj2 (String.eqb_neq _ _) Hne).
    destruct (put_opportunity s oid (opp_of_form oid (tp_form p))); simpl; repeat split; simpl; congruence.
Qed.

Lemma form_valid_wf oid f : form_valid f = true -> opp_wf (opp_of_form oid f).
Proof.
  unfold form_valid, required_ok, percentage_ok, opp_wf. simpl.
  intros H. repeat (apply andb_prop in H as [H ?]).
  split; [lia|]. apply (bool_decide_eq_true_1 (is_Some _)). assumption.
Qed.

Lemma post_opportunity_wf s o :
  Forall opp_wf (st_opportunities s) -> opp_wf o -> Forall opp_wf (st_opportunities (post_opportunity s o)).
Proof. intros Hs Ho. simpl. apply Forall_app; split; [exact Hs|]. constructor; [exact Ho|constructor]. Qed.

Lemma put_opportunity_wf s s' oid o :
  put_opportunity s oid o = Some s' -> Forall opp_wf (st_opportunities s) -> opp_wf o ->
  Forall opp_wf (st_opportunities s').
Proof.
  unfold put_opportunity. destruct existsb; [|discriminate]. intros Hs' Hs Ho.
  injection Hs' as <-. simpl. apply Forall_map. eapply Forall_impl; [exact Hs|].
  intros o' Ho'. destruct (String.eqb (id o') oid); [exact Ho|exact Ho'].
Qed.

Lemma delete_opportunity_wf s oid :
  Forall opp_wf (st_opportunities s) -> Forall opp_wf (st_opportunities (delete_opportunity s oid)).
Proof. intros Hs. simpl. apply Forall_list_filter, Hs. Qed.

Lemma handleSubmit_wf ok p s :
  form_valid (tp_form p) = true -> Forall opp_wf (st_opportunities s) ->
  Forall opp_wf (st_opportunities (handleSubmit ok p s).2).
Proof.
  intros Hv Hs. unfold handleSubmit.
  destruct (js_truthy_id (tp_editingId p)) as [oid|], ok; cbn -[post_opportunity put_opportunity];
    try exact Hs.
  - destruct (put_opportunity s oid (opp_of_form oid (tp_form p))) as [s'|] eqn:E;
      cbn -[post_opportunity put_opportunity]; [|exact Hs].
    eapply put_opportunity_wf; [exact E|exact Hs|apply form_valid_wf, Hv].
  - apply post_opportunity_wf; [exact Hs|apply form_valid_wf, Hv].
Qed.

Lemma tracker_step_wf e ps :
  Forall opp_wf (st_opportunities ps.2) -> Forall opp_wf (st_opportunities (tracker_step e ps).2).
Proof.
  destruct ps as [p s]. intros Hs. destruct e as [ok|t|sf| |f|v| |o|ok|oid c ok]; simpl; try exact Hs.
  - destruct (tp_dialog p && form_valid (tp_form p)) eqn:Hv; [|assumption].
    apply andb_prop in Hv as [_ Hv]. apply handleSubmit_wf; assumption.
  - unfold handleDelete. destruct c, ok; simpl; [apply delete_opportunity_wf|..]; exact Hs.
Qed.

(** C33: the records the tracker page writes respect the entity's
    constraints: whatever the events, the typed inputs and the request
    outcomes, if every stored opportunity has a percentage between 0 and
    100 and a valid deadline, so has every opportunity after the run.  The
    browser's validation of [required], [min] and [max] is what makes it
    hold: [handleSubmit] itself checks nothing. *)
Theorem tracker_run_wf es ps :
  Forall opp_wf (st_opportunities ps.2) -> Forall opp_wf (st_opportunities (tracker_run es ps).2).
Proof.
  revert ps. induction es as [|e es IH]; intros ps H; simpl; [exact H|].
  apply IH, tracker_step_wf, H.
Qed.

(** typing the decimal writing of a number into the compliance input
    stores that number; a fraction or an exponent is cut at the first
    character that is not a digit ([percentage_input_examples]). *)
Theorem parse_percentage_show n : parse_percentage (show_nat n) = Z.of_nat n.
Proof.
  unfold parse_percentage. rewrite parseInt_show_nat. simpl.
  destruct (Z.eqb_spec (Z.of_nat n) 0) as [E|E]; [rewrite E|]; reflexivity.
Qed.

Example percentage_input_examples :
  parse_percentage "75" = 75%Z /\ parse_percentage "" = 0%Z /\ parse_percentage "12.9" = 12%Z /\
  parse_percentage "1e2" = 1%Z /\ parse_percentage "-5" = (-5)%Z /\ parse_percentage "0x1A" = 26%Z.
Proof. repeat split; reflexivity. Qed.

Lemma search_case_insensitive_witness :
  to_lower "ACME" = to_lower "acme" /\
  filterOpportunities [sample_opp "Acme" Review None] "ACME" None
  = filterOpportunities [sample_opp "Acme" Review None] "acme" None.
Proof.
  assert (H : to_lower "ACME" = to_lower "acme") by reflexivity.
  split; [exact H|]. apply search_case_insensitive. exact H.
Defined.

Lemma editing_implies_dialog_witness :
  editing_in_dialog tracker_init /\
  editing_in_dialog (tracker_run [TEdit (sample_opp "Acme" Review None); TSubmit false; TClose]
                                 (tracker_init, empty_store)).1.
Proof.
  assert (H : editing_in_dialog tracker_init) by (intros Hne; exfalso; apply Hne; reflexivity).
  split; [exact H|]. apply (editing_implies_dialog _ (tracker_init, empty_store)). exact H.
Defined.

Lemma handleSubmit_outcomes_witness :
  (handleSubmit false tracker_init empty_store).2 = empty_store /\
  tp_form (handleSubmit true tracker_init empty_store).1 = emptyOppForm.
Proof.
  split.
  - exact (proj1 (proj1 (handleSubmit_outcomes false tracker_init empty_store) eq_refl)).
  - exact (proj2 (proj2 (proj2 (proj1 (proj2 (handleSubmit_outcomes true tracker_init empty_store))
                                        eq_refl eq_refl)))).
Defined.

Lemma tracker_run_wf_witness :
  Forall opp_wf (st_opportunities empty_store) /\
  Forall opp_wf (st_opportunities
    (tracker_run [TOpenAdd; TInput (IClient "Acme"); TInput (IProjectType "IT");
                  TInput (IRfpReleaseDate "2025-01-01"); TInput (IDeadline (Some 0%Z)); TInput (IOwner "ana");
                  TPercent "150"; TSubmit true; TPercent "80"; TSubmit true]
                 (tracker_init, empty_store)).2).
Proof.
  assert (H : Forall opp_wf (st_opportunities empty_store)) by constructor.
  split; [exact H|]. apply (tracker_run_wf _ (tracker_init, empty_store)), H.
Defined.
