(* ===== verification/Effects.v ===== *)
(** * Effects: the [useEffect] hooks of the pages and React's effect loop

    Every page declares effects with dependency arrays: a mount-only load
    ([[]] in [BidTracker.jsx] 40-42, [Dashboard.jsx] 17-19, [Reports.jsx]
    18-20), a load per route identifier ([[id]] in
    [ComplianceChecker.jsx] 31-33, [DocumentManager.jsx] 29-31,
    [OpportunityDetail.jsx] 20-22) and the tracker's filter
    ([[opportunities, searchTerm, statusFilter]], [BidTracker.jsx] 44-46).

    React's rule, as modelled here: after each render the effects run in
    declaration order, each one that never ran or whose dependencies
    differ from those of its last run ([Object.is]: strings by value,
    arrays by reference); an effect that sets state causes another render,
    after which the rule applies again.  [settle] is that loop with
    explicit fuel: it stops when a pass runs no effect, and returns [None]
    when the fuel runs out.  An array is a reference: the tracker's state
    records which array [opportunities] and [filteredOpportunities] are,
    since [filterOpportunities] returns [opportunities] itself when no
    filter applies (line 61) and a fresh array from [.filter] otherwise. *)

From stdpp Require Import base list strings.
From Stdlib Require Import ZArith.
From S2P Require Import Prelude Entities Store Urgency Tracker.

(** A dependency value as [Object.is] compares it. *)
Inductive DepVal := DStr (s : string) | DRef (r : nat).

#[export] Instance DepVal_eq_dec : EqDecision DepVal.
Proof. solve_decision. Defined.

Section ReactEffects.
Context {St : Type}.

(** An effect: its dependency array, read in the render, and its body,
    which sees the render's values and updates the current state. *)
Record Effect := mkEffect {
  eff_deps : St -> list DepVal;
  eff_run : St -> St -> St
}.

(** The dependencies each effect ran with last, [None] before its first
    run. *)
Definition Last := list (option (list DepVal)).

(** One commit after the render [r]: the effects run in order from the
    current state [c]; the boolean tells whether one ran. *)
Fixpoint commit (es : list Effect) (last : Last) (r c : St) : St * Last * bool :=
  match es with
  | [] => (c, [], false)
  | e :: es' =>
      let d := eff_deps e r in
      let ran := negb (bool_decide (head last = Some (Some d))) in
      let c1 := if ran then eff_run e r c else c in
      let '(c2, last2, ran2) := commit es' (tail last) r c1 in
      (c2, Some d :: last2, ran || ran2)
  end.

(** Render, commit, and render again while an effect ran. *)
Fixpoint settle (es : list Effect) (fuel : nat) (c : St) (last : Last) : option (St * Last) :=
  match fuel with
  | O => None
  | S f =>
      let '(c', last', ran) := commit es last c c in
      if ran then settle es f c' last' else Some (c', last')
  end.

(** No effect would run after a render of [c]. *)
Definition quiescent (es : list Effect) (c : St) (last : Last) : Prop :=
  last = map (fun e => Some (eff_deps e c)) es.

(** The effects of [es] write nothing that a dependency array of [es]
    reads. *)
Definition deps_stable (es : list Effect) : Prop :=
  forall e e' r c, In e es -> In e' es -> eff_deps e' (eff_run e r c) = eff_deps e' c.

End ReactEffects.

Arguments Effect : clear implicits.

(** ** The tracker page with its derived state *)

(** The page of [Tracker] with what the model there derives:
    [filteredOpportunities] as state, the references of the two arrays,
    the next fresh reference, and the loads started. *)
Record TrackerView := mkTrackerView {
  tv_page : TrackerPage;
  tv_opps_ref : nat;
  tv_filtered : list Opportunity;
  tv_filtered_ref : nat;
  tv_next_ref : nat;
  tv_loads : nat
}.

(** The [statusFilter] string: ["all"] or the status. *)
Definition filter_string (sf : option Status) : string :=
  match sf with None => "all" | Some st => status_to_string st end.

(** The mount effect, lines 40-42: it starts [loadOpportunities]. *)
Definition load_effect_run (r c : TrackerView) : TrackerView :=
  mkTrackerView (tv_page c) (tv_opps_ref c) (tv_filtered c) (tv_filtered_ref c) (tv_next_ref c)
                (S (tv_loads c)).

(** The filter effect, lines 44-46 and 60-76: [setFilteredOpportunities]
    of [opportunities] itself when no filter applies, of a fresh array
    otherwise. *)
Definition filter_effect_run (r c : TrackerView) : TrackerView :=
  let p := tv_page r in
  if String.eqb (tp_search p) "" && bool_decide (tp_filter p = None) then
    mkTrackerView (tv_page c) (tv_opps_ref c) (tp_opportunities p) (tv_opps_ref r) (tv_next_ref c) (tv_loads c)
  else
    mkTrackerView (tv_page c) (tv_opps_ref c)
                  (filterOpportunities (tp_opportunities p) (tp_search p) (tp_filter p))
                  (tv_next_ref c) (S (tv_next_ref c)) (tv_loads c).

(** The tracker's filter dependencies, line 46. *)
Definition filter_deps (v : TrackerView) : list DepVal :=
  [DRef (tv_opps_ref v); DStr (tp_search (tv_page v)); DStr (filter_string (tp_filter (tv_page v)))].

Definition tracker_effects : list (Effect TrackerView) :=
  [mkEffect (fun _ => []) load_effect_run;
   mkEffect filter_deps filter_effect_run].

(** An event of the page changes the page and the store; when it sets
    [opportunities] (a successful load) the array is a fresh one. *)
Definition view_event (e : TrackerEvent) (v : TrackerView) (s : Store) : TrackerView * Store :=
  let '(p', s') := tracker_step e (tv_page v, s) in
  match e with
  | TLoad true => (mkTrackerView p' (tv_next_ref v) (tv_filtered v) (tv_filtered_ref v)
                                 (S (tv_next_ref v)) (tv_loads v), s')
  | _ => (mkTrackerView p' (tv_opps_ref v) (tv_filtered v) (tv_filtered_ref v)
                        (tv_next_ref v) (tv_loads v), s')
  end.

(** The page's life: the effect loop after each render, with two passes
    of fuel, then the next event. *)
Fixpoint react_run (es : list TrackerEvent) (v : TrackerView) (last : Last) (s : Store)
  : option (TrackerView * Last * Store) :=
  match settle tracker_effects 2 v last with
  | None => None
  | Some (v1, last1) =>
      match es with
      | [] => Some (v1, last1, s)
      | e :: es' => let '(v2, s2) := view_event e v1 s in react_run es' v2 last1 s2
      end
  end.

(** The page as mounted: the first render, before any effect ran. *)
Definition tracker_mount : TrackerView := mkTrackerView tracker_init 0 [] 0 1 0.

(** ** The pages loaded per route parameter

    [OpportunityDetail], [ComplianceChecker] and [DocumentManager] read
    [id] from the route ([useParams]) and load with the effect
    [useEffect(() => { loadData(); }, [id])]; [Dashboard] and [Reports]
    load once, with [[]].  React Router keeps the page mounted when only
    the parameter changes, so one page sees a sequence of identifiers.
    [loadData] is asynchronous and is neither cancelled nor checked
    against the current [id] when it resolves: the state records the
    loads started, those still pending, and the identifier whose data the
    page shows. *)
Record RoutePage := mkRoutePage {
  rp_id : string;
  rp_started : list string;
  rp_pending : list string;
  rp_shown : option string
}.

(** The effect's body: [loadData()] for the render's [id]. *)
Definition loadData_start (r c : RoutePage) : RoutePage :=
  mkRoutePage (rp_id c) (rp_started c ++ [rp_id r]) (rp_pending c ++ [rp_id r]) (rp_shown c).

(** [OpportunityDetail.jsx] 20-22, [ComplianceChecker.jsx] 31-33,
    [DocumentManager.jsx] 29-31. *)
Definition id_effects : list (Effect RoutePage) :=
  [mkEffect (fun p => [DStr (rp_id p)]) loadData_start].

(** [Dashboard.jsx] 17-19, [Reports.jsx] 18-20. *)
Definition mount_effects : list (Effect RoutePage) :=
  [mkEffect (fun _ => []) loadData_start].

Inductive RouteEvent :=
| RNavigate (i : string)   (** the route's [:id] becomes [i] *)
| RResolve (k : nat).      (** the [k]-th pending load resolves and sets the page's state *)

Definition route_event (e : RouteEvent) (p : RoutePage) : RoutePage :=
  match e with
  | RNavigate i => mkRoutePage i (rp_started p) (rp_pending p) (rp_shown p)
  | RResolve k =>
      match rp_pending p !! k with
      | Some i => mkRoutePage (rp_id p) (rp_started p) (delete k (rp_pending p)) (Some i)
      | None => p
      end
  end.

Fixpoint route_run (es : list (Effect RoutePage)) (evs : list RouteEvent) (p : RoutePage) (last : Last)
  : option (RoutePage * Last) :=
  match settle es 2 p last with
  | None => None
  | Some (p1, last1) =>
      match evs with
      | [] => Some (p1, last1)
      | e :: evs' => route_run es evs' (route_event e p1) last1
      end
  end.

Definition route_mount (i : string) : RoutePage := mkRoutePage i [] [] None.

(** The identifiers a sequence of events navigates to, and those among
    them that differ from the one before. *)
Definition navigations (evs : list RouteEvent) : list string :=
  omap (fun e => match e with RNavigate i => Some i | RResolve _ => None end) evs.

Fixpoint id_changes (prev : string) (ids : list string) : list string :=
  match ids with
  | [] => []
  | i :: ids' => if String.eqb i prev then id_changes prev ids' else i :: id_changes i ids'
  end.

(** What holds at each render: the array of [opportunities] is older than
    the next fresh reference, [filteredOpportunities] is the filter of the
    current values when the filter effect's last array is the current
    one, and the mount effect has run once, or not yet at all. *)
Definition tracker_inv (v : TrackerView) (last : Last) : Prop :=
  (tv_opps_ref v < tv_next_ref v)%nat /\
  (head (tail last) = Some (Some (filter_deps v)) -> tv_filtered v = tp_filtered (tv_page v)) /\
  ((tv_loads v = 1 /\ head last = Some (Some [])) \/ (tv_loads v = 0 /\ head last = None)).

(** ** The effect loop in general *)

Section Settle.
Context {St : Type} (es : list (Effect St)).

Lemma commit_last last r c :
  (commit es last r c).1.2 = map (fun e => Some (eff_deps e r)) es.
Proof.
  revert last c. induction es as [|e es' IH]; intros last c; [reflexivity|].
  cbn [commit]. destruct (commit es' _ r _) as [[c2 l2] b2] eqn:E.
  specialize (IH (tail last) (if negb (bool_decide (head last = Some (Some (eff_deps e r))))
                              then eff_run e r c else c)).
  rewrite E in IH. simpl in *. congruence.
Qed.

Lemma commit_quiet r c :
  commit es (map (fun e => Some (eff_deps e r)) es) r c = (c, map (fun e => Some (eff_deps e r)) es, false).
Proof.
  revert c. induction es as [|e es' IH]; intros c; [reflexivity|].
  cbn [commit map head tail]. rewrite bool_decide_true by reflexivity. simpl. rewrite IH. reflexivity.
Qed.

Lemma commit_idle last r c : (commit es last r c).2 = false -> (commit es last r c).1.1 = c.
Proof.
  revert last c. induction es as [|e es' IH]; intros last c; [reflexivity|].
  cbn [commit]. destruct (bool_decide _); simpl;
    destruct (commit es' _ r _) as [[c2 l2] b2] eqn:E; simpl; [|discriminate].
  intros ->. specialize (IH (tail last) c). rewrite E in IH. simpl in IH. auto.
Qed.

Lemma commit_deps_sub (es0 : list (Effect St)) e' :
  (forall e r c, In e es0 -> eff_deps e' (eff_run e r c) = eff_deps e' c) ->
  forall last r c, eff_deps e' (commit es0 last r c).1.1 = eff_deps e' c.
Proof.
  intros Hs. induction es0 as [|e es0 IH]; intros last r c; [reflexivity|].
  cbn [commit]. destruct (commit es0 _ r _) as [[c2 l2] b2] eqn:E.
  specialize (IH (fun e0 r0 c0 Hin => Hs e0 r0 c0 (or_intror Hin)) (tail last) r
                 (if negb (bool_decide (head last = Some (Some (eff_deps e r)))) then eff_run e r c else c)).
  rewrite E in IH. simpl in *. rewrite IH. destruct (bool_decide _); simpl; auto with datatypes.
Qed.

Lemma commit_deps (Hs : deps_stable es) last c :
  map (fun e => Some (eff_deps e (commit es last c c).1.1)) es = map (fun e => Some (eff_deps e c)) es.
Proof.
  apply map_ext_in. intros e' He'. f_equal.
  apply commit_deps_sub. intros e r c' He. apply Hs; assumption.
Qed.

(** Two passes are enough: the first runs what must run, the second
    finds every array unchanged.  The result is the first commit's. *)
Lemma settle_two (Hs : deps_stable es) c last :
  settle es 2 c last = Some ((commit es last c c).1.1, map (fun e => Some (eff_deps e c)) es).
Proof.
  cbn [settle]. destruct (commit es last c c) as [[c1 l1] b] eqn:E.
  pose proof (commit_last last c c) as Hl. pose proof (commit_deps Hs last c) as Hd.
  pose proof (commit_idle last c c) as Hi. rewrite E in Hl, Hd, Hi. simpl in *. subst l1.
  destruct b.
  - cbn [settle]. rewrite <- Hd, commit_quiet. reflexivity.
  - rewrite Hi by reflexivity. reflexivity.
Qed.

Lemma settle_two_quiescent (Hs : deps_stable es) c last :
  exists c', settle es 2 c last = Some (c', map (fun e => Some (eff_deps e c')) es).
Proof.
  eexists. rewrite settle_two by assumption. f_equal. f_equal.
  symmetry. apply (commit_deps Hs last c).
Qed.

End Settle.

(** ** The tracker's effects *)

Lemma filter_string_inj a b : filter_string a = filter_string b -> a = b.
Proof. destruct a as [[]|], b as [[]|]; simpl; intros H; solve [reflexivity | discriminate]. Qed.

Lemma filterOpportunities_all opps : filterOpportunities opps "" None = opps.
Proof. reflexivity. Qed.

Lemma tracker_deps_stable : deps_stable tracker_effects.
Proof.
  intros e e' r c He He'. simpl in He, He'.
  destruct He as [<-|[<-|[]]], He' as [<-|[<-|[]]]; simpl; try reflexivity.
  unfold filter_effect_run, filter_deps. destruct (_ && _); reflexivity.
Qed.

Lemma tracker_commit last v :
  let v' := (commit tracker_effects last v v).1.1 in
  tv_page v' = tv_page v /\ tv_opps_ref v' = tv_opps_ref v /\ (tv_next_ref v <= tv_next_ref v')%nat /\
  tv_loads v' = (if bool_decide (head last = Some (Some [])) then tv_loads v else S (tv_loads v)) /\
  tv_filtered v' = (if bool_decide (head (tail last) = Some (Some (filter_deps v)))
                    then tv_filtered v else tp_filtered (tv_page v)).
Proof.
  cbn [commit tracker_effects eff_deps eff_run]. cbv zeta.
  destruct (bool_decide (head last = _)), (bool_decide (head (tail last) = _)); simpl;
    unfold filter_effect_run, load_effect_run; try (split; [reflexivity|]);
    repeat (destruct (_ && _) eqn:Hb); simpl; repeat split; try lia;
    apply andb_prop in Hb as [Hs Hf]; apply String.eqb_eq in Hs; apply bool_decide_eq_true in Hf;
    unfold tp_filtered; rewrite Hs, Hf; reflexivity.
Qed.

Lemma view_event_page e v s :
  (tv_page (view_event e v s).1, (view_event e v s).2) = tracker_step e (tv_page v, s).
Proof.
  unfold view_event. destruct (tracker_step e _) as [p' s'].
  destruct e as [[]| | | | | | | | |]; reflexivity.
Qed.

Lemma tracker_inv_settle v last :
  tracker_inv v last ->
  tracker_inv (commit tracker_effects last v v).1.1 (map (fun e => Some (eff_deps e v)) tracker_effects).
Proof.
  intros (Hr & Hf & Hl). destruct (tracker_commit last v) as (Hp & Ho & Hn & Hlo & Hfi).
  cbn [map tracker_effects eff_deps head tail]. repeat split.
  - lia.
  - intros _. rewrite Hfi, Hp. case_bool_decide; [auto|reflexivity].
  - left. split; [|reflexivity]. rewrite Hlo. destruct Hl as [[-> ->]|[-> ->]]; reflexivity.
Qed.

Lemma filter_deps_eq v w :
  Some (Some (filter_deps v)) = Some (Some (filter_deps w)) ->
  tv_opps_ref v = tv_opps_ref w /\ tp_search (tv_page v) = tp_search (tv_page w) /\
  tp_filter (tv_page v) = tp_filter (tv_page w).
Proof. unfold filter_deps. intros [= -> -> Hf%filter_string_inj]. auto. Qed.

(** Between a settled render and the next event. *)
Lemma tracker_inv_event e v s :
  tracker_inv v [Some []; Some (filter_deps v)] ->
  tracker_inv (view_event e v s).1 [Some []; Some (filter_deps v)].
Proof.
  intros (Hr & Hf & Hl). cbn [head tail] in Hf, Hl. specialize (Hf eq_refl).
  pose proof (tracker_step_opps e (tv_page v) s) as Ho.
  unfold view_event in *. destruct (tracker_step e (tv_page v, s)) as [p' s'] eqn:Hst.
  unfold tracker_inv. cbn [head tail]. simpl in Ho.
  destruct e as [[]| | | | | | | | |]; simpl in *;
    (repeat split; [lia| |exact Hl]); intros (Href & Hse & Hfs)%filter_deps_eq; simpl in *;
    [lia|rewrite Hf; unfold tp_filtered; rewrite Ho by discriminate; congruence..].
Qed.

Lemma react_run_inv es v last s :
  tracker_inv v last ->
  exists v' s', react_run es v last s = Some (v', [Some []; Some (filter_deps v')], s') /\
    (tv_page v', s') = tracker_run es (tv_page v, s) /\ tracker_inv v' [Some []; Some (filter_deps v')].
Proof.
  revert v last s. induction es as [|e es IH]; intros v last s Hi; cbn [react_run];
    rewrite settle_two by exact tracker_deps_stable;
    pose proof (tracker_inv_settle v last Hi) as Hi';
    destruct (tracker_commit last v) as (Hp & Ho & _);
    set (v1 := (commit tracker_effects last v v).1.1) in *;
    assert (Hq : filter_deps v1 = filter_deps v) by (unfold filter_deps; rewrite Hp, Ho; reflexivity);
    cbn [map tracker_effects eff_deps] in Hi' |- *; rewrite <- Hq in Hi' |- *.
  - exists v1, s. rewrite Hp. auto.
  - pose proof (view_event_page e v1 s) as Hpg. pose proof (tracker_inv_event e v1 s Hi') as He.
    destruct (view_event e v1 s) as [v2 s2]. simpl in Hpg.
    destruct (IH v2 _ s2 He) as (v' & s' & Hrun & Hpage & Hinv).
    exists v', s'. split; [exact Hrun|split; [|exact Hinv]].
    rewrite Hpage, Hpg, Hp. reflexivity.
Qed.

Lemma tracker_inv_mount : tracker_inv tracker_mount [].
Proof. unfold tracker_inv. cbn. split; [lia|split; [discriminate|right; auto]]. Qed.

(** C36: the page's effect loop terminates: from the mount, after every
    sequence of events, each followed by React's re-running of the
    effects whose dependency arrays changed, two passes always reach a
    render after which no effect runs.  The page and the store are then
    those of the event model of [Tracker], [filteredOpportunities] is
    [tp_filtered] of that page, and [loadOpportunities] was started by the
    mount effect exactly once. *)
Theorem tracker_effects_terminate es s :
  exists v last s', react_run es tracker_mount [] s = Some (v, last, s') /\
    (tv_page v, s') = tracker_run es (tracker_init, s) /\
    quiescent tracker_effects v last /\
    tv_filtered v = tp_filtered (tv_page v) /\ tv_loads v = 1.
Proof.
  destruct (react_run_inv es tracker_mount [] s tracker_inv_mount) as (v & s' & Hrun & Hp & Hi).
  exists v, [Some []; Some (filter_deps v)], s'. split; [exact Hrun|split; [exact Hp|split; [reflexivity|]]].
  destruct Hi as (_ & Hf & [[Hl _]|[_ Hh]]); [split; auto|discriminate].
Qed.

(** One pass is not enough at the mount: both effects run, so a second
    render follows. *)
Example settle_one_pass_mount : settle tracker_effects 1 tracker_mount [] = None.
Proof. reflexivity. Qed.

(** Without a search or a filter, [filteredOpportunities] is the array of
    [opportunities] itself. *)
Example filtered_aliases_opportunities :
  match react_run [TLoad true] tracker_mount [] (post_opportunity empty_store (sample_opp "Acme" Review None)) with
  | Some (v, _, _) => tv_filtered_ref v = tv_opps_ref v /\ tv_filtered v = tp_opportunities (tv_page v)
  | None => False
  end.
Proof. vm_compute. split; reflexivity. Qed.

(** ** The pages loaded per route parameter *)

Lemma id_effects_stable : deps_stable id_effects.
Proof. intros e e' r c [<-|[]] [<-|[]]. reflexivity. Qed.

Lemma mount_effects_stable : deps_stable mount_effects.
Proof. intros e e' r c [<-|[]] [<-|[]]. reflexivity. Qed.

Lemma id_settle p last :
  settle id_effects 2 p last =
  Some (if bool_decide (head last = Some (Some [DStr (rp_id p)])) then p else loadData_start p p,
        [Some [DStr (rp_id p)]]).
Proof. rewrite settle_two by exact id_effects_stable. simpl. case_bool_decide; reflexivity. Qed.

Lemma mount_settle p last :
  settle mount_effects 2 p last =
  Some (if bool_decide (head last = Some (Some [])) then p else loadData_start p p, [Some []]).
Proof. rewrite settle_two by exact mount_effects_stable. simpl. case_bool_decide; reflexivity. Qed.

Lemma route_event_id_started e p :
  rp_started (route_event e p) = rp_started p /\
  rp_id (route_event e p) = match e with RNavigate i => i | RResolve _ => rp_id p end.
Proof. destruct e as [i|k]; simpl; [auto|]. destruct (rp_pending p !! k); auto. Qed.

Lemma id_settle_started p prev :
  let p1 := if bool_decide (Some (Some [DStr prev]) = Some (Some [DStr (rp_id p)])) then p else loadData_start p p in
  rp_id p1 = rp_id p /\ rp_started p1 = rp_started p ++ id_changes prev [rp_id p].
Proof.
  cbn zeta. cbn [id_changes]. destruct (String.eqb_spec (rp_id p) prev) as [<-|Hne].
  - rewrite bool_decide_true, app_nil_r by reflexivity. auto.
  - rewrite bool_decide_false by congruence. auto.
Qed.

Lemma id_changes_cons prev i ids :
  id_changes prev (i :: ids) = id_changes prev [i] ++ id_changes i ids.
Proof. simpl. destruct (String.eqb_spec i prev) as [->|]; reflexivity. Qed.

Lemma id_changes_event prev e p evs :
  rp_id p = prev ->
  id_changes prev (rp_id (route_event e p) :: navigations evs) = id_changes prev (navigations (e :: evs)).
Proof.
  intros Hp. destruct (route_event_id_started e p) as [_ ->].
  destruct e as [i|k]; cbn [navigations omap]; [reflexivity|]. subst. simpl. rewrite String.eqb_refl. reflexivity.
Qed.

Lemma route_run_id evs p prev :
  exists p', route_run id_effects evs p [Some [DStr prev]] = Some (p', [Some [DStr (rp_id p')]]) /\
    rp_started p' = rp_started p ++ id_changes prev (rp_id p :: navigations evs).
Proof.
  revert p prev. induction evs as [|e evs IH]; intros p prev; cbn [route_run]; rewrite id_settle;
    cbn [head]; destruct (id_settle_started p prev) as [Hi Hs];
    set (p1 := if bool_decide _ then p else loadData_start p p) in *.
  - exists p1. rewrite Hi, Hs. split; reflexivity.
  - destruct (IH (route_event e p1) (rp_id p)) as (p' & Hrun & Hs'). exists p'.
    split; [exact Hrun|]. destruct (route_event_id_started e p1) as [He _].
    rewrite Hs', He, Hs, <- app_assoc, (id_changes_cons prev (rp_id p) (navigations (e :: evs))).
    rewrite id_changes_event by exact Hi. reflexivity.
Qed.

Lemma route_run_mount evs p :
  exists p', route_run mount_effects evs p [Some []] = Some (p', [Some []]) /\ rp_started p' = rp_started p.
Proof.
  revert p. induction evs as [|e evs IH]; intros p; cbn [route_run]; rewrite mount_settle;
    rewrite bool_decide_true by reflexivity; [eauto|].
  destruct (IH (route_event e p)) as (p' & Hrun & Hs). exists p'. split; [exact Hrun|].
  rewrite Hs. apply route_event_id_started.
Qed.

(** C37: a page that loads with [[id]] starts [loadData] at its mount and
    then exactly when the route's identifier changes to a different one,
    whatever the navigations and responses in between; a page that loads
    with [[]] starts it once.  The effect loop settles after every
    event. *)
Theorem route_loads i0 evs :
  (exists p l, route_run id_effects evs (route_mount i0) [] = Some (p, l) /\
               rp_started p = i0 :: id_changes i0 (navigations evs)) /\
  (exists p l, route_run mount_effects evs (route_mount i0) [] = Some (p, l) /\ rp_started p = [i0]).
Proof.
  split; destruct evs as [|e evs]; cbn [route_run]; rewrite ?id_settle, ?mount_settle;
    rewrite bool_decide_false by discriminate; cbn [route_mount loadData_start rp_id rp_started]; eauto.
  - destruct (route_run_id evs (route_event e (mkRoutePage i0 [i0] [i0] None)) i0) as (p' & Hrun & Hs).
    eexists p', _. split; [exact Hrun|]. rewrite Hs, id_changes_event by reflexivity.
    destruct (route_event_id_started e (mkRoutePage i0 [i0] [i0] None)) as [-> _]. reflexivity.
  - destruct (route_run_mount evs (route_event e (mkRoutePage i0 [i0] [i0] None))) as (p' & Hrun & Hs).
    eexists p', _. split; [exact Hrun|]. rewrite Hs. apply route_event_id_started.
Qed.

(** C38: the responses are not matched against the current route: after
    a navigation from [a] to [b], when the response for [b] arrives before
    the older one for [a], the page for [b] ends up showing the data of
    [a], with nothing left pending. *)
Theorem stale_response_shown a b :
  a <> b ->
  route_run id_effects [RNavigate b; RResolve 1; RResolve 0] (route_mount a) [] =
  Some (mkRoutePage b [a; b] [] (Some a), [Some [DStr b]]).
Proof.
  intros Hab. cbn [route_run]. rewrite !id_settle. cbn [head route_mount].
  rewrite (bool_decide_false (None = _)) by discriminate.
  cbn [loadData_start route_event rp_id rp_started rp_pending rp_shown].
  rewrite (bool_decide_false (Some (Some [DStr a]) = _)) by congruence.
  simpl. rewrite !(bool_decide_true (Some (Some [DStr b]) = Some (Some [DStr b]))) by reflexivity.
  reflexivity.
Qed.

Lemma stale_response_shown_witness :
  "a" <> "b" /\
  route_run id_effects [RNavigate "b"; RResolve 1; RResolve 0] (route_mount "a") [] =
  Some (mkRoutePage "b" ["a"; "b"] [] (Some "a"), [Some [DStr "b"]]).
Proof. split; [discriminate|]. apply stale_response_shown. discriminate. Defined.
