(* ===== verification/Routes.v ===== *)
(** * Routes: the route table, the navigation links and the detail page

    [App.js] (lines 17-26) nests six routes under [Layout]: the index
    route [/] (dashboard), [/tracker], [/opportunity/:id],
    [/compliance/:id], [/documents/:id] and [/reports].  A path is matched
    the way React Router 6 matches these patterns: the path is cut into
    its non-empty segments, a static segment matches without regard to
    case, and [:id] matches any one segment.  [Layout.jsx] (lines 14-41)
    shows three links on every page; the pages add their own buttons
    ([BidTracker.jsx] 421, [OpportunityDetail.jsx] 50, 174, 182,
    [ComplianceChecker.jsx] 115, [DocumentManager.jsx] 119).

    [OpportunityDetail.jsx] loads the opportunity and its activities with
    [Promise.all] (lines 24-38) and shows a loading screen, "Opportunity
    not found", or the opportunity with its cards and buttons (40-46).

    [nav] is the relation "one click leads from this route to that one",
    for a store whose pages all loaded; reachability is its reflexive
    transitive closure.  When the tracker writes, its rows lag behind the
    store: [rows_backed] relates the rows it holds to the store and to the
    identifiers it deleted since its last successful load
    ([deleted_since_load]), over any run of its events. *)

From stdpp Require Import base list strings relations.
From Stdlib Require Import ZArith Ascii.
From S2P Require Import Prelude Entities Store Urgency Compliance Tracker.

(** ** Routes and paths *)

Inductive Route :=
| RDashboard
| RTracker
| ROpportunity (oid : string)
| RCompliance (oid : string)
| RDocuments (oid : string)
| RReports.

#[export] Instance Route_eq_dec : EqDecision Route.
Proof. solve_decision. Defined.

(** The path each page navigates to. *)
Definition route_path (r : Route) : string :=
  match r with
  | RDashboard => "/"
  | RTracker => "/tracker"
  | ROpportunity oid => "/opportunity/" +:+ oid
  | RCompliance oid => "/compliance/" +:+ oid
  | RDocuments oid => "/documents/" +:+ oid
  | RReports => "/reports"
  end.

(** The non-empty segments of a path, [acc] being the segment read so
    far. *)
Fixpoint segments_from (s acc : string) : list string :=
  match s with
  | EmptyString => if String.eqb acc "" then [] else [acc]
  | String c rest =>
      if Ascii.eqb c "/"%char then
        (if String.eqb acc "" then segments_from rest "" else acc :: segments_from rest "")
      else segments_from rest (acc +:+ String c EmptyString)
  end.

Definition segments (s : string) : list string := segments_from s "".

(** Does the static segment [lit] match [seg]? *)
Definition static_is (seg lit : string) : bool := String.eqb (to_lower seg) lit.

(** The route table of [App.js], lines 17-26; [None] when no route
    matches (the outlet renders nothing). *)
Definition match_route (path : string) : option Route :=
  match segments path with
  | [] => Some RDashboard
  | [a] => if static_is a "tracker" then Some RTracker
           else if static_is a "reports" then Some RReports
           else None
  | [a; x] => if static_is a "opportunity" then Some (ROpportunity x)
              else if static_is a "compliance" then Some (RCompliance x)
              else if static_is a "documents" then Some (RDocuments x)
              else None
  | _ => None
  end.

(** The identifier a route is about. *)
Definition route_id (r : Route) : option string :=
  match r with
  | ROpportunity oid | RCompliance oid | RDocuments oid => Some oid
  | _ => None
  end.

Fixpoint has_slash (s : string) : bool :=
  match s with
  | EmptyString => false
  | String c rest => Ascii.eqb c "/"%char || has_slash rest
  end.

(** An identifier that is one path segment. *)
Definition segment_id (oid : string) : bool :=
  negb (String.eqb oid "") && negb (has_slash oid).

(** ** The detail page *)

Record DetailPage := mkDetailPage {
  dt_id : string;
  dt_opportunity : option Opportunity;
  dt_activities : list Activity.t;
  dt_loading : bool;
  dt_toasts : list Toast
}.

Definition detail_init (oid : string) : DetailPage := mkDetailPage oid None [] true [].

(** [loadData], lines 24-38: the GET of a missing opportunity answers 404
    and rejects the [Promise.all]; then nothing is set. *)
Definition detail_loadData (ok : bool) (p : DetailPage) (s : Store) : DetailPage :=
  match (if ok then get_opportunity s (dt_id p) else None) with
  | Some o => mkDetailPage (dt_id p) (Some o) (activities_of s (dt_id p)) false (dt_toasts p)
  | None => mkDetailPage (dt_id p) (dt_opportunity p) (dt_activities p) false
                         (dt_toasts p ++ [ToastError "Failed to load opportunity details"])
  end.

Inductive DetailView :=
| DLoading
| DNotFound
| DShown (o : Opportunity) (activities : list Activity.t).

(** What the page renders, lines 40-46 and 48. *)
Definition detail_view (p : DetailPage) : DetailView :=
  if dt_loading p then DLoading
  else match dt_opportunity p with
       | None => DNotFound
       | Some o => DShown o (dt_activities p)
       end.

(** The compliance card and the details tab, lines 88-140: the stored
    percentage with its bucket, and industry and budget with [|| 'N/A']. *)
Definition detail_cards (o : Opportunity) : Z * ComplianceBucket * string * string :=
  (compliance_percentage o, compliance_bucket (compliance_percentage o),
   js_or_str (industry o) "N/A", js_or_str (budget o) "N/A").

(** ** Links *)

(** The sidebar of [Layout.jsx], lines 14-41, shown on every route. *)
Definition layout_links : list Route := [RDashboard; RTracker; RReports].

(** The buttons of a rendered detail page, lines 50, 174 and 182. *)
Definition detail_links (p : DetailPage) : list Route :=
  match detail_view p with
  | DShown _ _ => [RTracker; RCompliance (dt_id p); RDocuments (dt_id p)]
  | _ => []
  end.

(** One click, for a store [s] that the pages only read and whose loads
    succeed: a sidebar link; the view button of a row the tracker lists
    once it has loaded, for any search and filter; a button of the detail
    page once it has loaded; the back buttons of the compliance and
    document pages. *)
Inductive nav (s : Store) : Route -> Route -> Prop :=
| nav_layout r r' : In r' layout_links -> nav s r r'
| nav_tracker term sf o :
    In o (tp_filtered (tracker_run [TLoad true; TSearch term; TFilter sf] (tracker_init, s)).1) ->
    nav s RTracker (ROpportunity (id o))
| nav_detail oid r' :
    In r' (detail_links (detail_loadData true (detail_init oid) s)) -> nav s (ROpportunity oid) r'
| nav_back_compliance oid : nav s (RCompliance oid) (ROpportunity oid)
| nav_back_documents oid : nav s (RDocuments oid) (ROpportunity oid).

(** The identifiers the tracker page deleted, by a confirmed and
    successful [handleDelete], since its last successful load, starting
    from [acc]. *)
Fixpoint deleted_since_load (es : list TrackerEvent) (acc : list string) : list string :=
  match es with
  | [] => acc
  | TLoad true :: es' => deleted_since_load es' []
  | TDelete oid true true :: es' => deleted_since_load es' (oid :: acc)
  | _ :: es' => deleted_since_load es' acc
  end.

(** Every opportunity the tracker page holds exists in the store, or was
    deleted by the page since it loaded. *)
Definition rows_backed (p : TrackerPage) (s : Store) (del : list string) : Prop :=
  forall o, In o (tp_opportunities p) -> (exists x, get_opportunity s (id o) = Some x) \/ In (id o) del.

(** A store with one opportunity, ["opp-0"]. *)
Definition nav_sample_store : Store := post_opportunity empty_store (sample_opp "Acme" Review None).

(** That opportunity as stored. *)
Definition sample_opp_stored : Opportunity :=
  mkOpportunity "opp-0" "Acme" "Software" "2024-01-01" None "Owner" Review 0 Medium "" [] Portal None None.

(** ** Lemmas *)

Lemma segments_from_segment s acc :
  has_slash s = false -> acc +:+ s <> "" -> segments_from s acc = [acc +:+ s].
Proof.
  revert acc. induction s as [|c rest IH]; intros acc Hs Hne; simpl.
  - rewrite string_app_nil_r in *. destruct (String.eqb_spec acc ""); [contradiction|reflexivity].
  - simpl in Hs. apply orb_false_iff in Hs as [Hc Hr]. rewrite Hc.
    rewrite IH by (rewrite ?string_app_assoc; simpl; exact Hr || (destruct acc; discriminate)).
    rewrite string_app_assoc. reflexivity.
Qed.

Lemma segments_segment_id oid : segment_id oid = true -> segments_from oid "" = [oid].
Proof.
  unfold segment_id. intros H. apply andb_prop in H as [Hne Hs].
  apply negb_true_iff in Hne, Hs. apply segments_from_segment; [exact Hs|].
  change ("" +:+ oid) with oid. intros Heq. rewrite Heq in Hne. discriminate.
Qed.

Lemma get_opportunity_in s o :
  In o (st_opportunities s) -> exists o', get_opportunity s (id o) = Some o'.
Proof.
  intros Hin. unfold get_opportunity. destruct (List.find _ _) as [o'|] eqn:E; [eauto|].
  exfalso. apply (List.find_none _ _ E) in Hin. rewrite String.eqb_refl in Hin. discriminate.
Qed.

Lemma filterOpportunities_in opps term sf o :
  In o (filterOpportunities opps term sf) -> In o opps.
Proof.
  unfold filterOpportunities. intros H.
  destruct sf; [apply filter_In in H as [H _]|];
    destruct (String.eqb term ""); try (apply filter_In in H as [H _]); exact H.
Qed.

Lemma detail_links_loaded s oid r :
  In r (detail_links (detail_loadData true (detail_init oid) s)) ->
  (exists o, get_opportunity s oid = Some o) /\ In r [RTracker; RCompliance oid; RDocuments oid].
Proof.
  unfold detail_links, detail_loadData, detail_view. simpl.
  destruct (get_opportunity s oid) as [o|]; simpl; [eauto|intros []].
Qed.

Lemma detail_shown s oid :
  (exists x, get_opportunity s oid = Some x) ->
  exists o acts, detail_view (detail_loadData true (detail_init oid) s) = DShown o acts.
Proof.
  intros [x Hx]. unfold detail_loadData, detail_view. simpl. rewrite Hx. eauto.
Qed.

Lemma handleSubmit_keeps ok p s oid :
  (exists x, get_opportunity s oid = Some x) ->
  exists x, get_opportunity (BidTracker.handleSubmit ok p s).2 oid = Some x.
Proof.
  intros Hx. unfold BidTracker.handleSubmit.
  destruct (js_truthy_id (tp_editingId p)) as [rid|]; destruct ok; simpl; try exact Hx.
  - destruct (put_opportunity s rid _) as [s'|] eqn:E; simpl; [|exact Hx].
    exact (put_opportunity_keeps _ _ _ _ _ E Hx).
  - apply post_opportunity_keeps, Hx.
Qed.

Lemma tracker_step_backed e p s del :
  rows_backed p s del ->
  rows_backed (tracker_step e (p, s)).1 (tracker_step e (p, s)).2 (deleted_since_load [e] del).
Proof.
  intros H o. destruct e as [[]|t|sf| |i|v| |o'|ok|oid c ok];
    [simpl; intros Hin; left; apply get_opportunity_in, Hin|..];
    rewrite tracker_step_opps by discriminate; intros Hin; destruct (H o Hin) as [Hx|Hd];
    simpl; auto.
  - destruct (tp_dialog p && form_valid (tp_form p)); simpl; [left; apply handleSubmit_keeps, Hx|auto].
  - unfold BidTracker.handleDelete. destruct c, ok; simpl; auto.
    destruct (String.eqb_spec (id o) oid) as [->|Hne]; [right; left; reflexivity|].
    left. apply delete_opportunity_keeps; assumption.
  - unfold BidTracker.handleDelete. destruct c, ok; simpl; auto.
Qed.

Lemma tracker_run_backed es p s del :
  rows_backed p s del ->
  rows_backed (tracker_run es (p, s)).1 (tracker_run es (p, s)).2 (deleted_since_load es del).
Proof.
  revert p s del. induction es as [|e es IH]; intros p s del H; [exact H|].
  change (tracker_run (e :: es) (p, s)) with (tracker_run es (tracker_step e (p, s))).
  pose proof (tracker_step_backed e p s del H) as H'.
  replace (deleted_since_load (e :: es) del) with (deleted_since_load es (deleted_since_load [e] del))
    by (destruct e as [[]| | | | | | | |ok|oid [] []]; reflexivity).
  destruct (tracker_step e (p, s)) as [p' s']. exact (IH p' s' _ H').
Qed.

(** C28: every route's path is matched back to that route by the route
    table, provided its identifier is one non-empty path segment (the
    store's identifiers are); static segments also match in any case. *)
Theorem route_roundtrip r :
  (forall oid, route_id r = Some oid -> segment_id oid = true) ->
  match_route (route_path r) = Some r.
Proof.
  intros H. destruct r as [| |oid|oid|oid|]; try reflexivity;
    specialize (H oid eq_refl); unfold match_route, segments, route_path;
    cbv [String.append]; simpl; rewrite (segments_segment_id oid H); reflexivity.
Qed.

(** C29: after its load the detail page shows the opportunity with exactly
    its logged activities, in log order, when the requests succeed and the
    opportunity exists; otherwise it shows "Opportunity not found", also
    when only the network failed. *)
Theorem detail_view_after_load ok oid s :
  let v := detail_view (detail_loadData ok (detail_init oid) s) in
  (v = DNotFound <-> ok = false \/ get_opportunity s oid = None) /\
  (forall o acts, v = DShown o acts <->
     ok = true /\ get_opportunity s oid = Some o /\ acts = activities_of s oid) /\
  v <> DLoading.
Proof.
  cbv zeta. unfold detail_loadData, detail_view, detail_init. cbn [dt_id dt_loading dt_opportunity].
  destruct ok; [destruct (get_opportunity s oid) as [o'|] eqn:E|]; simpl.
  - split; [split; [discriminate|intros [H|H]; discriminate]|split; [|discriminate]].
    intros o acts. split; [intros H; injection H as <- <-; auto|].
    intros (_ & H & ->). injection H as <-. reflexivity.
  - split; [split; [intros _; right; reflexivity|reflexivity]|split; [|discriminate]].
    intros o acts. split; [discriminate|intros (_ & H & _); discriminate].
  - split; [split; [intros _; left; reflexivity|reflexivity]|split; [|discriminate]].
    intros o acts. split; [discriminate|intros (H & _); discriminate].
Qed.

(** C30: from the page's mount, whatever the events and request outcomes,
    the view button of a row the tracker lists opens a detail page that
    shows the opportunity, unless the page itself deleted that opportunity
    after its last successful load: a successful DELETE leaves the row
    listed until the reload arrives (for good if the reload fails), and its
    view button then leads to "Opportunity not found"
    ([stale_row_not_found]). *)
Theorem tracker_rows_open es s o :
  let ps := tracker_run es (tracker_init, s) in
  In o (tp_filtered ps.1) ->
  (exists o' acts, detail_view (detail_loadData true (detail_init (id o)) ps.2) = DShown o' acts) \/
  In (id o) (deleted_since_load es []).
Proof.
  cbv zeta. intros Hin. apply filterOpportunities_in in Hin.
  assert (H0 : rows_backed tracker_init s []) by (intros x []).
  destruct (tracker_run_backed es _ _ _ H0 o Hin) as [Hx|Hd]; [left; apply detail_shown, Hx|right; exact Hd].
Qed.

(** C31: the compliance checker and the document manager of every stored
    opportunity are reachable from the dashboard in four clicks
    (sidebar, view button, detail button). *)
Theorem opportunity_pages_reachable s o :
  In o (st_opportunities s) ->
  rtc (nav s) RDashboard (RCompliance (id o)) /\ rtc (nav s) RDashboard (RDocuments (id o)).
Proof.
  intros Hin. destruct (get_opportunity_in s o Hin) as [o' Ho].
  assert (Hd : rtc (nav s) RDashboard (ROpportunity (id o))).
  { eapply rtc_l; [apply nav_layout; right; left; reflexivity|].
    eapply rtc_l; [apply (nav_tracker s "" None o); simpl; exact Hin|]. apply rtc_refl. }
  assert (Hl : detail_links (detail_loadData true (detail_init (id o)) s)
               = [RTracker; RCompliance (id o); RDocuments (id o)]).
  { unfold detail_links, detail_loadData, detail_view. simpl. rewrite Ho. reflexivity. }
  split; (eapply rtc_r; [exact Hd|]); apply nav_detail; rewrite Hl; simpl; auto.
Qed.

Lemma route_roundtrip_witness :
  (forall oid, route_id (RCompliance "opp-0") = Some oid -> segment_id oid = true) /\
  match_route (route_path (RCompliance "opp-0")) = Some (RCompliance "opp-0").
Proof.
  assert (H : forall oid, route_id (RCompliance "opp-0") = Some oid -> segment_id oid = true)
    by (intros oid Hid; injection Hid as <-; reflexivity).
  split; [exact H|]. apply route_roundtrip, H.
Defined.

(** Loading, deleting [opp-0] and failing to reload. *)
Definition stale_events : list TrackerEvent := [TLoad true; TDelete "opp-0" true true; TLoad false].

Lemma tracker_rows_open_witness :
  let ps := tracker_run stale_events (tracker_init, nav_sample_store) in
  In (sample_opp_stored) (tp_filtered ps.1) /\
  ((exists o' acts, detail_view (detail_loadData true (detail_init (id sample_opp_stored)) ps.2) = DShown o' acts) \/
   In (id sample_opp_stored) (deleted_since_load stale_events [])).
Proof.
  cbv zeta.
  assert (H : In sample_opp_stored (tp_filtered (tracker_run stale_events (tracker_init, nav_sample_store)).1))
    by (vm_compute; left; reflexivity).
  split; [exact H|]. exact (tracker_rows_open stale_events nav_sample_store _ H).
Defined.

(** The stale row of [stale_events]: still listed, its opportunity gone. *)
Example stale_row_not_found :
  In sample_opp_stored (tp_filtered (tracker_run stale_events (tracker_init, nav_sample_store)).1) /\
  detail_view (detail_loadData true (detail_init "opp-0") (tracker_run stale_events (tracker_init, nav_sample_store)).2)
  = DNotFound.
Proof. split; [vm_compute; left; reflexivity|vm_compute; reflexivity]. Qed.

Lemma opportunity_pages_reachable_witness :
  In (mkOpportunity "opp-0" "Acme" "Software" "2024-01-01" None "Owner" Review 0 Medium "" [] Portal None None)
     (st_opportunities nav_sample_store) /\
  rtc (nav nav_sample_store) RDashboard (RCompliance "opp-0").
Proof.
  assert (H : In (mkOpportunity "opp-0" "Acme" "Software" "2024-01-01" None "Owner" Review 0 Medium "" []
                                Portal None None) (st_opportunities nav_sample_store)) by (left; reflexivity).
  split; [exact H|]. exact (proj1 (opportunity_pages_reachable _ _ H)).
Defined.
