(* ===== verification/Views.v ===== *)
(** * Views: what the pages render from their state

    The JSX of five pages, as the values and classes it renders: the
    tracker's table ([BidTracker.jsx] 370-450), the compliance checker's
    screen and matrix ([ComplianceChecker.jsx] 96-123 and 236-287), the
    document manager's screen, list and summary cards
    ([DocumentManager.jsx] 110-291), the detail page
    ([OpportunityDetail.jsx] 48-220) and the dashboard
    ([Dashboard.jsx] 36-219, its charts being commented out).  A row
    keeps its React [key], its [data-testid], the texts and classes of
    its cells and the target of its buttons; [toLocaleString] dates and
    icons' colours are not modelled.  The tracker's table is rendered
    from [filteredOpportunities], which is [tp_filtered] of the page
    after the effect loop ([Effects.tracker_effects_terminate]). *)

From stdpp Require Import base list strings.
From Stdlib Require Import ZArith.
From S2P Require Import Prelude Entities Store Urgency Compliance Statistics Reports Checker Documents Tracker Routes.
Import ComplianceChecker DocumentManager.

(** [{opportunity?.client} - {opportunity?.project_type}], the subtitle of
    the compliance checker and the document manager: [undefined] renders
    as nothing, so a page without its opportunity reads " - ". *)
Definition page_subtitle (o : option Opportunity) : string :=
  match o with
  | Some o => client o +:+ " - " +:+ project_type o
  | None => " - "
  end.

Module TrackerTable.

(** One [<tr>] of lines 388-446. *)
Record Row := mkRow {
  row_key : string;
  row_testid : string;
  row_client : string;
  row_project_type : string;
  row_owner : string;
  row_deadline_class : DeadlineClass;
  row_status_badge : string;
  row_priority_badge : string;
  row_fill : ComplianceBucket;
  row_percent : string;
  row_view : Route
}.

(** [`badge badge-${label.toLowerCase()}`], lines 396 and 399. *)
Definition badge_class (label : string) : string := "badge badge-" +:+ to_lower label.

Definition row (now : Z) (o : Opportunity) : Row :=
  mkRow (id o) ("opportunity-row-" +:+ id o) (client o) (project_type o) (proposal_owner o)
        (getDeadlineClass (submission_deadline o) (status o) now)
        (badge_class (status_to_string (status o))) (badge_class (priority_to_string (priority_level o)))
        (compliance_bucket (compliance_percentage o)) (num_str (compliance_percentage o) +:+ "%")
        (ROpportunity (id o)).

(** The rows of [filteredOpportunities] and, when it is empty, the
    message of lines 449-453. *)
Record Table := mkTable { tbl_rows : list Row; tbl_empty_message : bool }.

Definition table (now : Z) (p : TrackerPage) : Table :=
  mkTable (map (row now) (tp_filtered p)) (Nat.eqb (length (tp_filtered p)) 0).

End TrackerTable.

Module ComplianceMatrix.

Inductive StatusIcon := CheckCircle | XCircle | AlertCircle.

#[export] Instance StatusIcon_eq_dec : EqDecision StatusIcon.
Proof. solve_decision. Defined.

(** [getStatusIcon], lines 96-105. *)
Definition getStatusIcon (s : ComplianceStatus) : StatusIcon :=
  match s with
  | Compliant => CheckCircle
  | NonCompliant => XCircle
  | Pending => AlertCircle
  end.

(** The badge of line 264. *)
Definition status_badge (s : ComplianceStatus) : string :=
  "badge badge-" +:+ (match s with Compliant => "approved" | NonCompliant => "lost" | Pending => "review" end).

(** One item of lines 247-282; the notes line is rendered when
    [item.notes] is truthy. *)
Record MRow := mkMRow {
  m_key : string;
  m_testid : string;
  m_icon : StatusIcon;
  m_requirement : string;
  m_notes : option string;
  m_assigned_to : string;
  m_badge : string;
  m_label : string;
  m_delete : string
}.

Definition matrix_row (i : ComplianceItem.t) : MRow :=
  mkMRow (ComplianceItem.id i) ("compliance-item-" +:+ ComplianceItem.id i)
         (getStatusIcon (ComplianceItem.status i)) (ComplianceItem.requirement i)
         (if String.eqb (ComplianceItem.notes i) "" then None else Some (ComplianceItem.notes i))
         (ComplianceItem.assigned_to i) (status_badge (ComplianceItem.status i))
         (compliance_status_to_string (ComplianceItem.status i)) (ComplianceItem.id i).

(** Lines 242-285: the message when there is no item, the rows
    otherwise. *)
Definition matrix (p : CheckerPage) : option (list MRow) :=
  if Nat.eqb (length (cp_items p)) 0 then None else Some (map matrix_row (cp_items p)).

(** The page, lines 106-287: the loading screen, or the subtitle, the
    three cards and the matrix.  There is no screen for a missing
    opportunity. *)
Definition checker_screen (p : CheckerPage)
  : option (string * (option Z * ComplianceBucket * nat * nat) * option (list MRow)) :=
  if cp_loading p then None else Some (page_subtitle (cp_opportunity p), checker_cards p, matrix p).

End ComplianceMatrix.

Module DocumentList.

(** One document of lines 242-272. *)
Record DRow := mkDRow {
  d_key : string;
  d_testid : string;
  d_name : string;
  d_version_line : string;
  d_badge : string;
  d_delete : string * string
}.

Definition doc_row (d : Document.t) : DRow :=
  mkDRow (Document.id d) ("document-" +:+ Document.id d) (Document.document_name d)
         ("Version " +:+ Document.version d +:+ " • Uploaded by " +:+ Document.uploaded_by d)
         (Document.version d) (Document.id d, Document.document_name d).

(** One category card of lines 233-276. *)
Record Card := mkCard {
  card_key : string;
  card_count : string;
  card_rows : list DRow
}.

Definition category_card (g : Category * list Document.t) : Card :=
  mkCard (category_to_string g.1) (num_str (Z.of_nat (length g.2)) +:+ " document(s)") (map doc_row g.2).

(** The three cards of lines 194-221: total, categories, and the
    "Latest Upload", the date of [documents[0]] ('N/A' for none). *)
Record Summary := mkSummary {
  s_total : nat;
  s_categories : nat;
  s_latest : option Document.t
}.

Definition summary (docs : list Document.t) : Summary :=
  mkSummary (length docs) (length (groupDocumentsByCategory docs)) (head docs).

(** Lines 223-278: the message when there is no category, the cards
    otherwise. *)
Definition document_view (p : DocPage) : Summary * option (list Card) :=
  let g := groupDocumentsByCategory (dp_documents p) in
  (summary (dp_documents p), if Nat.eqb (length g) 0 then None else Some (map category_card g)).

(** The page, lines 110-291: the loading screen, or the subtitle and the
    cards and list. *)
Definition doc_screen (p : DocPage) : option (string * (Summary * option (list Card))) :=
  if dp_loading p then None else Some (page_subtitle (dp_opportunity p), document_view p).

End DocumentList.

Module DetailRender.

(** The stored value of the submission format, the [SelectItem] values of
    [BidTracker.jsx] 293-295. *)
Definition submission_format_to_string (f : SubmissionFormat) : string :=
  match f with Portal => "Portal" | Email => "Email" | Hybrid => "Hybrid" end.

(** The header of [OpportunityDetail.jsx] 55-66: title, subtitle and the
    two badges, the priority's reading "<p> Priority". *)
Record Header := mkHeader {
  h_title : string;
  h_subtitle : string;
  h_status_badge : string;
  h_priority_badge : string;
  h_priority_label : string
}.

Definition header (o : Opportunity) : Header :=
  mkHeader (client o) (project_type o) (TrackerTable.badge_class (status_to_string (status o)))
           (TrackerTable.badge_class (priority_to_string (priority_level o)))
           (priority_to_string (priority_level o) +:+ " Priority").

(** The owner card and the details tab, lines 101-170: the portal link
    when truthy, the risk flags when there are some. *)
Record Details := mkDetails {
  dt_owner_line : string;
  dt_rfp_release_date : string;
  dt_industry : string;
  dt_budget : string;
  dt_format : string;
  dt_portal_link : option string;
  dt_risk_flags : option (list string)
}.

Definition details (o : Opportunity) : Details :=
  mkDetails (submission_format_to_string (submission_format o) +:+ " Submission")
            (rfp_release_date o) (js_or_str (industry o) "N/A") (js_or_str (budget o) "N/A")
            (submission_format_to_string (submission_format o))
            (if String.eqb (portal_link o) "" then None else Some (portal_link o))
            (match risk_flags o with [] => None | fl => Some fl end).

(** One entry of the activity log, lines 205-213 (the date is not
    modelled). *)
Record ActRow := mkActRow {
  a_type : string;
  a_description : string;
  a_by : string
}.

Definition act_row (a : Activity.t) : ActRow :=
  mkActRow (Activity.activity_type a) (Activity.description a) ("by " +:+ Activity.user a).

Inductive ActivityLog := LogEmpty | LogRows (rows : list ActRow).

(** Lines 200-216: the message when there is no activity, the entries
    otherwise. *)
Definition activity_log (acts : list Activity.t) : ActivityLog :=
  if Nat.eqb (length acts) 0 then LogEmpty else LogRows (map act_row acts).

(** The page once loaded, lines 48-220; [None] for the loading and
    not-found screens. *)
Definition detail_render (p : DetailPage) : option (Header * Details * ActivityLog) :=
  match detail_view p with
  | DShown o acts => Some (header o, details o, activity_log acts)
  | _ => None
  end.

End DetailRender.

Module DashboardRender.

(** The urgent alert of [Dashboard.jsx] 65-76, shown when
    [urgentOpportunities] is not empty:
    [{n} Urgent Deadline{n > 1 ? 's' : ''}]. *)
Definition urgent_alert (now : Z) (opps : list Opportunity) : option string :=
  let n := length (dashboard_urgentOpportunities now opps) in
  if Nat.eqb n 0 then None
  else Some (num_str (Z.of_nat n) +:+ " Urgent Deadline" +:+ (if Nat.ltb 1 n then "s" else "")).

(** One recent-opportunity card, lines 181-216. *)
Record RecentCard := mkRecentCard {
  rc_key : string;
  rc_testid : string;
  rc_client : string;
  rc_project_type : string;
  rc_badge : string;
  rc_deadline : DeadlineClass;
  rc_fill : ComplianceBucket;
  rc_percent : string
}.

Definition recent_card (now : Z) (o : Opportunity) : RecentCard :=
  mkRecentCard (id o) ("opportunity-" +:+ id o) (client o) (project_type o)
               (TrackerTable.badge_class (status_to_string (status o)))
               (recent_card_class (submission_deadline o) now)
               (compliance_bucket (compliance_percentage o)) (num_str (compliance_percentage o) +:+ "%").

Inductive DashScreen :=
| DashLoading
| DashShown (alert : option string) (cards : Z * Z * Z * Z) (recent : list RecentCard).

(** The page, lines 36-219: the loading screen, or the alert, the four
    statistic cards and the first five opportunities (the charts of
    lines 129-167 are commented out). *)
Definition dashboard_render (now : Z) (p : DashPage) : DashScreen :=
  if db_loading p then DashLoading
  else DashShown (urgent_alert now (db_opportunities p)) (dashboard_cards (db_statistics p))
                 (map (recent_card now) (take 5 (db_opportunities p))).

End DashboardRender.

Import TrackerTable ComplianceMatrix DocumentList DetailRender DashboardRender.

(** The identifiers the store holds, and those of the list each page
    keeps, are unique. *)
Definition tracker_ids_ok (ps : TrackerPage * Store) : Prop :=
  store_ids_ok ps.2 /\ NoDup (map id (tp_opportunities ps.1)).

Definition checker_ids_ok (ps : CheckerPage * Store) : Prop :=
  store_ids_ok ps.2 /\ NoDup (map ComplianceItem.id (cp_items ps.1)).

Definition doc_ids_ok (ps : DocPage * Store) : Prop :=
  store_ids_ok ps.2 /\ NoDup (map Document.id (dp_documents ps.1)).

(** ** Keys of the rendered lists *)

Lemma prefixed_keys_nodup (pre : string) l : NoDup l -> NoDup (map (fun k => pre +:+ k) l).
Proof. apply NoDup_map_inj. intros a b. apply string_app_inj_l. Qed.

Lemma keyed_rows_nodup {A R} (f : A -> R) (key : A -> string) (rkey rtest : R -> string) (pre : string) l :
  (forall x, rkey (f x) = key x) -> (forall x, rtest (f x) = pre +:+ key x) ->
  NoDup (map key l) -> NoDup (map rkey (map f l)) /\ NoDup (map rtest (map f l)).
Proof.
  intros Hk Ht Hn. rewrite !List.map_map. split.
  - erewrite map_ext; [exact Hn|]. exact Hk.
  - erewrite map_ext; [|exact Ht]. rewrite <- (List.map_map key (fun k => pre +:+ k)).
    apply prefixed_keys_nodup, Hn.
Qed.

Lemma tracker_step_store_ids e p s : store_ids_ok s -> store_ids_ok (tracker_step e (p, s)).2.
Proof.
  intros H. destruct e as [ok|t|sf| |f|v| |o|ok|oid c ok]; simpl; try exact H.
  - destruct (tp_dialog p && form_valid (tp_form p)); [|exact H]. unfold BidTracker.handleSubmit.
    destruct (js_truthy_id (tp_editingId p)) as [oid|]; destruct ok;
      cbn -[put_opportunity post_opportunity]; try exact H.
    + destruct (put_opportunity s oid (opp_of_form oid (tp_form p))) eqn:E;
        cbn -[put_opportunity post_opportunity]; [eapply put_opportunity_ids; eassumption|exact H].
    + apply post_opportunity_ids, H.
  - unfold BidTracker.handleDelete. destruct c, ok; simpl; auto using delete_opportunity_ids.
Qed.

Lemma tracker_step_ids e ps : tracker_ids_ok ps -> tracker_ids_ok (tracker_step e ps).
Proof.
  destruct ps as [p s]. intros [Hs Hp]. split; [apply tracker_step_store_ids, Hs|].
  destruct e as [[]| | | | | | | | |]; [exact (proj1 (proj1 Hs))|..];
    rewrite tracker_step_opps by discriminate; exact Hp.
Qed.

Lemma tracker_run_ids es ps : tracker_ids_ok ps -> tracker_ids_ok (tracker_run es ps).
Proof.
  revert ps. induction es as [|e es IH]; intros ps H; [exact H|]. apply IH, tracker_step_ids, H.
Qed.

Lemma tp_filtered_ids p : NoDup (map id (tp_opportunities p)) -> NoDup (map id (tp_filtered p)).
Proof.
  intros H. unfold tp_filtered, filterOpportunities.
  assert (H1 : NoDup (map id (if String.eqb (tp_search p) "" then tp_opportunities p
                               else List.filter (matches_search (tp_search p)) (tp_opportunities p))))
    by (destruct (String.eqb _ _); [exact H|apply NoDup_map_filter, H]).
  destruct (tp_filter p); [apply NoDup_map_filter|]; exact H1.
Qed.

Lemma checker_step_ids e ps : checker_ids_ok ps -> checker_ids_ok (checker_step e ps).
Proof.
  destruct ps as [p s]. intros [Hs Hp]. destruct e as [ok| |i| |ok|iid c ok]; simpl; try (split; assumption).
  - unfold ComplianceChecker.loadData. destruct (if ok then get_opportunity s (cp_id p) else None);
      split; simpl; try assumption. apply NoDup_map_filter, (proj1 (proj1 (proj2 Hs))).
  - destruct (cp_dialog p && comp_form_valid (cp_form p)); [|split; assumption].
    unfold ComplianceChecker.handleSubmit. destruct ok; split; simpl; auto using post_compliance_ids.
  - unfold ComplianceChecker.handleDelete. destruct c, ok; split; simpl; auto using delete_compliance_ids.
Qed.

Lemma checker_run_ids es ps : checker_ids_ok ps -> checker_ids_ok (checker_run es ps).
Proof.
  revert ps. induction es as [|e es IH]; intros ps H; [exact H|]. apply IH, checker_step_ids, H.
Qed.

Lemma doc_step_ids e ps : doc_ids_ok ps -> doc_ids_ok (doc_step e ps).
Proof.
  destruct ps as [p s]. intros [Hs Hp]. destruct e as [|i| |ok1 ok2|ok|d c ok]; simpl; try (split; assumption).
  - destruct (dp_dialog p && doc_form_valid (dp_form p)); [|split; assumption].
    unfold DocumentManager.handleSubmit. destruct ok1, ok2; split; simpl;
      auto using post_document_ids, post_activity_ids.
  - unfold DocumentManager.loadData. destruct (if ok then get_opportunity s (dp_id p) else None);
      split; simpl; try assumption. apply NoDup_map_filter, (proj1 (proj2 (proj2 Hs))).
  - unfold DocumentManager.handleDelete. destruct c, ok; split; simpl; auto using delete_document_ids.
Qed.

Lemma doc_run_ids es ps : doc_ids_ok ps -> doc_ids_ok (doc_run es ps).
Proof.
  revert ps. induction es as [|e es IH]; intros ps H; [exact H|]. apply IH, doc_step_ids, H.
Qed.

(** ** The document list *)

Lemma group_insert_concat d g :
  concat (map snd (group_insert d g)) ≡ₚ concat (map snd g) ++ [d].
Proof.
  induction g as [|[c ds] g IH]; simpl; [reflexivity|].
  case_bool_decide; simpl.
  - rewrite <- !app_assoc. apply Permutation_app_head. simpl. apply Permutation_cons_append.
  - rewrite IH, app_assoc. reflexivity.
Qed.

Lemma groupDocumentsByCategory_concat docs :
  concat (map snd (groupDocumentsByCategory docs)) ≡ₚ docs.
Proof.
  unfold groupDocumentsByCategory.
  assert (H : forall g, concat (map snd (fold_left (fun g d => group_insert d g) docs g))
                        ≡ₚ concat (map snd g) ++ docs).
  { induction docs as [|d docs IH]; intros g; simpl; [rewrite app_nil_r; reflexivity|].
    rewrite IH, group_insert_concat, <- app_assoc. reflexivity. }
  rewrite H. reflexivity.
Qed.

Lemma card_rows_concat g :
  concat (map card_rows (map category_card g)) = map doc_row (concat (map snd g)).
Proof. rewrite concat_map, !List.map_map. reflexivity. Qed.

Lemma category_to_string_inj a b : category_to_string a = category_to_string b -> a = b.
Proof. destruct a, b; simpl; intros H; solve [reflexivity | discriminate]. Qed.

Lemma group_lookup_in c ds g : NoDup (map fst g) -> In (c, ds) g -> group_lookup c g = ds.
Proof.
  induction g as [|[c' ds'] g IH]; simpl; [intros _ []|]. intros Hn [[= -> ->]|Hin].
  - rewrite bool_decide_true by reflexivity. reflexivity.
  - apply NoDup_cons in Hn as [Hc Hn]. rewrite bool_decide_false; [auto|].
    intros ->. apply Hc, list_elem_of_In, in_map_iff. exists (c, ds). auto.
Qed.

(** C40: the document manager shows every loaded document exactly once:
    the message appears exactly when there is none; otherwise the cards,
    one per category, hold between them the rows of all the documents,
    each card holds the documents of its category in list order, and the
    Total and Categories cards count the rows and the cards shown. *)
Theorem document_view_complete p :
  (dp_documents p = [] -> (document_view p).2 = None) /\
  match (document_view p).2 with
  | None => dp_documents p = []
  | Some cards =>
      concat (map card_rows cards) ≡ₚ map doc_row (dp_documents p) /\
      NoDup (map card_key cards) /\
      (forall c, In (category_to_string c) (map card_key cards) ->
         exists card, In card cards /\ card_key card = category_to_string c /\
           card_rows card = map doc_row (List.filter (fun d => bool_decide (Document.category d = c)) (dp_documents p))) /\
      s_total (document_view p).1 = length (concat (map card_rows cards)) /\
      s_categories (document_view p).1 = length cards
  end.
Proof.
  split; [intros E; unfold document_view; rewrite E; reflexivity|].
  destruct (groupDocumentsByCategory_spec (dp_documents p)) as [Hn Hl].
  pose proof (groupDocumentsByCategory_concat (dp_documents p)) as Hc.
  unfold document_view. cbv zeta. cbn [snd fst].
  destruct (Nat.eqb_spec (length (groupDocumentsByCategory (dp_documents p))) 0) as [E|E].
  - apply length_zero_iff_nil in E. rewrite E in Hc. simpl in Hc.
    exact (Permutation_nil Hc).
  - set (g := groupDocumentsByCategory (dp_documents p)) in *.
    pose proof (card_rows_concat g) as Hrows.
    split; [rewrite Hrows, Hc; reflexivity|]. split; [|split; [|split]].
    + rewrite List.map_map. apply (NoDup_map_inj (fun c => category_to_string c) (map fst g)) in Hn;
        [|exact category_to_string_inj]. rewrite List.map_map in Hn. exact Hn.
    + intros c Hin. rewrite List.map_map in Hin. apply in_map_iff in Hin as ([c' ds] & Hk & Hg).
      simpl in Hk. apply category_to_string_inj in Hk. subst c'.
      exists (category_card (c, ds)). split; [apply in_map, Hg|split; [reflexivity|]].
      simpl. rewrite <- Hl. rewrite (group_lookup_in c ds g Hn Hg). reflexivity.
    + unfold summary. cbn [s_total]. rewrite Hrows, length_map. apply Permutation_length. symmetry. exact Hc.
    + unfold summary. cbn [s_categories]. rewrite length_map. reflexivity.
Qed.

(** "Latest Upload" reads [documents[0]]: with the store's documents in
    insertion order, after two uploads and a reload it shows the first,
    the oldest. *)
Lemma latest_upload_is_oldest s oid d1 d2 :
  documents_of s oid = [] -> Document.opportunity_id d1 = oid -> Document.opportunity_id d2 = oid ->
  option_map Document.document_name
    (s_latest (document_view (mkDocPage oid (documents_of (post_document (post_document s d1) d2) oid)
                                        emptyDocForm false [] None false)).1)
  = Some (Document.document_name d1).
Proof.
  intros H0 H1 H2. unfold documents_of in *. cbn [post_document st_documents].
  rewrite !List.filter_app, H0. simpl. rewrite H1, H2, String.eqb_refl. reflexivity.
Qed.

(** ** The compliance matrix *)

(** The matrix shows the "approved" badge and the check icon on exactly
    the items that [calculateComplianceRate] counts as completed. *)
Lemma matrix_approved_count p rows :
  matrix p = Some rows ->
  count_if (fun r => String.eqb (m_badge r) "badge badge-approved") rows = completed_count (cp_items p) /\
  count_if (fun r => bool_decide (m_icon r = CheckCircle)) rows = completed_count (cp_items p).
Proof.
  unfold matrix. destruct (Nat.eqb _ 0); [discriminate|]. intros [= <-].
  unfold completed_count. induction (cp_items p) as [|i l IH]; [auto|].
  destruct IH as [IH1 IH2]. cbn [map]. rewrite !count_if_cons, IH1, IH2.
  unfold is_compliant. destruct i as [? ? ? [] ? ?]; split; reflexivity.
Qed.


(** ** The detail page after a document upload *)

Lemma activities_of_post_activity s a oid :
  activities_of (post_activity s a) oid =
  activities_of s oid ++ (if String.eqb (Activity.opportunity_id a) oid then [a] else []).
Proof. unfold activities_of. cbn [post_activity st_activities]. rewrite List.filter_app. reflexivity. Qed.

Lemma activity_log_snoc acts a : activity_log (acts ++ [a]) = LogRows (map act_row acts ++ [act_row a]).
Proof.
  unfold activity_log. rewrite length_app. simpl. rewrite Nat.add_comm. simpl. rewrite List.map_app. reflexivity.
Qed.

(** C32: the document manager and the detail page meet in the store:
    after an upload whose two requests succeed, loading the
    opportunity's detail page shows its header and details, and the last
    entry of its activity log is the upload, with the version label the
    manager assigned and the uploader. *)
Theorem upload_logged_on_detail p s o :
  get_opportunity s (dp_id p) = Some o ->
  exists rows,
    detail_render (detail_loadData true (detail_init (dp_id p)) (DocumentManager.handleSubmit true true p s).2)
      = Some (header o, details o, LogRows rows) /\
    last rows = Some (mkActRow "Document Upload"
                        (upload_description (dp_form p) (nextVersion (dp_documents p) (form_document_name (dp_form p))))
                        ("by " +:+ form_uploaded_by (dp_form p))).
Proof.
  intros Ho. unfold DocumentManager.handleSubmit. cbv zeta. cbn [snd].
  unfold detail_loadData, detail_init. cbn [dt_id].
  replace (get_opportunity (post_activity (post_document s _) _) (dp_id p)) with (Some o) by (exact (eq_sym Ho)).
  unfold detail_render, detail_view. cbn [dt_loading dt_opportunity dt_activities].
  rewrite activities_of_post_activity. cbn [Activity.opportunity_id]. rewrite String.eqb_refl, activity_log_snoc.
  eexists. split; [reflexivity|]. rewrite last_snoc. reflexivity.
Qed.

Lemma upload_logged_on_detail_witness :
  exists o, get_opportunity (post_opportunity empty_store (sample_opp "Acme" Review None)) "opp-0" = Some o /\
  exists rows,
    detail_render (detail_loadData true (detail_init "opp-0")
                     (DocumentManager.handleSubmit true true (mkDocPage "opp-0" [] sample_form true [] None false)
                        (post_opportunity empty_store (sample_opp "Acme" Review None))).2)
      = Some (header o, details o, LogRows rows) /\
    last rows = Some (mkActRow "Document Upload" (upload_description sample_form (nextVersion [] "Proposal.pdf"))
                               ("by " +:+ "ana")).
Proof.
  eexists. split; [vm_compute; reflexivity|].
  exact (upload_logged_on_detail (mkDocPage "opp-0" [] sample_form true [] None false)
           (post_opportunity empty_store (sample_opp "Acme" Review None)) _ eq_refl).
Defined.

(** C39: whatever the events and request outcomes, from a store whose
    identifiers are unique, every list the pages key renders distinct
    React keys and distinct [data-testid]s: the tracker's table, the
    compliance matrix and the rows of all the document manager's
    category cards. *)
Theorem rendered_keys_unique now s oid et ec ed :
  store_ids_ok s ->
  (let rows := tbl_rows (table now (tracker_run et (tracker_init, s)).1) in
   NoDup (map row_key rows) /\ NoDup (map row_testid rows)) /\
  (match matrix (checker_run ec (checker_init oid, s)).1 with
   | Some rows => NoDup (map m_key rows) /\ NoDup (map m_testid rows)
   | None => True
   end) /\
  (match (document_view (doc_run ed (doc_page_init oid, s)).1).2 with
   | Some cards => NoDup (map d_key (concat (map card_rows cards))) /\
                   NoDup (map d_testid (concat (map card_rows cards)))
   | None => True
   end).
Proof.
  intros Hs. split; [|split].
  - destruct (tracker_run_ids et (tracker_init, s) (conj Hs NoDup_nil_2)) as [_ Hids].
    cbv zeta. unfold table. cbn [tbl_rows].
    apply (keyed_rows_nodup (row now) id row_key row_testid "opportunity-row-");
      [reflexivity|reflexivity|apply tp_filtered_ids, Hids].
  - destruct (checker_run_ids ec (checker_init oid, s) (conj Hs NoDup_nil_2)) as [_ Hids].
    unfold matrix. destruct (Nat.eqb _ 0); [exact I|].
    apply (keyed_rows_nodup matrix_row ComplianceItem.id m_key m_testid "compliance-item-");
      [reflexivity|reflexivity|exact Hids].
  - destruct (doc_run_ids ed (doc_page_init oid, s) (conj Hs NoDup_nil_2)) as [_ Hids].
    unfold document_view. cbv zeta. cbn [snd]. destruct (Nat.eqb _ 0); [exact I|].
    rewrite card_rows_concat.
    apply (keyed_rows_nodup doc_row Document.id d_key d_testid "document-"); [reflexivity|reflexivity|].
    rewrite (groupDocumentsByCategory_concat _). exact Hids.
Qed.

Lemma rendered_keys_unique_witness :
  store_ids_ok (post_opportunity (post_opportunity empty_store (sample_opp "Acme" Review None))
                                 (sample_opp "Globex" Won None)) /\
  (let rows := tbl_rows (table 0 (tracker_run [TLoad true; TSearch "a"]
                 (tracker_init, post_opportunity (post_opportunity empty_store (sample_opp "Acme" Review None))
                                                 (sample_opp "Globex" Won None))).1) in
   NoDup (map row_key rows) /\ NoDup (map row_testid rows)) /\
  (match matrix (checker_run [CLoad true] (checker_init "opp-0",
           post_opportunity (post_opportunity empty_store (sample_opp "Acme" Review None))
                            (sample_opp "Globex" Won None))).1 with
   | Some rows => NoDup (map m_key rows) /\ NoDup (map m_testid rows)
   | None => True
   end) /\
  (match (document_view (doc_run [EvReload true] (doc_page_init "opp-0",
           post_opportunity (post_opportunity empty_store (sample_opp "Acme" Review None))
                            (sample_opp "Globex" Won None))).1).2 with
   | Some cards => NoDup (map d_key (concat (map card_rows cards))) /\
                   NoDup (map d_testid (concat (map card_rows cards)))
   | None => True
   end).
Proof.
  assert (H : store_ids_ok (post_opportunity (post_opportunity empty_store (sample_opp "Acme" Review None))
                                             (sample_opp "Globex" Won None))).
  { split; [split|split; apply minted_nil].
    - apply (bool_decide_unpack _). vm_compute. reflexivity.
    - repeat constructor; [exists 0|exists 1]; split; solve [cbn; lia | reflexivity]. }
  split; [exact H|]. exact (rendered_keys_unique 0 _ "opp-0" [TLoad true; TSearch "a"] [CLoad true] [EvReload true] H).
Defined.

(** ** The dashboard *)

Section DashboardAgainstService.
Context `{StatisticsService}.

(** After a successful load, the alert is shown exactly when the
    "Urgent Deadlines" card is not zero, at the same instant, and its
    heading carries that number. *)
Lemma dashboard_alert_card now s p :
  match dashboard_render now (dashboard_loadData stats_of true now s p) with
  | DashShown alert cards _ =>
      match alert with
      | None => cards.2 = 0%Z
      | Some txt => cards.2 <> 0%Z /\ exists suffix, txt = num_str cards.2 +:+ " Urgent Deadline" +:+ suffix
      end
  | DashLoading => False
  end.
Proof.
  unfold dashboard_render, dashboard_loadData. cbn [db_loading db_opportunities db_statistics].
  rewrite dashboard_cards_urgent. unfold urgent_alert.
  destruct (Nat.eqb_spec (length (dashboard_urgentOpportunities now (st_opportunities s))) 0) as [E|E].
  - rewrite E. reflexivity.
  - split; [lia|]. eexists. reflexivity.
Qed.

End DashboardAgainstService.

(** The recent cards of the dashboard are keyed by distinct identifiers
    once the page has loaded from a store with unique identifiers. *)
Lemma dashboard_recent_keys `{StatisticsService} now s p :
  store_ids_ok s ->
  match dashboard_render now (dashboard_loadData stats_of true now s p) with
  | DashShown _ _ recent => NoDup (map rc_key recent) /\ NoDup (map rc_testid recent)
  | DashLoading => True
  end.
Proof.
  intros [[Hn _] _]. unfold dashboard_render, dashboard_loadData. cbn [db_loading db_opportunities].
  apply (keyed_rows_nodup (recent_card now) id rc_key rc_testid "opportunity-"); [reflexivity|reflexivity|].
  eapply sublist_NoDup; [exact Hn|]. apply sublist_map, sublist_take.
Qed.

(** ** Pages without their opportunity *)

(** When the opportunity is gone, the compliance checker does not show a
    "not found" screen as the detail page does: after its load it shows
    the page, with the subtitle " - " and the cards of whatever items it
    held, and the dialog to add a requirement stays available. *)
Lemma checker_screen_missing oid s p :
  get_opportunity s oid = None -> cp_id p = oid ->
  checker_screen (ComplianceChecker.loadData true p s) =
  Some (page_subtitle (cp_opportunity p), checker_cards p, matrix p).
Proof.
  intros Hg Hid. unfold ComplianceChecker.loadData. rewrite Hid, Hg. reflexivity.
Qed.

Lemma doc_screen_missing oid s p :
  get_opportunity s oid = None -> dp_id p = oid ->
  doc_screen (DocumentManager.loadData true p s) = Some (page_subtitle (dp_opportunity p), document_view p).
Proof.
  intros Hg Hid. unfold DocumentManager.loadData. rewrite Hid, Hg. reflexivity.
Qed.
